(** * ETF holdings tracker: the ingest pipeline and the query helper

    A shallow embedding of [tracker.py] and [query_helper.py].

    - A pandas frame read from the vendor feed is a header (the column
      labels) and a list of rows; a row is a record of the eleven source
      columns the code reads.
    - The SQLite table [holdings] is the list of its rows in insertion
      order ([id] and [created_at] are assigned by the engine and left out).
    - Functions that open a connection or print run in a small
      state-and-exception monad over [World].
    - REAL values are rationals: the properties below only compare with
      zero and subtract, so the rounding and the infinities of floats are
      not modelled. *)

From Stdlib Require Import List String Ascii Bool Arith Lia.
From Stdlib Require Import QArith Qabs.
From Stdlib Require Import Permutation Sorted OrderedTypeEx.
Import ListNotations.

Local Open Scope string_scope.
Local Open Scope list_scope.
Local Open Scope nat_scope.

(* ================================================================== *)
(** ** Data model *)

(** One row of the [holdings] table (the columns of CREATE TABLE, lines
    54-73 of tracker.py).  [etf_code] and [date_of_pull] are NOT NULL; every
    other column is nullable, [None] being SQL NULL (pandas NaN/None). *)
Record Holding : Type := mkHolding {
  etf_code : string;
  date_of_pull : string;
  ticker : option string;
  name : option string;
  location : option string;
  sector : option string;
  maturity : option string;
  weight_pct : option Q;
  ytm_pct : option Q;
  market_value : option Q;
  notional_value : option Q;
  shares : option Q;
  price : option Q
}.

(** A cell of a numeric source column, classified by what
    [pd.to_numeric(..., errors="coerce")] makes of it. *)
Inductive Cell : Type :=
| Empty                 (* no value in the field: NaN *)
| Number (q : Q)        (* coerces to the number q *)
| Text (s : string).    (* any text that fails the coercion *)

(** One data row of the feed, by source column (section 6 of the interface:
    the labels are case-sensitive).  The descriptive columns hold text or
    nothing.  A field whose column is missing from the header is ignored. *)
Record RawRow : Type := mkRawRow {
  Ticker : option string;
  Name : option string;
  Location : option string;
  Sector : option string;
  Maturity : option string;
  Weight : Cell;
  YTM : Cell;
  MarketValue : Cell;
  NotionalValue : Cell;
  Shares : Cell;
  Price : Cell
}.

(** What [pd.read_csv] hands back: the header labels and the data rows.
    Labels other than the eleven below never reach the result (the
    projection on [columns_to_keep] drops them); a header spelled exactly
    like a canonical lower-case column is outside the model. *)
Record RawTable : Type := mkRawTable {
  columns : list string;
  rows : list RawRow
}.

(** The frame [fetch_etf_data] returns: the canonical columns it has, and
    its rows.  A column the frame lacks is [None] in every row, which is
    also what [to_sql] stores for it. *)
Record Frame : Type := mkFrame {
  frame_columns : list string;
  frame_rows : list Holding
}.

Inductive Exn : Type :=
| KeyError
| IntegrityError
| OtherError.

Definition Exc (A : Type) : Type := (Exn + A)%type.

(* ------------------------------------------------------------------ *)
(** ** Configuration (tracker.py, lines 15-40) *)

Record Config : Type := mkConfig {
  cfg_name : string;
  url : string;
  header_row : nat
}.

(** The dict [ETF_CONFIG], in insertion order (the order of [.keys()]). *)
Definition ETF_CONFIG : list (string * Config) :=
  [ ("CEMBI", mkConfig "iShares Emerging Markets Corporate Bond ETF"
       "https://www.ishares.com/us/products/239525/ishares-emerging-markets-corporate-bond-etf/1467271812596.ajax?fileType=csv&fileName=CEMB_holdings&dataType=fund" 9);
    ("EMBI", mkConfig "iShares J.P. Morgan USD Emerging Markets Bond ETF"
       "https://www.ishares.com/us/products/239572/ishares-jp-morgan-usd-emerging-markets-bond-etf/1467271812596.ajax?fileType=csv&fileName=EMB_holdings&dataType=fund" 9);
    ("GBI", mkConfig "iShares Emerging Markets Local Currency Bond ETF"
       "https://www.ishares.com/us/products/239528/ishares-emerging-markets-local-currency-bond-etf/1467271812596.ajax?fileType=csv&fileName=LEMB_holdings&dataType=fund" 9);
    ("EMHY", mkConfig "iShares Emerging Markets High Yield Bond ETF"
       "https://www.ishares.com/us/products/239527/ishares-emerging-markets-high-yield-bond-etf/1467271812596.ajax?fileType=csv&fileName=EMHY_holdings&dataType=fund" 9) ].

Fixpoint dict_get {A : Type} (d : list (string * A)) (k : string) : option A :=
  match d with
  | [] => None
  | (k', v) :: d' => if String.eqb k' k then Some v else dict_get d' k
  end.

Definition dict_keys {A : Type} (d : list (string * A)) : list string :=
  map fst d.

(** Where the storage engine fails while the tracker works on one ETF, if
    it does (database locked, disk full, too many SQL variables, ...).  The
    tracker reaches the engine twice for an ETF: with the SELECT of
    [check_data_exists], which has no handler around it, and with the INSERT
    of [to_sql].  A failure of the first ends the run before the second is
    reached. *)
Inductive EngineFault : Type :=
| NoFault
| CheckFails      (* cursor.execute of check_data_exists raises *)
| StoreFails.     (* to_sql raises an error that is not an IntegrityError *)

(** What lies outside the program: the clock, the vendor feed and the
    failures of the storage engine that do not depend on the data.
    [sqlite3.connect] and [os.makedirs] are taken to succeed. *)
Record Env : Type := mkEnv {
  (* datetime.now().strftime('%Y-%m-%d'), the same during one run *)
  today : string;
  (* pd.read_csv(url, header=...): the table, or the exception it raises *)
  read_csv : string -> nat -> Exc RawTable;
  (* a cursor.execute of init_database raises *)
  init_fault : bool;
  (* the failure of the engine on this ETF *)
  engine_fault : string -> EngineFault;
  (* pd.read_sql_query raises (no such table, database locked, ...) *)
  query_fault : bool
}.

Definition check_fault (env : Env) (etf : string) : bool :=
  match engine_fault env etf with
  | CheckFails => true
  | _ => false
  end.

Definition store_fault (env : Env) (etf : string) : bool :=
  match engine_fault env etf with
  | StoreFails => true
  | _ => false
  end.

(* ------------------------------------------------------------------ *)
(** ** The world and its monad *)

Inductive Line : Type :=
| SavedRecords (n : nat)          (* "Saved n records to database" *)
| DataAlreadyExists               (* "Data already exists for this date, skipping..." *)
| ErrorSaving (etf : string)      (* "Error saving etf: ..." *)
| ComparisonCounts (new_holdings removed_holdings changed_holdings : nat).

(** The table, the connections opened by [sqlite3.connect] and not yet
    closed by [conn.close()], and the lines printed that the properties
    below read (the other status lines are left out). *)
Record World : Type := mkWorld {
  holdings : list Holding;
  open_connections : nat;
  console : list Line
}.

Definition M (A : Type) : Type := World -> Exc A * World.

Definition ret {A : Type} (a : A) : M A := fun w => (inr a, w).

Definition bind {A B : Type} (m : M A) (k : A -> M B) : M B :=
  fun w => match m w with
           | (inr a, w') => k a w'
           | (inl e, w') => (inl e, w')
           end.

(** [try: m except e: h e]; what [m] did to the world before raising stays. *)
Definition try_except {A : Type} (m : M A) (h : Exn -> M A) : M A :=
  fun w => match m w with
           | (inr a, w') => (inr a, w')
           | (inl e, w') => h e w'
           end.

Notation "x <- m ;; k" := (bind m (fun x => k))
  (at level 61, m at next level, right associativity).
Notation "m ;;; k" := (bind m (fun _ => k))
  (at level 61, right associativity).

Definition connect : M unit :=
  fun w => (inr tt, mkWorld (holdings w) (S (open_connections w)) (console w)).

Definition close : M unit :=
  fun w => (inr tt, mkWorld (holdings w) (pred (open_connections w)) (console w)).

Definition print (l : Line) : M unit :=
  fun w => (inr tt, mkWorld (holdings w) (open_connections w) (console w ++ [l])).

(* ================================================================== *)
(** ** tracker.py *)

(** *** Database functions *)

(** [cursor.execute]: the statement gives its result, or the engine raises.
    No statement run this way changes a row. *)
Definition cursor_execute {A : Type} (fault : bool) (result : list Holding -> A)
  : M A :=
  fun w => if fault then (inl OtherError, w) else (inr (result (holdings w)), w).

Definition commit : M unit := ret tt.

(** [init_database] (lines 46-83): CREATE TABLE / CREATE INDEX IF NOT
    EXISTS change no row.  Nothing catches what [cursor.execute] raises, and
    [conn.close()] is then not reached. *)
Definition init_database (env : Env) : M unit :=
  connect ;;;
  cursor_execute (init_fault env) (fun _ => tt) ;;;
  commit ;;;
  close.

(** SELECT COUNT( * ) FROM holdings WHERE etf_code = ? AND date_of_pull = ?
    with bound parameters (lines 85-98). *)
Definition count_for (etf date : string) (table : list Holding) : nat :=
  List.length (filter (fun h => String.eqb (etf_code h) etf
                           && String.eqb (date_of_pull h) date) table).

Definition check_data_exists (env : Env) (etf date_str : string) : M bool :=
  connect ;;;
  count <- cursor_execute (check_fault env etf) (count_for etf date_str) ;;
  close ;;;
  ret (0 <? count).

(** *** fetch_etf_data (lines 104-163) *)

Definition has_column (c : string) (df : RawTable) : bool :=
  existsb (String.eqb c) (columns df).

Definition to_numeric (c : Cell) : option Q :=
  match c with
  | Number q => Some q
  | Empty | Text _ => None
  end.

(** [x != 0] on a float: NaN compares unequal to everything. *)
Definition ne_zero (v : option Q) : bool :=
  match v with
  | Some q => negb (Qeq_bool q 0)
  | None => true
  end.

(** [df.get("Weight (%)", 0)]: the column, or the default [0]. *)
Inductive Got : Type :=
| Series (cells : list Cell)
| Scalar (q : Q).

Definition df_get_weight (df : RawTable) : Got :=
  if has_column "Weight (%)" df then Series (map Weight (rows df)) else Scalar 0.

(** [pd.to_numeric(..., errors="coerce") != 0]: element-wise on a column,
    a plain boolean on a scalar. *)
Inductive Indexer : Type :=
| BoolSeries (mask : list bool)
| BoolScalar (b : bool).

Definition weight_indexer (g : Got) : Indexer :=
  match g with
  | Series cells => BoolSeries (map (fun c => ne_zero (to_numeric c)) cells)
  | Scalar q => BoolScalar (ne_zero (Some q))
  end.

Fixpoint select {A : Type} (mask : list bool) (l : list A) : list A :=
  match mask, l with
  | b :: mask', x :: l' => if b then x :: select mask' l' else select mask' l'
  | _, _ => []
  end.

(** [df[key]]: a boolean column keeps the rows it marks; a scalar is looked
    up as a column label, and no label of a csv header is a boolean. *)
Definition getitem (df : RawTable) (key : Indexer) : Exc RawTable :=
  match key with
  | BoolSeries mask => inr (mkRawTable (columns df) (select mask (rows df)))
  | BoolScalar _ => inl KeyError
  end.

Definition head (n : nat) (df : RawTable) : RawTable :=
  mkRawTable (columns df) (firstn n (rows df)).

(** The two dicts and the list of lines 116-149. *)
Definition numeric_columns : list (string * string) :=
  [ ("Weight (%)", "weight_pct"); ("YTM (%)", "ytm_pct");
    ("Market Value", "market_value"); ("Notional Value", "notional_value");
    ("Shares", "shares"); ("Price", "price") ].

Definition column_mapping : list (string * string) :=
  [ ("Ticker", "ticker"); ("Name", "name"); ("Location", "location");
    ("Sector", "sector"); ("Maturity", "maturity") ].

Definition columns_to_keep : list string :=
  [ "etf_code"; "date_of_pull"; "ticker"; "name"; "location"; "sector";
    "maturity"; "weight_pct"; "ytm_pct"; "market_value"; "notional_value";
    "shares"; "price" ].

(** [col in df.columns] once the numeric columns are added, the descriptive
    ones renamed and the two metadata columns stamped. *)
Definition made_from (col : string) (pair : string * string) (df : RawTable) : bool :=
  String.eqb (snd pair) col && has_column (fst pair) df.

Definition in_frame (df : RawTable) (col : string) : bool :=
  String.eqb col "etf_code" || String.eqb col "date_of_pull"
  || existsb (fun p => made_from col p df) (numeric_columns ++ column_mapping).

(** A numeric column exists only if its source column does (line 126); a
    descriptive one is the renamed source column (line 138). *)
Definition numeric_field (df : RawTable) (orig_col : string) (c : Cell) : option Q :=
  if has_column orig_col df then to_numeric c else None.

Definition renamed_field (df : RawTable) (orig_col : string) (v : option string)
  : option string :=
  if has_column orig_col df then v else None.

Definition clean_row (etf today_str : string) (df : RawTable) (r : RawRow) : Holding :=
  {| etf_code := etf;
     date_of_pull := today_str;
     ticker := renamed_field df "Ticker" (Ticker r);
     name := renamed_field df "Name" (Name r);
     location := renamed_field df "Location" (Location r);
     sector := renamed_field df "Sector" (Sector r);
     maturity := renamed_field df "Maturity" (Maturity r);
     weight_pct := numeric_field df "Weight (%)" (Weight r);
     ytm_pct := numeric_field df "YTM (%)" (YTM r);
     market_value := numeric_field df "Market Value" (MarketValue r);
     notional_value := numeric_field df "Notional Value" (NotionalValue r);
     shares := numeric_field df "Shares" (Shares r);
     price := numeric_field df "Price" (Price r) |}.

Definition notna {A : Type} (v : option A) : nat :=
  match v with Some _ => 1 | None => 0 end.

(** [row.count()]: the non-null cells of a row over the columns of the
    frame.  [etf_code] and [date_of_pull] are always set; a column the frame
    lacks is [None] and adds nothing. *)
Definition count_notna (h : Holding) : nat :=
  1 + 1 + notna (ticker h) + notna (name h) + notna (location h)
  + notna (sector h) + notna (maturity h) + notna (weight_pct h)
  + notna (ytm_pct h) + notna (market_value h) + notna (notional_value h)
  + notna (shares h) + notna (price h).

(** [df.dropna(thresh=len(df.columns) * 0.5)]: a row stays when its count
    of non-null cells is at least half the number of columns. *)
Definition dropna_keeps (ncols : nat) (h : Holding) : bool :=
  ncols <=? 2 * count_notna h.

Definition dropna_thresh (df : Frame) : Frame :=
  mkFrame (frame_columns df)
          (filter (dropna_keeps (List.length (frame_columns df))) (frame_rows df)).

(** Lines 115-153 on the filtered table. *)
Definition clean (etf today_str : string) (df : RawTable) : Frame :=
  mkFrame (filter (in_frame df) columns_to_keep)
          (map (clean_row etf today_str df) (rows df)).

(** The body of the [try] block. *)
Definition fetch_body (env : Env) (etf : string) (config : Config) : Exc Frame :=
  match read_csv env (url config) (header_row config) with
  | inl e => inl e
  | inr df =>
      match getitem df (weight_indexer (df_get_weight df)) with
      | inl e => inl e
      | inr kept => inr (dropna_thresh (clean etf (today env) (head 1000 kept)))
      end
  end.

(** [except Exception: return None]. *)
Definition fetch_etf_data (env : Env) (etf : string) (config : Config) : option Frame :=
  match fetch_body env etf config with
  | inr df => Some df
  | inl _ => None
  end.

(** *** save_to_database (lines 165-184) *)

(** The constraint UNIQUE(etf_code, date_of_pull, ticker, name) of the
    schema.  SQLite holds NULLs distinct from one another in a UNIQUE
    constraint, so two rows collide only when ticker and name are set in
    both. *)
Definition eqb_notnull (a b : option string) : bool :=
  match a, b with
  | Some x, Some y => String.eqb x y
  | _, _ => false
  end.

Definition unique_clash (a b : Holding) : bool :=
  String.eqb (etf_code a) (etf_code b)
  && String.eqb (date_of_pull a) (date_of_pull b)
  && eqb_notnull (ticker a) (ticker b)
  && eqb_notnull (name a) (name b).

(** The rows of one multi-row INSERT, checked one after the other against
    the table and the rows before them. *)
Fixpoint insert_rows (table batch : list Holding) : Exc (list Holding) :=
  match batch with
  | [] => inr table
  | r :: batch' =>
      if existsb (unique_clash r) table then inl IntegrityError
      else insert_rows (table ++ [r]) batch'
  end.

(** [df.to_sql('holdings', conn, if_exists='append', index=False,
    method='multi')]: one statement inside one transaction, rolled back
    when it raises. *)
Definition to_sql (fault : bool) (df : Frame) : M unit :=
  fun w =>
    if fault then (inl OtherError, w)
    else match insert_rows (holdings w) (frame_rows df) with
         | inl e => (inl e, w)
         | inr table => (inr tt, mkWorld table (open_connections w) (console w))
         end.

Definition save_to_database (env : Env) (df : Frame) (etf : string) : M bool :=
  try_except
    (connect ;;;
     to_sql (store_fault env etf) df ;;;
     commit ;;;
     close ;;;
     print (SavedRecords (List.length (frame_rows df))) ;;;
     ret true)
    (fun e => match e with
              | IntegrityError => print DataAlreadyExists ;;; ret false
              | _ => print (ErrorSaving etf) ;;; ret false
              end).

(** *** run_tracker (lines 190-251) *)

Record Results : Type := mkResults {
  success : list string;
  failed : list string;
  skipped : list string
}.

Definition add_success (r : Results) (c : string) : Results :=
  mkResults (success r ++ [c]) (failed r) (skipped r).
Definition add_failed (r : Results) (c : string) : Results :=
  mkResults (success r) (failed r ++ [c]) (skipped r).
Definition add_skipped (r : Results) (c : string) : Results :=
  mkResults (success r) (failed r) (skipped r ++ [c]).

(** The body of the [for] loop, lines 218-242. *)
Definition process_etf (env : Env) (results : Results) (etf : string) : M Results :=
  match dict_get ETF_CONFIG etf with
  | None => ret (add_failed results etf)
  | Some config =>
      fetched <- check_data_exists env etf (today env) ;;
      if fetched then ret (add_skipped results etf)
      else
        match fetch_etf_data env etf config with
        | Some df =>
            if 0 <? List.length (frame_rows df) then
              ok <- save_to_database env df etf ;;
              if ok then ret (add_success results etf)
              else ret (add_skipped results etf)
            else ret (add_failed results etf)
        | None => ret (add_failed results etf)
        end
  end.

Fixpoint for_each {A S : Type} (l : list A) (body : S -> A -> M S) (s : S) : M S :=
  match l with
  | [] => ret s
  | x :: l' => s' <- body s x ;; for_each l' body s'
  end.

(** Lines 206-207: [None] stands for every configured ETF. *)
Definition codes_to_fetch (etf_codes : option (list string)) : list string :=
  match etf_codes with
  | None => dict_keys ETF_CONFIG
  | Some l => l
  end.

(** The run; its result is the summary it prints.  What [init_database] or
    [check_data_exists] raises leaves the function. *)
Definition run_tracker (env : Env) (etf_codes : option (list string)) : M Results :=
  init_database env ;;;
  for_each (codes_to_fetch etf_codes) (process_etf env) (mkResults [] [] []).

(* ================================================================== *)
(** ** query_helper.py *)

(** The statements are assembled by pasting the arguments between single
    quotes.  For an ETF code and a date the definitions below are the
    selections these statements denote for a code and a date as the program
    has them: a code is a key of [ETF_CONFIG] (the only codes the tracker
    stores), a date is 'YYYY-MM-DD' text (the docstring of
    [get_holdings_by_date], and what [strftime] writes); neither holds a
    quote character, and a code or a date that does is outside the model.
    The free-text arguments of [track_bond_over_time] and
    [get_country_exposure_over_time] (a ticker, a name, a location), which
    can hold a quote, are read the way SQLite reads them, through
    [sql_quoted] further down. *)

(** ORDER BY ... DESC, as a stable insertion sort: [geb x y] says that [x]
    may stand before [y]. *)
Fixpoint insert_by {A : Type} (geb : A -> A -> bool) (x : A) (l : list A) : list A :=
  match l with
  | [] => [x]
  | y :: l' => if geb x y then x :: y :: l' else y :: insert_by geb x l'
  end.

Definition order_by {A : Type} (geb : A -> A -> bool) (l : list A) : list A :=
  fold_right (insert_by geb) [] l.

(** [weight_pct DESC]: SQLite ranks NULL below every number, so NULLs come
    last. *)
Definition weight_geb (a b : Holding) : bool :=
  match weight_pct a, weight_pct b with
  | _, None => true
  | None, Some _ => false
  | Some x, Some y => Qle_bool y x
  end.

(** MAX over text values (the dates are 'YYYY-MM-DD' text, compared byte by
    byte); NULL when there is no row. *)
Definition later (a b : string) : string :=
  if String.leb a b then b else a.

Definition sql_max (l : list string) : option string :=
  match l with
  | [] => None
  | d :: l' => Some (fold_right later d l')
  end.

Definition of_etf (etf : string) (h : Holding) : bool :=
  String.eqb (etf_code h) etf.

Definition on_date (date : option string) (h : Holding) : bool :=
  match date with
  | Some d => String.eqb (date_of_pull h) d
  | None => false          (* date_of_pull = NULL holds for no row *)
  end.

(** The query of [get_latest_holdings], lines 20-27. *)
Definition select_latest (etf : string) (table : list Holding) : list Holding :=
  let max_date := sql_max (map date_of_pull (filter (of_etf etf) table)) in
  order_by weight_geb
    (filter (fun h => of_etf etf h && on_date max_date h) table).

(** The query of [get_holdings_by_date], lines 39-44. *)
Definition select_by_date (etf date_str : string) (table : list Holding) : list Holding :=
  order_by weight_geb
    (filter (fun h => of_etf etf h && on_date (Some date_str) h) table).

Definition read_sql_query (fault : bool) (query : list Holding -> list Holding)
  : M (list Holding) :=
  fun w => if fault then (inl OtherError, w) else (inr (query (holdings w)), w).

Definition get_latest_holdings (env : Env) (etf : string) : M (list Holding) :=
  connect ;;;
  df <- read_sql_query (query_fault env) (select_latest etf) ;;
  close ;;;
  ret df.

Definition get_holdings_by_date (env : Env) (etf date_str : string) : M (list Holding) :=
  connect ;;;
  df <- read_sql_query (query_fault env) (select_by_date etf date_str) ;;
  close ;;;
  ret df.

(** *** compare_dates (lines 111-137) *)

(** A row of the outer merge on (ticker, name): the row of the first frame,
    of the second, or of both.  The columns of the side a row lacks are
    NaN. *)
Inductive Merged : Type :=
| OnlyOld (o : Holding)
| OnlyNew (n : Holding)
| Both (o n : Holding).

Definition old_side (m : Merged) : option Holding :=
  match m with
  | OnlyOld o | Both o _ => Some o
  | OnlyNew _ => None
  end.

Definition new_side (m : Merged) : option Holding :=
  match m with
  | OnlyNew n | Both _ n => Some n
  | OnlyOld _ => None
  end.

(** The key columns, which the merge keeps once. *)
Definition key_side (m : Merged) : Holding :=
  match m with
  | OnlyOld o | Both o _ => o
  | OnlyNew n => n
  end.

Definition col_old {A : Type} (col : Holding -> option A) (m : Merged) : option A :=
  match old_side m with Some o => col o | None => None end.

Definition col_new {A : Type} (col : Holding -> option A) (m : Merged) : option A :=
  match new_side m with Some n => col n | None => None end.

Definition option_eqb (a b : option string) : bool :=
  match a, b with
  | Some x, Some y => String.eqb x y
  | None, None => true
  | _, _ => false
  end.

(** Equality of the join keys; pandas pairs a missing key with a missing
    key. *)
Definition same_key (a b : Holding) : bool :=
  option_eqb (ticker a) (ticker b) && option_eqb (name a) (name b).

(** [df1.merge(df2, on=['ticker', 'name'], how='outer')]: every pairing of
    an old row with a new row of the same key, then the rows without a
    partner.  The order of the rows is replaced by [sort_values] below. *)
Definition pair_old (df2 : list Holding) (o : Holding) : list Merged :=
  match filter (same_key o) df2 with
  | [] => [OnlyOld o]
  | partners => map (Both o) partners
  end.

Definition unmatched_new (df1 df2 : list Holding) : list Holding :=
  filter (fun n => negb (existsb (fun o => same_key o n) df1)) df2.

Definition merge_outer (df1 df2 : list Holding) : list Merged :=
  flat_map (pair_old df2) df1 ++ map OnlyNew (unmatched_new df1 df2).

Definition fillna0 (v : option Q) : Q :=
  match v with Some q => q | None => 0%Q end.

Definition isna {A : Type} (v : option A) : bool :=
  match v with Some _ => false | None => true end.

(** Lines 124-125: the weights are filled with 0 before the subtraction;
    the yields are not, and NaN propagates through theirs. *)
Definition merged_weight_change (m : Merged) : Q :=
  (fillna0 (col_new weight_pct m) - fillna0 (col_old weight_pct m))%Q.

Definition merged_ytm_change (m : Merged) : option Q :=
  match col_new ytm_pct m, col_old ytm_pct m with
  | Some n, Some o => Some (n - o)%Q
  | _, _ => None
  end.

(** [sort_values('abs_weight_change', ascending=False)]. *)
Definition abs_change_geb (a b : Merged) : bool :=
  Qle_bool (Qabs (merged_weight_change b)) (Qabs (merged_weight_change a)).

(** The columns of the frame returned (lines 136-137). *)
Record CompareRow : Type := mkCompareRow {
  out_name : option string;
  out_ticker : option string;
  location_new : option string;
  weight_pct_old : option Q;
  weight_pct_new : option Q;
  weight_change : Q;
  ytm_pct_old : option Q;
  ytm_pct_new : option Q;
  ytm_change : option Q
}.

Definition output_row (m : Merged) : CompareRow :=
  {| out_name := name (key_side m);
     out_ticker := ticker (key_side m);
     location_new := col_new location m;
     weight_pct_old := col_old weight_pct m;
     weight_pct_new := col_new weight_pct m;
     weight_change := merged_weight_change m;
     ytm_pct_old := col_old ytm_pct m;
     ytm_pct_new := col_new ytm_pct m;
     ytm_change := merged_ytm_change m |}.

Definition count_if {A : Type} (p : A -> bool) (l : list A) : nat :=
  List.length (filter p l).

(** The three counts printed at lines 132-134. *)
Definition new_count (merged : list Merged) : nat :=
  count_if (fun m => isna (col_old weight_pct m)) merged.

Definition removed_count (merged : list Merged) : nat :=
  count_if (fun m => isna (col_new weight_pct m)) merged.

Definition changed_count (merged : list Merged) : nat :=
  count_if (fun m => negb (Qeq_bool (merged_weight_change m) 0)) merged.

Definition compare_frames (df1 df2 : list Holding) : list Merged :=
  order_by abs_change_geb (merge_outer df1 df2).

Definition compare_dates (env : Env) (etf date1 date2 : string) : M (list CompareRow) :=
  df1 <- get_holdings_by_date env etf date1 ;;
  df2 <- get_holdings_by_date env etf date2 ;;
  let merged := compare_frames df1 df2 in
  print (ComparisonCounts (new_count merged) (removed_count merged)
                          (changed_count merged)) ;;;
  ret (map output_row merged).

(* ================================================================== *)
(** ** Predicates used in the statements *)

(** The row filter of line 113 when the weight column is there. *)
Definition weight_ok (r : RawRow) : bool := ne_zero (to_numeric (Weight r)).

(** A row that the UNIQUE constraint can tell from others: ticker and name
    are both set. *)
Definition keyed (h : Holding) : bool :=
  negb (isna (ticker h)) && negb (isna (name h)).

(** No two rows of a snapshot share their join key (missing = missing). *)
Fixpoint keys_distinct (l : list Holding) : bool :=
  match l with
  | [] => true
  | h :: l' => negb (existsb (same_key h) l') && keys_distinct l'
  end.

(** The count of the data-quality floor as the specification words it:
    non-null fields "excluding the key fields", the key being
    (etf_code, date_of_pull, ticker, name).  The code counts with
    [count_notna]. *)
Definition count_nonkey (h : Holding) : nat :=
  notna (location h) + notna (sector h) + notna (maturity h)
  + notna (weight_pct h) + notna (ytm_pct h) + notna (market_value h)
  + notna (notional_value h) + notna (shares h) + notna (price h).

(** A feed row that supplies its ticker and its weight and nothing else. *)
Definition only_ticker_and_weight (r : RawRow) : Prop :=
  Name r = None /\ Location r = None /\ Sector r = None /\ Maturity r = None
  /\ YTM r = Empty /\ MarketValue r = Empty /\ NotionalValue r = Empty
  /\ Shares r = Empty /\ Price r = Empty.

(** The three lists of a summary have no code in common. *)
Definition pairwise_disjoint (r : Results) : Prop :=
  forall c : string,
    ~ (In c (success r) /\ In c (skipped r))
    /\ ~ (In c (success r) /\ In c (failed r))
    /\ ~ (In c (skipped r) /\ In c (failed r)).

(** A code that no list of the summary has yet. *)
Definition fresh (c : string) (r : Results) : Prop :=
  ~ In c (success r) /\ ~ In c (failed r) /\ ~ In c (skipped r).

(** ORDER BY weight_pct DESC holds of a list. *)
Definition weight_descending (l : list Holding) : Prop :=
  StronglySorted (fun a b => weight_geb a b = true) l.

(** The weight [a] may be listed before the weight [b] when the heaviest
    comes first: [b] is null, or both are numbers and [b <= a]. *)
Definition no_lighter (a b : option Q) : Prop :=
  match a, b with
  | _, None => True
  | None, Some _ => False
  | Some x, Some y => (y <= x)%Q
  end.

(** Every row of the list has a weight no lighter than the rows after it. *)
Definition heaviest_first (l : list Holding) : Prop :=
  StronglySorted (fun a b => no_lighter (weight_pct a) (weight_pct b)) l.

(* ------------------------------------------------------------------ *)
(** ** Sample inputs *)

Definition full_header : list string :=
  [ "Name"; "Sector"; "Asset Class"; "Market Value"; "Weight (%)";
    "Notional Value"; "Shares"; "Price"; "Location"; "YTM (%)"; "Maturity";
    "Ticker" ].

Definition row_mex : RawRow :=
  mkRawRow (Some "MEX10Y") (Some "MEXICO 2030") (Some "Mexico")
           (Some "Sovereign") (Some "Jan 15, 2030")
           (Number (32 # 10)) (Number (61 # 10)) (Number 1000) (Number 1000)
           (Number 10) (Number 100).

Definition row_zero_weight : RawRow :=
  mkRawRow (Some "BRA10Y") (Some "BRAZIL 2031") (Some "Brazil")
           (Some "Sovereign") (Some "Mar 1, 2031")
           (Number 0) (Number (70 # 10)) (Number 0) (Number 0)
           (Number 0) (Number 98).

(** The weight field is a dash: every other field is filled. *)
Definition row_text_weight : RawRow :=
  mkRawRow (Some "TUR10Y") (Some "TURKEY 2032") (Some "Turkey")
           (Some "Sovereign") (Some "Feb 1, 2032")
           (Text "-") (Number (85 # 10)) (Number 500) (Number 500)
           (Number 5) (Number 97).

(** Ticker and weight only. *)
Definition row_sparse : RawRow :=
  mkRawRow (Some "COL10Y") None None None None
           (Number 2) Empty Empty Empty Empty Empty.

(** The four key fields and three of the nine others. *)
Definition row_three_values : RawRow :=
  mkRawRow (Some "PER10Y") (Some "PERU 2033") None None None
           (Number 5) (Number (55 # 10)) Empty Empty Empty (Number 101).

Definition sample_table : RawTable :=
  mkRawTable full_header
    [row_mex; row_zero_weight; row_text_weight; row_sparse; row_three_values].

Definition sample_env : Env :=
  mkEnv "2025-01-01" (fun _ _ => inr sample_table) false (fun _ => NoFault) false.

(** What [fetch_etf_data] makes of [sample_table]: the zero-weight row is
    filtered out, the sparse one falls under the null floor. *)
Definition sample_frame : Frame :=
  mkFrame columns_to_keep
    (map (clean_row "EMBI" "2025-01-01" sample_table)
         [row_mex; row_text_weight; row_three_values]).

(** The same feed, with a storage engine that fails on EMBI. *)
Definition faulty_store_env : Env :=
  mkEnv "2025-01-01" (fun _ _ => inr sample_table) false
        (fun etf => if String.eqb etf "EMBI" then StoreFails else NoFault) false.

(** The same feed, with a database that is locked when [init_database]
    runs its first statement. *)
Definition locked_env : Env :=
  mkEnv "2025-01-01" (fun _ _ => inr sample_table) true (fun _ => NoFault) false.

(** The same feed, with an engine that fails on the existence check of GBI. *)
Definition faulty_check_env : Env :=
  mkEnv "2025-01-01" (fun _ _ => inr sample_table) false
        (fun etf => if String.eqb etf "GBI" then CheckFails else NoFault) false.

(** A feed without the weight column. *)
Definition no_weight_env : Env :=
  mkEnv "2025-01-01"
        (fun _ _ => inr (mkRawTable ["Name"; "Sector"; "Price"] [row_mex]))
        false (fun _ => NoFault) false.

Definition sample_config : Config :=
  mkConfig "iShares J.P. Morgan USD Emerging Markets Bond ETF" "feed" 9.

Definition empty_world : World := mkWorld [] 0 [].

Definition holding_mex : Holding :=
  mkHolding "EMBI" "2025-01-01" (Some "MEX10Y") (Some "MEXICO 2030")
            (Some "Mexico") (Some "Sovereign") (Some "Jan 15, 2030")
            (Some (32 # 10)%Q) (Some (61 # 10)%Q) (Some 1000%Q) (Some 1000%Q)
            (Some 10%Q) (Some 100%Q).

(** A bond-fund row: the feed has no ticker column. *)
Definition holding_no_ticker : Holding :=
  mkHolding "EMBI" "2025-01-01" None (Some "TURKEY (REPUBLIC OF)")
            (Some "Turkey") (Some "Sovereign") (Some "Feb 1, 2032")
            (Some (11 # 10)%Q) (Some (85 # 10)%Q) (Some 500%Q) (Some 500%Q)
            (Some 5%Q) (Some 97%Q).

(** Another bond of the same issuer: same name, no ticker either. *)
Definition holding_no_ticker_2 : Holding :=
  mkHolding "EMBI" "2025-01-01" None (Some "TURKEY (REPUBLIC OF)")
            (Some "Turkey") (Some "Sovereign") (Some "Mar 1, 2040")
            (Some (4 # 10)%Q) (Some (90 # 10)%Q) (Some 200%Q) (Some 200%Q)
            (Some 2%Q) (Some 95%Q).

(** A stored row without weight and without yield. *)
Definition holding_no_numbers : Holding :=
  mkHolding "EMBI" "2025-01-01" (Some "CASH") (Some "USD CASH")
            (Some "United States") (Some "Cash") None
            None None (Some 500%Q) (Some 500%Q) (Some 5%Q) (Some 1%Q).

Definition holding_new : Holding :=
  mkHolding "EMBI" "2025-01-15" (Some "CHL10Y") (Some "CHILE 2034")
            (Some "Chile") (Some "Sovereign") (Some "Jan 1, 2034")
            (Some 5%Q) None (Some 700%Q) (Some 700%Q) (Some 7%Q) (Some 100%Q).

Definition holding_mex_later : Holding :=
  mkHolding "EMBI" "2025-01-15" (Some "MEX10Y") (Some "MEXICO 2030")
            (Some "Mexico") (Some "Sovereign") (Some "Jan 15, 2030")
            (Some (30 # 10)%Q) (Some (62 # 10)%Q) (Some 900%Q) (Some 900%Q)
            (Some 9%Q) (Some 100%Q).

Definition frame_of (l : list Holding) : Frame :=
  mkFrame columns_to_keep l.

Definition world_of (table : list Holding) : World := mkWorld table 0 [].

(* ================================================================== *)
(** ** query_helper.py, the other queries *)

(** A read query whatever the shape of its result. *)
Definition read_sql {A : Type} (fault : bool) (query : list Holding -> A) : M A :=
  fun w => if fault then (inl OtherError, w) else (inr (query (holdings w)), w).

(** Python truthiness of an optional string argument: [None] and the empty
    string both count as not given ([if ticker:]). *)
Definition truthy (arg : option string) : option string :=
  match arg with
  | Some EmptyString => None
  | other => other
  end.

(** *** get_top_holdings (lines 52-59) *)

(** [df.head(n)]: the first [n] rows; for a negative [n], all rows but the
    last [|n|]. *)
Definition df_head {A : Type} (n : Z) (l : list A) : list A :=
  if (0 <=? n)%Z then firstn (Z.to_nat n) l
  else firstn (List.length l - Z.to_nat (- n)) l.

Record TopRow : Type := mkTopRow {
  top_name : option string;
  top_location : option string;
  top_weight_pct : option Q;
  top_ytm_pct : option Q;
  top_maturity : option string
}.

Definition top_columns (h : Holding) : TopRow :=
  mkTopRow (name h) (location h) (weight_pct h) (ytm_pct h) (maturity h).

Definition get_top_holdings (env : Env) (etf : string) (top_n : Z)
           (date_str : option string) : M (list TopRow) :=
  df <- match date_str with
        | None => get_latest_holdings env etf
        | Some d => get_holdings_by_date env etf d
        end ;;
  ret (map top_columns (df_head top_n df)).

(** *** track_bond_over_time (lines 61-87) *)

Definition ascii_lower (c : ascii) : ascii :=
  let n := nat_of_ascii c in
  if (65 <=? n) && (n <=? 90) then ascii_of_nat (n + 32) else c.

(** A string is the UTF-8 text of the database, byte by byte.  A byte
    10xxxxxx continues the character begun before it. *)
Definition is_continuation (c : ascii) : bool :=
  let n := nat_of_ascii c in (128 <=? n) && (n <=? 191).

Fixpoint skip_continuation (s : string) : string :=
  match s with
  | EmptyString => EmptyString
  | String c s' => if is_continuation c then skip_continuation s' else s
  end.

(** The text behind its first character: a lead byte 11xxxxxx takes the
    continuation bytes that follow it along. *)
Definition after_char (s : string) : option string :=
  match s with
  | EmptyString => None
  | String c s' =>
      Some (if 192 <=? nat_of_ascii c then skip_continuation s' else s')
  end.

(** The LIKE operator of SQLite on well-formed UTF-8 text: [%] stands for
    any run of characters, [_] for any one character (one or several bytes),
    an ASCII letter matches itself in either case and every other byte
    matches itself only. *)
Fixpoint sql_like (pattern s : string) : bool :=
  match pattern with
  | EmptyString => match s with EmptyString => true | String _ _ => false end
  | String p pattern' =>
      if Ascii.eqb p "%" then
        (fix any (s : string) : bool :=
           sql_like pattern' s
           || match s with
              | EmptyString => false
              | String _ s' => any s'
              end) s
      else if Ascii.eqb p "_" then
        match after_char s with
        | None => false
        | Some s' => sql_like pattern' s'
        end
      else
        match s with
        | EmptyString => false
        | String c s' =>
            Ascii.eqb (ascii_lower p) (ascii_lower c) && sql_like pattern' s'
        end
  end.

(** The free-text arguments (a ticker, a name, a location) are pasted
    between single quotes like the codes and the dates are, but such a text
    can hold a quote (COTE D'IVOIRE).  SQLite reads two quotes in a row as
    one quote of the literal; a quote that stands alone ends the literal,
    and what follows it is read as SQL.  [sql_quoted s] is the literal that
    the pasted text [s] denotes, [None] when [s] has a quote standing
    alone. *)
Fixpoint sql_quoted (s : string) : option string :=
  match s with
  | EmptyString => Some EmptyString
  | String c s' =>
      if Ascii.eqb c "'" then
        match s' with
        | String c' s'' =>
            if Ascii.eqb c' "'" then option_map (String "'") (sql_quoted s'')
            else None
        | EmptyString => None
        end
      else option_map (String c) (sql_quoted s')
  end.

(** The clause of an optional free-text argument: none when the argument
    is not given ([if name:]), else the literal it denotes.  With a quote
    standing alone the statement does not parse and [pd.read_sql_query]
    raises (a text written so that the rest of the statement parses again is
    outside the model). *)
Definition pasted (arg : option string) : Exc (option string) :=
  match truthy arg with
  | None => inr None
  | Some s =>
      match sql_quoted s with
      | Some literal => inr (Some literal)
      | None => inl OtherError
      end
  end.

(** [name LIKE '%...%']; NULL LIKE anything is not true. *)
Definition name_like (literal : string) (h : Holding) : bool :=
  match name h with
  | Some s => sql_like ("%" ++ literal ++ "%") s
  | None => false
  end.

(** The WHERE clause: the conjunction of the clauses of the arguments
    given, [1=1] when none is. *)
Definition track_where (ticker_lit name_lit etf_arg : option string)
           (h : Holding) : bool :=
  match ticker_lit with
  | Some t => eqb_notnull (ticker h) (Some t)
  | None => true
  end
  && match name_lit with
     | Some n => name_like n h
     | None => true
     end
  && match etf_arg with
     | Some e => String.eqb (etf_code h) e
     | None => true
     end.

(** ORDER BY date_of_pull, etf_code. *)
Definition date_etf_leb (a b : Holding) : bool :=
  match String.compare (date_of_pull a) (date_of_pull b) with
  | Lt => true
  | Gt => false
  | Eq => String.leb (etf_code a) (etf_code b)
  end.

Record BondPoint : Type := mkBondPoint {
  bp_date_of_pull : string;
  bp_etf_code : string;
  bp_name : option string;
  bp_ticker : option string;
  bp_location : option string;
  bp_weight_pct : option Q;
  bp_ytm_pct : option Q;
  bp_price : option Q;
  bp_market_value : option Q
}.

Definition bond_point (h : Holding) : BondPoint :=
  mkBondPoint (date_of_pull h) (etf_code h) (name h) (ticker h) (location h)
              (weight_pct h) (ytm_pct h) (price h) (market_value h).

Definition track_rows (ticker_lit name_lit etf_arg : option string)
           (table : list Holding) : list Holding :=
  order_by date_etf_leb (filter (track_where ticker_lit name_lit etf_arg) table).

(** The statement of lines 65-80, as the selection it denotes. *)
Definition track_statement (ticker_arg name_arg etf_arg : option string)
  : Exc (list Holding -> list BondPoint) :=
  match pasted ticker_arg, pasted name_arg with
  | inr t, inr n =>
      inr (fun table => map bond_point (track_rows t n (truthy etf_arg) table))
  | inl e, _ | _, inl e => inl e
  end.

(** [pd.read_sql_query(query, conn)] on a statement that may not parse. *)
Definition read_statement {A : Type} (fault : bool)
           (statement : Exc (list Holding -> A)) : M A :=
  match statement with
  | inr query => read_sql fault query
  | inl e => fun w => (inl e, w)
  end.

Definition track_bond_over_time (env : Env) (ticker_arg name_arg etf_arg : option string)
  : M (list BondPoint) :=
  connect ;;;
  df <- read_statement (query_fault env)
          (track_statement ticker_arg name_arg etf_arg) ;;
  close ;;;
  ret df.

(** *** GROUP BY *)

(** The keys of the groups, each once, in the order [cmp] gives. *)
Fixpoint insert_key {K : Type} (cmp : K -> K -> comparison) (k : K) (l : list K)
  : list K :=
  match l with
  | [] => [k]
  | x :: l' =>
      match cmp k x with
      | Lt => k :: x :: l'
      | Eq => x :: l'
      | Gt => x :: insert_key cmp k l'
      end
  end.

Definition group_keys {K : Type} (cmp : K -> K -> comparison) (l : list K) : list K :=
  fold_right (insert_key cmp) [] l.

Definition non_null (l : list (option Q)) : list Q :=
  flat_map (fun v => match v with Some q => [q] | None => [] end) l.

Definition q_sum (l : list Q) : Q := fold_right Qplus 0%Q l.

(** SUM and AVG skip NULLs and are NULL when nothing is left. *)
Definition sql_sum (l : list (option Q)) : option Q :=
  match non_null l with
  | [] => None
  | vs => Some (q_sum vs)
  end.

Definition sql_avg (l : list (option Q)) : option Q :=
  match non_null l with
  | [] => None
  | vs => Some (q_sum vs / inject_Z (Z.of_nat (List.length vs)))%Q
  end.

(** *** get_country_exposure_over_time (lines 89-109) *)

Record Exposure : Type := mkExposure {
  exp_date_of_pull : string;
  total_weight : option Q;
  num_holdings : nat;
  avg_ytm : option Q
}.

(** WHERE etf_code = ... AND location = ..., for the literal the pasted
    location denotes. *)
Definition exposure_where (etf literal : string) (h : Holding) : bool :=
  of_etf etf h && eqb_notnull (location h) (Some literal).

Definition pulled_on (d : string) (h : Holding) : bool :=
  String.eqb (date_of_pull h) d.

Definition exposure_row (matching : list Holding) (d : string) : Exposure :=
  let group := filter (pulled_on d) matching in
  mkExposure d (sql_sum (map weight_pct group)) (List.length group)
             (sql_avg (map ytm_pct group)).

Definition exposure_query (etf literal : string) (table : list Holding)
  : list Exposure :=
  let matching := filter (exposure_where etf literal) table in
  map (exposure_row matching)
      (group_keys String.compare (map date_of_pull matching)).

(** The statement of lines 92-104, as the selection it denotes. *)
Definition exposure_statement (etf loc : string)
  : Exc (list Holding -> list Exposure) :=
  match sql_quoted loc with
  | Some literal => inr (exposure_query etf literal)
  | None => inl OtherError
  end.

Definition get_country_exposure_over_time (env : Env) (etf loc : string)
  : M (list Exposure) :=
  connect ;;;
  df <- read_statement (query_fault env) (exposure_statement etf loc) ;;
  close ;;;
  ret df.

(** *** get_available_dates (lines 139-162) *)

(** A row of either result: the [etf_code] column exists only when no ETF
    was asked for. *)
Record DateCount : Type := mkDateCount {
  dc_date_of_pull : string;
  dc_etf_code : option string;
  dc_num_holdings : nat
}.

(** ORDER BY date_of_pull DESC. *)
Definition date_desc (a b : string) : comparison := String.compare b a.

(** ORDER BY date_of_pull DESC, etf_code. *)
Definition date_desc_etf_asc (a b : string * string) : comparison :=
  match String.compare (fst b) (fst a) with
  | Eq => String.compare (snd a) (snd b)
  | c => c
  end.

Definition date_and_etf (h : Holding) : string * string :=
  (date_of_pull h, etf_code h).

Definition pulled_on_for (k : string * string) (h : Holding) : bool :=
  String.eqb (date_of_pull h) (fst k) && String.eqb (etf_code h) (snd k).

Definition available_dates_query (etf_arg : option string) (table : list Holding)
  : list DateCount :=
  match truthy etf_arg with
  | Some e =>
      let matching := filter (of_etf e) table in
      map (fun d => mkDateCount d None (count_if (pulled_on d) matching))
          (group_keys date_desc (map date_of_pull matching))
  | None =>
      map (fun k => mkDateCount (fst k) (Some (snd k))
                                (count_if (pulled_on_for k) table))
          (group_keys date_desc_etf_asc (map date_and_etf table))
  end.

Definition get_available_dates (env : Env) (etf_arg : option string)
  : M (list DateCount) :=
  connect ;;;
  df <- read_sql (query_fault env) (available_dates_query etf_arg) ;;
  close ;;;
  ret df.

(** *** get_database_stats (lines 164-200) *)

Definition earlier (a b : string) : string :=
  if String.leb a b then a else b.

Definition sql_min (l : list string) : option string :=
  match l with
  | [] => None
  | d :: l' => Some (fold_right earlier d l')
  end.

(** The dict returned; the breakdown by ETF is printed only. *)
Record Stats : Type := mkStats {
  total_records : nat;
  date_range : option string * option string
}.

Definition stats_query (table : list Holding) : Stats :=
  mkStats (List.length table)
          (sql_min (map date_of_pull table), sql_max (map date_of_pull table)).

Definition get_database_stats (env : Env) : M Stats :=
  connect ;;;
  stats <- read_sql (query_fault env) stats_query ;;
  close ;;;
  ret stats.

(* ------------------------------------------------------------------ *)
(** ** More predicates and sample inputs *)

(** Null-ness of a canonical column in a row, by column label. *)
Definition column_isna (col : string) (h : Holding) : bool :=
  if String.eqb col "ticker" then isna (ticker h)
  else if String.eqb col "name" then isna (name h)
  else if String.eqb col "location" then isna (location h)
  else if String.eqb col "sector" then isna (sector h)
  else if String.eqb col "maturity" then isna (maturity h)
  else if String.eqb col "weight_pct" then isna (weight_pct h)
  else if String.eqb col "ytm_pct" then isna (ytm_pct h)
  else if String.eqb col "market_value" then isna (market_value h)
  else if String.eqb col "notional_value" then isna (notional_value h)
  else if String.eqb col "shares" then isna (shares h)
  else if String.eqb col "price" then isna (price h)
  else false.

(** [a] can be followed by [b] under ORDER BY weight_pct DESC. *)
Definition weight_top (a b : TopRow) : bool :=
  match top_weight_pct a, top_weight_pct b with
  | _, None => true
  | None, Some _ => false
  | Some x, Some y => Qle_bool y x
  end.

Fixpoint string_lower (s : string) : string :=
  match s with
  | EmptyString => EmptyString
  | String c s' => String (ascii_lower c) (string_lower s')
  end.

(** The text has neither of the two wildcards of LIKE. *)
Fixpoint no_wildcard (s : string) : bool :=
  match s with
  | EmptyString => true
  | String c s' =>
      negb (Ascii.eqb c "%") && negb (Ascii.eqb c "_") && no_wildcard s'
  end.



(** The feed cannot be reached. *)
Definition offline_env : Env :=
  mkEnv "2025-01-01" (fun _ _ => inl OtherError) false (fun _ => NoFault) false.

(** A name with an apostrophe in it. *)
Definition holding_ivory : Holding :=
  mkHolding "EMBI" "2025-01-01" (Some "CIV33") (Some "COTE D'IVOIRE 2033")
            (Some "Cote D'Ivoire") (Some "Sovereign") (Some "Jan 30, 2033")
            (Some (6 # 10)%Q) (Some (80 # 10)%Q) (Some 300%Q) (Some 300%Q)
            (Some 3%Q) (Some 96%Q).

Definition sample_store : list Holding :=
  [holding_mex; holding_no_ticker; holding_no_ticker_2; holding_no_numbers;
   holding_new; holding_mex_later].

(** Rows stored in no order of weight. *)
Definition shuffled_store : list Holding :=
  [holding_no_numbers; holding_no_ticker_2; holding_new; holding_mex;
   holding_no_ticker].

(** The table has a row of this ETF for today: what [check_data_exists]
    looks for. *)
Definition stored_today (env : Env) (c : string) (table : list Holding) : Prop :=
  exists h, In h table /\ etf_code h = c /\ date_of_pull h = today env.

(** On this table a turn of the loop for [c] stores nothing: the code is
    not configured, or today's rows are there, or the fetch gives no row,
    or the save is refused. *)
Definition settled (env : Env) (c : string) (table : list Holding) : Prop :=
  match dict_get ETF_CONFIG c with
  | None => True
  | Some config =>
      0 < count_for c (today env) table
      \/ match fetch_etf_data env c config with
         | None => True
         | Some df =>
             frame_rows df = []
             \/ store_fault env c = true
             \/ insert_rows table (frame_rows df) = inl IntegrityError
         end
  end.

(** The merged row seen from the other date. *)
Definition swap_sides (m : Merged) : Merged :=
  match m with
  | OnlyOld o => OnlyNew o
  | OnlyNew n => OnlyOld n
  | Both o n => Both n o
  end.

(** The pairings of the outer merge, and the rows without a partner. *)
Definition paired (df1 df2 : list Holding) : list Merged :=
  flat_map (fun o => map (Both o) (filter (same_key o) df2)) df1.

Definition lonely (df1 df2 : list Holding) : list Holding :=
  filter (fun o => negb (existsb (same_key o) df2)) df1.

(* ================================================================== *)
(** * Properties *)

(** ** The normaliser *)

Lemma has_column_In (c : string) (df : RawTable) :
  has_column c df = true <-> In c (columns df).
Proof.
  unfold has_column. rewrite existsb_exists. split.
  - intros [x [Hin Heq]]. apply String.eqb_eq in Heq. now subst.
  - intros Hin. exists c. split; [assumption | apply String.eqb_refl].
Qed.

Lemma has_column_false (c : string) (df : RawTable) :
  ~ In c (columns df) -> has_column c df = false.
Proof.
  intros Hn. destruct (has_column c df) eqn:E; [|reflexivity].
  apply has_column_In in E. contradiction.
Qed.

Lemma select_map_filter {A : Type} (f : A -> bool) (l : list A) :
  select (map f l) l = filter f l.
Proof.
  induction l as [|x l IH]; simpl; [reflexivity|].
  rewrite IH. reflexivity.
Qed.

Lemma getitem_weight (df : RawTable) :
  has_column "Weight (%)" df = true ->
  getitem df (weight_indexer (df_get_weight df))
  = inr (mkRawTable (columns df) (filter weight_ok (rows df))).
Proof.
  intros H. unfold df_get_weight. rewrite H. simpl.
  rewrite map_map. unfold weight_ok.
  rewrite (select_map_filter (fun r => ne_zero (to_numeric (Weight r)))).
  reflexivity.
Qed.

Lemma getitem_no_weight (df : RawTable) :
  has_column "Weight (%)" df = false ->
  getitem df (weight_indexer (df_get_weight df)) = inl KeyError.
Proof.
  intros H. unfold df_get_weight. rewrite H. reflexivity.
Qed.

Lemma clean_row_columns (etf d : string) (a b : RawTable) (r : RawRow) :
  columns a = columns b -> clean_row etf d a r = clean_row etf d b r.
Proof.
  intros H. unfold clean_row, renamed_field, numeric_field, has_column.
  rewrite H. reflexivity.
Qed.

Lemma in_frame_columns (a b : RawTable) (c : string) :
  columns a = columns b -> in_frame a c = in_frame b c.
Proof.
  intros H. unfold in_frame, made_from, has_column. rewrite H. reflexivity.
Qed.

Lemma In_firstn {A : Type} (n : nat) (l : list A) (x : A) :
  In x (firstn n l) -> In x l.
Proof.
  revert l. induction n as [|n IH]; intros [|y l] H; simpl in H; try contradiction.
  destruct H as [H|H]; [now left | right; now apply IH].
Qed.

(** What a successful fetch is made of. *)
Lemma fetch_etf_data_Some (env : Env) (etf : string) (config : Config) (df : Frame) :
  fetch_etf_data env etf config = Some df ->
  exists t,
    read_csv env (url config) (header_row config) = inr t
    /\ In "Weight (%)" (columns t)
    /\ frame_columns df = filter (in_frame t) columns_to_keep
    /\ frame_rows df
       = filter (dropna_keeps (List.length (frame_columns df)))
           (map (clean_row etf (today env) t)
                (firstn 1000 (filter weight_ok (rows t)))).
Proof.
  unfold fetch_etf_data, fetch_body.
  destruct (read_csv env (url config) (header_row config)) as [e|t] eqn:Hcsv;
    [discriminate|].
  destruct (has_column "Weight (%)" t) eqn:Hw.
  - rewrite (getitem_weight t Hw). intros H. injection H as <-.
    exists t. split; [reflexivity|]. split; [now apply has_column_In|].
    unfold dropna_thresh, clean, head.
    cbn [frame_columns frame_rows columns rows]. split.
    + apply filter_ext. intros c. now apply in_frame_columns.
    + reflexivity.
  - rewrite (getitem_no_weight t Hw). discriminate.
Qed.

Lemma ne_zero_Some (q : Q) : ne_zero (Some q) = true <-> ~ (q == 0)%Q.
Proof.
  simpl. rewrite negb_true_iff. split.
  - intros H Hq. apply Qeq_bool_iff in Hq. congruence.
  - intros H. destruct (Qeq_bool q 0) eqn:E; [|reflexivity].
    apply Qeq_bool_iff in E. contradiction.
Qed.

(** C10 (confirmed): a feed table without the "Weight (%)" column makes
    the filter of line 113 raise (the default [0] of [df.get] turns into the
    key [False], which is no column), the [except] clause catches it and
    [fetch_etf_data] returns [None]: no record is returned. *)
Theorem C10_no_weight_column_returns_None :
  forall (env : Env) (etf : string) (config : Config) (t : RawTable),
    read_csv env (url config) (header_row config) = inr t ->
    ~ In "Weight (%)" (columns t) ->
    fetch_body env etf config = inl KeyError
    /\ fetch_etf_data env etf config = None.
Proof.
  intros env etf config t Hcsv Hno.
  assert (Hb : fetch_body env etf config = inl KeyError).
  { unfold fetch_body. rewrite Hcsv.
    rewrite (getitem_no_weight t (has_column_false _ _ Hno)). reflexivity. }
  split; [exact Hb|]. unfold fetch_etf_data. rewrite Hb. reflexivity.
Qed.

Lemma C10_witness :
  fetch_body no_weight_env "EMBI" sample_config = inl KeyError
  /\ fetch_etf_data no_weight_env "EMBI" sample_config = None.
Proof.
  apply (C10_no_weight_column_returns_None no_weight_env "EMBI" sample_config
           (mkRawTable ["Name"; "Sector"; "Price"] [row_mex])).
  - reflexivity.
  - simpl. intros H. repeat (destruct H as [H|H]; [discriminate H|]). exact H.
Defined.

(** C2, the claim as stated fails: a row whose weight field fails the
    numeric coercion is not excluded.  In [sample_table] the row
    [row_text_weight] has the weight "-"; NaN != 0 holds, the row passes
    the filter and is returned with a null [weight_pct]. *)
Lemma C2_counterexample :
  In row_text_weight (rows sample_table)
  /\ to_numeric (Weight row_text_weight) = None
  /\ fetch_etf_data sample_env "EMBI" sample_config = Some sample_frame
  /\ In (clean_row "EMBI" "2025-01-01" sample_table row_text_weight)
        (frame_rows sample_frame)
  /\ weight_pct (clean_row "EMBI" "2025-01-01" sample_table row_text_weight)
     = None.
Proof.
  split; [simpl; tauto|]. split; [reflexivity|].
  split; [vm_compute; reflexivity|].
  split; [|reflexivity]. simpl. tauto.
Qed.

Lemma In_firstn_behind {A : Type} (n : nat) (pre post : list A) (x : A) :
  List.length pre < n -> In x (firstn n (pre ++ x :: post)).
Proof.
  revert n. induction pre as [|y pre IH]; intros [|n] H; simpl in *; try lia.
  - now left.
  - right. apply IH. lia.
Qed.

Lemma filter_length_le {A : Type} (p : A -> bool) (l : list A) :
  List.length (filter p l) <= List.length l.
Proof.
  induction l as [|x l IH]; simpl; [lia|]. destruct (p x); simpl; lia.
Qed.

(** C2 (amended): every record [fetch_etf_data] returns is the cleaned form
    of a feed row that passed the filter [to_numeric(weight) != 0]; a row
    whose weight coerces to zero is never among them, and the weight of a
    returned record is null or a number other than zero.  A row whose
    weight fails the coercion is not excluded: NaN != 0 holds, and such a
    row -- like one with a non-zero weight -- is returned when fewer than
    1000 rows stand before it in the table and its count of non-null cells
    reaches the null floor; its [weight_pct] is then null. *)
Theorem C2_zero_weight_rows_excluded :
  forall (env : Env) (etf : string) (config : Config) (df : Frame),
    fetch_etf_data env etf config = Some df ->
    exists t,
      read_csv env (url config) (header_row config) = inr t
      /\ (forall h, In h (frame_rows df) ->
            (exists r, In r (rows t)
                       /\ h = clean_row etf (today env) t r
                       /\ (forall q, to_numeric (Weight r) = Some q -> ~ (q == 0)%Q))
            /\ (forall q, weight_pct h = Some q -> ~ (q == 0)%Q))
      /\ (forall pre r post,
            rows t = pre ++ r :: post ->
            List.length pre < 1000 ->
            (forall q, to_numeric (Weight r) = Some q -> ~ (q == 0)%Q) ->
            List.length (frame_columns df)
            <= 2 * count_notna (clean_row etf (today env) t r) ->
            In (clean_row etf (today env) t r) (frame_rows df)
            /\ (to_numeric (Weight r) = None ->
                weight_pct (clean_row etf (today env) t r) = None)).
Proof.
  intros env etf config df Hf.
  destruct (fetch_etf_data_Some env etf config df Hf)
    as [t [Hcsv [Hw [Hcols Hrows]]]].
  exists t. split; [exact Hcsv|]. split.
  - intros h Hin. rewrite Hrows in Hin.
    apply filter_In in Hin. destruct Hin as [Hin _].
    apply in_map_iff in Hin. destruct Hin as [r [Hh Hr]].
    apply In_firstn in Hr. apply filter_In in Hr. destruct Hr as [Hr Hok].
    assert (Hnz : forall q, to_numeric (Weight r) = Some q -> ~ (q == 0)%Q).
    { intros q Hq. unfold weight_ok in Hok. rewrite Hq in Hok.
      now apply ne_zero_Some. }
    split.
    + exists r. split; [exact Hr|]. split; [now symmetry | exact Hnz].
    + intros q Hq. subst h. simpl in Hq. unfold numeric_field in Hq.
      destruct (has_column "Weight (%)" t); [|discriminate].
      now apply Hnz.
  - intros pre r post Hsplit Hpre Hnz Hfloor. split.
    + rewrite Hrows. apply filter_In. split.
      * apply in_map. rewrite Hsplit, filter_app. cbn [filter].
        assert (Hok : weight_ok r = true).
        { unfold weight_ok. destruct (to_numeric (Weight r)) as [q|] eqn:Hq;
            [|reflexivity].
          apply ne_zero_Some. now apply Hnz. }
        rewrite Hok. apply In_firstn_behind.
        pose proof (filter_length_le weight_ok pre). lia.
      * unfold dropna_keeps. now apply Nat.leb_le.
    + intros Hnan. cbn [weight_pct clean_row]. unfold numeric_field.
      rewrite Hnan. now destruct (has_column "Weight (%)" t).
Qed.

Lemma C2_witness :
  fetch_etf_data sample_env "EMBI" sample_config = Some sample_frame
  /\ exists t,
       read_csv sample_env (url sample_config) (header_row sample_config) = inr t
       /\ (forall h, In h (frame_rows sample_frame) ->
             (exists r, In r (rows t)
                        /\ h = clean_row "EMBI" (today sample_env) t r
                        /\ (forall q, to_numeric (Weight r) = Some q -> ~ (q == 0)%Q))
             /\ (forall q, weight_pct h = Some q -> ~ (q == 0)%Q))
       /\ (forall pre r post,
             rows t = pre ++ r :: post ->
             List.length pre < 1000 ->
             (forall q, to_numeric (Weight r) = Some q -> ~ (q == 0)%Q) ->
             List.length (frame_columns sample_frame)
             <= 2 * count_notna (clean_row "EMBI" (today sample_env) t r) ->
             In (clean_row "EMBI" (today sample_env) t r) (frame_rows sample_frame)
             /\ (to_numeric (Weight r) = None ->
                 weight_pct (clean_row "EMBI" (today sample_env) t r) = None)).
Proof.
  assert (H : fetch_etf_data sample_env "EMBI" sample_config = Some sample_frame)
    by (vm_compute; reflexivity).
  split; [exact H|].
  exact (C2_zero_weight_rows_excluded sample_env "EMBI" sample_config
           sample_frame H).
Defined.

Lemma notna_le_1 {A : Type} (v : option A) : notna v <= 1.
Proof. destruct v; simpl; lia. Qed.

Lemma renamed_field_None (df : RawTable) (c : string) :
  renamed_field df c None = None.
Proof. unfold renamed_field. now destruct (has_column c df). Qed.

Lemma numeric_field_Empty (df : RawTable) (c : string) :
  numeric_field df c Empty = None.
Proof. unfold numeric_field. now destruct (has_column c df). Qed.

Lemma count_notna_sparse (etf d : string) (df : RawTable) (r : RawRow) :
  only_ticker_and_weight r -> count_notna (clean_row etf d df r) <= 4.
Proof.
  intros [Hn [Hl [Hs [Hm [Hy [Hmv [Hnv [Hsh Hp]]]]]]]].
  unfold count_notna, clean_row.
  cbn [ticker name location sector maturity weight_pct ytm_pct market_value
       notional_value shares price].
  rewrite Hn, Hl, Hs, Hm, Hy, Hmv, Hnv, Hsh, Hp.
  rewrite !renamed_field_None, !numeric_field_Empty. simpl notna.
  pose proof (notna_le_1 (renamed_field df "Ticker" (Ticker r))).
  pose proof (notna_le_1 (numeric_field df "Weight (%)" (Weight r))).
  lia.
Qed.

(** C8, the claim as stated fails: the count is not taken over the non-key
    fields only.  [row_three_values] has three of its nine non-key fields
    set (weight, yield, price), which is below half of the thirteen
    canonical columns and below half of the nine non-key ones, and the row
    is returned all the same: its four key fields count too, 7 of 13. *)
Lemma C8_counterexample :
  fetch_etf_data sample_env "EMBI" sample_config = Some sample_frame
  /\ List.length (frame_columns sample_frame) = 13
  /\ In (clean_row "EMBI" "2025-01-01" sample_table row_three_values)
        (frame_rows sample_frame)
  /\ count_nonkey (clean_row "EMBI" "2025-01-01" sample_table row_three_values) = 3
  /\ 2 * 3 < 9
  /\ count_notna (clean_row "EMBI" "2025-01-01" sample_table row_three_values) = 7.
Proof.
  split; [vm_compute; reflexivity|].
  split; [reflexivity|]. split; [simpl; tauto|].
  split; [reflexivity|]. split; [lia | reflexivity].
Qed.

(** C8 (amended): the rows [fetch_etf_data] returns are exactly the cleaned
    rows (of the first 1000 that pass the weight filter) whose count of
    non-null cells, taken over every canonical column of the frame -- the
    key fields etf_code, date_of_pull, ticker and name included -- is at
    least half the number of these columns.  In particular a row that
    supplies only ticker and weight is dropped when the frame has nine
    canonical columns or more. *)
Theorem C8_null_floor_counts_every_column :
  forall (env : Env) (etf : string) (config : Config) (df : Frame),
    fetch_etf_data env etf config = Some df ->
    exists t,
      read_csv env (url config) (header_row config) = inr t
      /\ (forall h,
            In h (frame_rows df) <->
            In h (map (clean_row etf (today env) t)
                      (firstn 1000 (filter weight_ok (rows t))))
            /\ List.length (frame_columns df) <= 2 * count_notna h)
      /\ (forall r,
            only_ticker_and_weight r ->
            9 <= List.length (frame_columns df) ->
            ~ In (clean_row etf (today env) t r) (frame_rows df)).
Proof.
  intros env etf config df Hf.
  destruct (fetch_etf_data_Some env etf config df Hf)
    as [t [Hcsv [Hw [Hcols Hrows]]]].
  exists t. split; [exact Hcsv|].
  assert (Hiff : forall h,
            In h (frame_rows df) <->
            In h (map (clean_row etf (today env) t)
                      (firstn 1000 (filter weight_ok (rows t))))
            /\ List.length (frame_columns df) <= 2 * count_notna h).
  { intros h. rewrite Hrows at 1. rewrite filter_In.
    unfold dropna_keeps. rewrite Nat.leb_le. reflexivity. }
  split; [exact Hiff|].
  intros r Hsparse Hn Hin. apply Hiff in Hin. destruct Hin as [_ Hc].
  pose proof (count_notna_sparse etf (today env) t r Hsparse). lia.
Qed.

Lemma C8_witness :
  fetch_etf_data sample_env "EMBI" sample_config = Some sample_frame
  /\ exists t,
       read_csv sample_env (url sample_config) (header_row sample_config) = inr t
       /\ (forall h,
             In h (frame_rows sample_frame) <->
             In h (map (clean_row "EMBI" (today sample_env) t)
                       (firstn 1000 (filter weight_ok (rows t))))
             /\ List.length (frame_columns sample_frame) <= 2 * count_notna h)
       /\ (forall r,
             only_ticker_and_weight r ->
             9 <= List.length (frame_columns sample_frame) ->
             ~ In (clean_row "EMBI" (today sample_env) t r)
                  (frame_rows sample_frame)).
Proof.
  assert (H : fetch_etf_data sample_env "EMBI" sample_config = Some sample_frame)
    by (vm_compute; reflexivity).
  split; [exact H|].
  exact (C8_null_floor_counts_every_column sample_env "EMBI" sample_config
           sample_frame H).
Defined.

(** ** The store *)

Lemma insert_rows_inr (batch table table' : list Holding) :
  insert_rows table batch = inr table' -> table' = table ++ batch.
Proof.
  revert table. induction batch as [|r batch IH]; intros table H; simpl in H.
  - injection H as <-. now rewrite app_nil_r.
  - destruct (existsb (unique_clash r) table); [discriminate|].
    apply IH in H. rewrite H, <- app_assoc. reflexivity.
Qed.

Lemma insert_rows_inl (batch table : list Holding) (e : Exn) :
  insert_rows table batch = inl e -> e = IntegrityError.
Proof.
  revert table. induction batch as [|r batch IH]; intros table H; simpl in H.
  - discriminate.
  - destruct (existsb (unique_clash r) table); [congruence | eauto].
Qed.

(** A row of the batch that collides with a row of the table makes the
    whole statement fail. *)
Lemma insert_rows_clash (batch table : list Holding) (r r' : Holding) :
  In r batch -> In r' table -> unique_clash r r' = true ->
  insert_rows table batch = inl IntegrityError.
Proof.
  revert table. induction batch as [|r0 batch IH]; intros table Hr Hr' Hc.
  - contradiction.
  - simpl. destruct (existsb (unique_clash r0) table) eqn:E; [reflexivity|].
    destruct Hr as [->|Hr].
    + assert (existsb (unique_clash r) table = true)
        by (apply existsb_exists; eauto).
      congruence.
    + apply IH; [assumption | apply in_or_app; now left | assumption].
Qed.

Lemma unique_clash_refl (h : Holding) : keyed h = true -> unique_clash h h = true.
Proof.
  unfold keyed, unique_clash. rewrite !String.eqb_refl.
  destruct (ticker h), (name h); simpl; try discriminate.
  intros _. now rewrite !String.eqb_refl.
Qed.

(** [save_to_database], path by path. *)
Lemma save_to_database_eq (env : Env) (df : Frame) (etf : string) (w : World) :
  save_to_database env df etf w =
  if store_fault env etf then
    (inr false, mkWorld (holdings w) (S (open_connections w))
                        (console w ++ [ErrorSaving etf]))
  else
    match insert_rows (holdings w) (frame_rows df) with
    | inr table =>
        (inr true, mkWorld table (open_connections w)
                           (console w ++ [SavedRecords (List.length (frame_rows df))]))
    | inl IntegrityError =>
        (inr false, mkWorld (holdings w) (S (open_connections w))
                            (console w ++ [DataAlreadyExists]))
    | inl _ =>
        (inr false, mkWorld (holdings w) (S (open_connections w))
                            (console w ++ [ErrorSaving etf]))
    end.
Proof.
  unfold save_to_database, try_except, bind, connect, to_sql, commit, close,
    print, ret.
  cbn [holdings open_connections console].
  destruct (store_fault env etf); [reflexivity|].
  destruct (insert_rows (holdings w) (frame_rows df)) as [[| |]|table];
    reflexivity.
Qed.

Lemma save_to_database_true (env : Env) (df : Frame) (etf : string) (w w' : World) :
  save_to_database env df etf w = (inr true, w') ->
  store_fault env etf = false
  /\ holdings w' = holdings w ++ frame_rows df
  /\ open_connections w' = open_connections w.
Proof.
  rewrite save_to_database_eq.
  destruct (store_fault env etf); [discriminate|].
  destruct (insert_rows (holdings w) (frame_rows df)) as [[| |]|table] eqn:E;
    try discriminate.
  intros H. injection H as <-. cbn. apply insert_rows_inr in E. auto.
Qed.

(** C1 (the code at the failing input): a batch whose rows lack a ticker
    (the feed of a bond fund has no such column) is appended a second time.
    The comment of line 170 and the IntegrityError handler mean the second
    append to be refused, but UNIQUE(etf_code, date_of_pull, ticker, name)
    never fires on a NULL ticker: the second call returns [True] and the
    table holds the row twice. *)
Lemma C1_null_ticker_batch_stored_twice :
  exists w1 w2,
    save_to_database sample_env (frame_of [holding_no_ticker]) "EMBI" empty_world
    = (inr true, w1)
    /\ save_to_database sample_env (frame_of [holding_no_ticker]) "EMBI" w1
       = (inr true, w2)
    /\ List.length (holdings w1) = 1
    /\ holdings w2 = [holding_no_ticker; holding_no_ticker].
Proof.
  do 2 eexists. split; [vm_compute; reflexivity|].
  split; [vm_compute; reflexivity|]. split; reflexivity.
Qed.

(** X28, where the constraint does its work: a batch that was appended and
    has at least one row with both ticker and name set is refused when it
    is appended again (at once, or after other rows were added):
    [save_to_database] returns [False], the table and hence the record
    count are what they were, and the report is "data already exists"
    unless the engine fails for another reason. *)
Theorem keyed_batch_reappend_rejected :
  forall (env env' : Env) (df : Frame) (etf : string) (w w1 w1' : World),
    save_to_database env df etf w = (inr true, w1) ->
    incl (holdings w1) (holdings w1') ->
    existsb keyed (frame_rows df) = true ->
    exists w2,
      save_to_database env' df etf w1' = (inr false, w2)
      /\ holdings w2 = holdings w1'
      /\ List.length (holdings w2) = List.length (holdings w1')
      /\ (store_fault env' etf = false ->
          console w2 = console w1' ++ [DataAlreadyExists]).
Proof.
  intros env env' df etf w w1 w1' Hfirst Hgrown Hkeyed.
  destruct (save_to_database_true env df etf w w1 Hfirst) as [_ [Hrows _]].
  apply existsb_exists in Hkeyed. destruct Hkeyed as [r [Hr Hk]].
  assert (Hclash : insert_rows (holdings w1') (frame_rows df) = inl IntegrityError).
  { apply (insert_rows_clash _ _ r r); [assumption | | now apply unique_clash_refl].
    apply Hgrown. rewrite Hrows. apply in_or_app. now right. }
  rewrite save_to_database_eq, Hclash.
  destruct (store_fault env' etf);
    (eexists; split; [reflexivity|]; cbn; repeat split; congruence).
Qed.

Lemma keyed_batch_reappend_rejected_witness :
  exists w2,
    save_to_database sample_env (frame_of [holding_mex]) "EMBI"
      (mkWorld [holding_mex] 0 [SavedRecords 1])
    = (inr false, w2)
    /\ holdings w2 = [holding_mex]
    /\ List.length (holdings w2) = 1
    /\ (store_fault sample_env "EMBI" = false ->
        console w2 = [SavedRecords 1] ++ [DataAlreadyExists]).
Proof.
  apply (keyed_batch_reappend_rejected sample_env sample_env (frame_of [holding_mex])
           "EMBI" empty_world (mkWorld [holding_mex] 0 [SavedRecords 1])
           (mkWorld [holding_mex] 0 [SavedRecords 1])).
  - vm_compute. reflexivity.
  - apply incl_refl.
  - reflexivity.
Defined.

(** ** Connections *)

(** C5, the claim as stated fails: on the path where [to_sql] raises,
    [save_to_database] returns from its [except] clause without reaching
    [conn.close()].  Appending a batch a second time leaves the connection
    it opened open. *)
Lemma C5_counterexample :
  exists w',
    save_to_database sample_env (frame_of [holding_mex]) "EMBI"
      (world_of [holding_mex])
    = (inr false, w')
    /\ open_connections (world_of [holding_mex]) = 0
    /\ open_connections w' = 1.
Proof.
  eexists. split; [vm_compute; reflexivity|]. split; reflexivity.
Qed.

(** A read query, path by path. *)
Lemma read_query_eq (fault : bool) (q : list Holding -> list Holding) (w : World) :
  (connect ;;; df <- read_sql_query fault q ;; close ;;; ret df) w =
  if fault then
    (inl OtherError, mkWorld (holdings w) (S (open_connections w)) (console w))
  else
    (inr (q (holdings w)), mkWorld (holdings w) (open_connections w) (console w)).
Proof.
  unfold bind, connect, read_sql_query, close, ret.
  cbn [holdings open_connections console].
  destruct fault; reflexivity.
Qed.

Lemma check_data_exists_eq (env : Env) (etf d : string) (w : World) :
  check_data_exists env etf d w =
  if check_fault env etf then
    (inl OtherError, mkWorld (holdings w) (S (open_connections w)) (console w))
  else
    (inr (0 <? count_for etf d (holdings w)),
     mkWorld (holdings w) (open_connections w) (console w)).
Proof.
  unfold check_data_exists, bind, connect, cursor_execute, close, ret.
  cbn [holdings open_connections console].
  destruct (check_fault env etf); reflexivity.
Qed.

Lemma init_database_eq (env : Env) (w : World) :
  init_database env w =
  if init_fault env then
    (inl OtherError, mkWorld (holdings w) (S (open_connections w)) (console w))
  else
    (inr tt, mkWorld (holdings w) (open_connections w) (console w)).
Proof.
  unfold init_database, bind, connect, cursor_execute, commit, close, ret.
  cbn [holdings open_connections console].
  destruct (init_fault env); reflexivity.
Qed.

(** C5 (amended): a store operation closes the connection it opened
    exactly on the path where nothing raises.  [save_to_database] has
    closed it when it returns [True] and has left it open when it returns
    [False] (both [except] clauses); [check_data_exists], [init_database]
    and a read query have closed it when they return and have left it open
    when their statement raises, which for the first two is exactly when
    the engine fails. *)
Theorem C5_connection_closed_unless_raised :
  forall (env : Env) (w : World),
    (forall df etf,
        open_connections (snd (save_to_database env df etf w)) =
        match fst (save_to_database env df etf w) with
        | inr true => open_connections w
        | _ => S (open_connections w)
        end)
    /\ (forall etf date_str,
          open_connections (snd (check_data_exists env etf date_str w)) =
          match fst (check_data_exists env etf date_str w) with
          | inr _ => open_connections w
          | inl _ => S (open_connections w)
          end)
    /\ (forall etf date_str,
          fst (check_data_exists env etf date_str w) = inl OtherError
          <-> check_fault env etf = true)
    /\ open_connections (snd (init_database env w)) =
       match fst (init_database env w) with
       | inr _ => open_connections w
       | inl _ => S (open_connections w)
       end
    /\ (fst (init_database env w) = inl OtherError <-> init_fault env = true)
    /\ (forall etf,
          open_connections (snd (get_latest_holdings env etf w)) =
          match fst (get_latest_holdings env etf w) with
          | inr _ => open_connections w
          | inl _ => S (open_connections w)
          end)
    /\ (forall etf date_str,
          open_connections (snd (get_holdings_by_date env etf date_str w)) =
          match fst (get_holdings_by_date env etf date_str w) with
          | inr _ => open_connections w
          | inl _ => S (open_connections w)
          end).
Proof.
  intros env w. split; [|split; [|split; [|split; [|split; [|split]]]]].
  - intros df etf. rewrite save_to_database_eq.
    destruct (store_fault env etf); [reflexivity|].
    destruct (insert_rows (holdings w) (frame_rows df)) as [[| |]|table];
      reflexivity.
  - intros etf d. rewrite check_data_exists_eq.
    destruct (check_fault env etf); reflexivity.
  - intros etf d. rewrite check_data_exists_eq.
    destruct (check_fault env etf); cbn [fst]; split; congruence.
  - rewrite init_database_eq. destruct (init_fault env); reflexivity.
  - rewrite init_database_eq.
    destruct (init_fault env); cbn [fst]; split; congruence.
  - intros etf. unfold get_latest_holdings. rewrite read_query_eq.
    destruct (query_fault env); reflexivity.
  - intros etf d. unfold get_holdings_by_date. rewrite read_query_eq.
    destruct (query_fault env); reflexivity.
Qed.

(** ** The orchestrator *)

Lemma store_fault_check_fault (env : Env) (etf : string) :
  store_fault env etf = true -> check_fault env etf = false.
Proof.
  unfold store_fault, check_fault.
  destruct (engine_fault env etf); [discriminate | discriminate | reflexivity].
Qed.

(** A turn of the loop that returns has put the code in exactly one list. *)
Lemma process_etf_cases (env : Env) (r r' : Results) (c : string) (w w' : World) :
  process_etf env r c w = (inr r', w') ->
  r' = add_success r c \/ r' = add_failed r c \/ r' = add_skipped r c.
Proof.
  unfold process_etf.
  destruct (dict_get ETF_CONFIG c) as [config|];
    [|unfold ret; intros H; injection H as <- _; auto].
  unfold bind at 1. rewrite check_data_exists_eq.
  destruct (check_fault env c); [discriminate|].
  destruct (0 <? count_for c (today env) (holdings w));
    [unfold ret; intros H; injection H as <- _; auto|].
  destruct (fetch_etf_data env c config) as [df|];
    [|unfold ret; intros H; injection H as <- _; auto].
  destruct (0 <? List.length (frame_rows df));
    [|unfold ret; intros H; injection H as <- _; auto].
  unfold bind. rewrite save_to_database_eq.
  cbn [holdings open_connections console].
  destruct (store_fault env c);
    [unfold ret; intros H; injection H as <- _; auto|].
  destruct (insert_rows (holdings w) (frame_rows df)) as [[| |]|table];
    unfold ret; intros H; injection H as <- _; auto.
Qed.

(** C3 (the code at the failing input): when [to_sql] raises an error that
    is not an IntegrityError, [save_to_database] prints "Error saving" and
    returns [False] like it does for a duplicate, and the loop files the
    ETF under [skipped]; [failed] is left as it was.  The loop goes on (see
    [store_error_run]). *)
Theorem C3_store_error_lands_in_skipped :
  forall (env : Env) (results : Results) (etf : string) (config : Config)
         (df : Frame) (w : World),
    dict_get ETF_CONFIG etf = Some config ->
    count_for etf (today env) (holdings w) = 0 ->
    fetch_etf_data env etf config = Some df ->
    0 < List.length (frame_rows df) ->
    store_fault env etf = true ->
    exists w',
      process_etf env results etf w = (inr (add_skipped results etf), w')
      /\ failed (add_skipped results etf) = failed results
      /\ holdings w' = holdings w
      /\ console w' = console w ++ [ErrorSaving etf].
Proof.
  intros env results etf config df w Hcfg Hcount Hfetch Hlen Hfault.
  unfold process_etf. rewrite Hcfg.
  unfold bind at 1.
  rewrite check_data_exists_eq, (store_fault_check_fault env etf Hfault), Hcount.
  change (0 <? 0) with false. cbv iota. rewrite Hfetch.
  apply Nat.ltb_lt in Hlen. rewrite Hlen.
  unfold bind. rewrite save_to_database_eq, Hfault.
  eexists. split; [reflexivity|]. cbn. auto.
Qed.

Lemma C3_witness :
  exists w',
    process_etf faulty_store_env (mkResults [] [] []) "EMBI" empty_world
    = (inr (add_skipped (mkResults [] [] []) "EMBI"), w')
    /\ failed (add_skipped (mkResults [] [] []) "EMBI") = []
    /\ holdings w' = []
    /\ console w' = [ErrorSaving "EMBI"].
Proof.
  refine (C3_store_error_lands_in_skipped faulty_store_env (mkResults [] [] [])
            "EMBI" _ _ empty_world _ _ _ _ _).
  - reflexivity.
  - reflexivity.
  - vm_compute. reflexivity.
  - vm_compute. lia.
  - reflexivity.
Defined.

(** The whole run at that input: EMBI, whose save failed, is listed as
    skipped, and GBI after it is fetched and saved. *)
Lemma store_error_run :
  fst (run_tracker faulty_store_env (Some ["EMBI"; "GBI"]) empty_world)
  = inr (mkResults ["GBI"] [] ["EMBI"]).
Proof. vm_compute. reflexivity. Qed.

Lemma add_one_disjoint (r r' : Results) (x : string) :
  pairwise_disjoint r -> fresh x r ->
  r' = add_success r x \/ r' = add_failed r x \/ r' = add_skipped r x ->
  pairwise_disjoint r'.
Proof.
  intros Hd [Hs [Hf Hk]] Hr' c. specialize (Hd c).
  destruct Hd as [H1 [H2 H3]].
  destruct Hr' as [-> | [-> | ->]]; cbn [success failed skipped add_success
    add_failed add_skipped]; rewrite ?in_app_iff; simpl;
    repeat split; intros [Ha Hb];
    repeat match goal with
           | H : _ \/ _ |- _ => destruct H
           | H : False |- _ => contradiction
           end; subst; tauto.
Qed.

Lemma add_one_fresh (r r' : Results) (x c : string) :
  fresh c r -> c <> x ->
  r' = add_success r x \/ r' = add_failed r x \/ r' = add_skipped r x ->
  fresh c r'.
Proof.
  intros [Hs [Hf Hk]] Hne Hr'.
  destruct Hr' as [-> | [-> | ->]]; unfold fresh;
    cbn [success failed skipped add_success add_failed add_skipped];
    rewrite ?in_app_iff; simpl; repeat split; intros H;
    repeat match goal with
           | H : _ \/ _ |- _ => destruct H
           | H : False |- _ => contradiction
           end; subst; tauto.
Qed.

Lemma for_each_disjoint (env : Env) (codes : list string) :
  forall (r r' : Results) (w w' : World),
    NoDup codes ->
    (forall c, In c codes -> fresh c r) ->
    pairwise_disjoint r ->
    for_each codes (process_etf env) r w = (inr r', w') ->
    pairwise_disjoint r'.
Proof.
  induction codes as [|x codes IH]; intros r r' w w' Hnd Hfresh Hdis Hrun.
  - injection Hrun as <- _. assumption.
  - inversion Hnd as [|? ? Hx Hnd']; subst.
    simpl in Hrun. unfold bind in Hrun.
    destruct (process_etf env r x w) as [[e|r1] w1] eqn:Hturn; [discriminate|].
    pose proof (process_etf_cases env r r1 x w w1 Hturn) as Hcase.
    apply (IH r1 r' w1 w' Hnd'); [| |exact Hrun].
    + intros c Hc. apply (add_one_fresh r r1 x c).
      * apply Hfresh. now right.
      * intros ->. contradiction.
      * assumption.
    + apply (add_one_disjoint r r1 x); [assumption | | assumption].
      apply Hfresh. now left.
Qed.

(** C4, the claim as stated fails for a list that names a code twice: the
    first turn fetches and saves EMBI (succeeded), the second finds today's
    rows in the table (skipped). *)
Lemma C4_counterexample :
  exists res w',
    run_tracker sample_env (Some ["EMBI"; "EMBI"]) empty_world = (inr res, w')
    /\ In "EMBI" (success res)
    /\ In "EMBI" (skipped res).
Proof.
  do 2 eexists. split; [vm_compute; reflexivity|]. simpl. tauto.
Qed.

(** C4 (amended): for every run of the orchestrator over codes that are
    pairwise different (the default, the keys of the registry, is such a
    list) that ends with a summary -- a run in which neither
    [init_database] nor [check_data_exists] raises -- the succeeded,
    skipped and failed lists of the summary are pairwise disjoint. *)
Theorem C4_summary_lists_disjoint :
  forall (env : Env) (etf_codes : option (list string)) (w w' : World)
         (res : Results),
    NoDup (codes_to_fetch etf_codes) ->
    run_tracker env etf_codes w = (inr res, w') ->
    pairwise_disjoint res.
Proof.
  intros env etf_codes w w' res Hnd.
  unfold run_tracker, bind. rewrite init_database_eq.
  destruct (init_fault env); [discriminate|].
  apply for_each_disjoint; [assumption | |].
  - intros c _. unfold fresh. simpl. tauto.
  - intros c. simpl. tauto.
Qed.

Lemma C4_witness :
  NoDup (codes_to_fetch None)
  /\ pairwise_disjoint (mkResults ["CEMBI"; "EMBI"; "GBI"; "EMHY"] [] []).
Proof.
  assert (H : NoDup (codes_to_fetch None)).
  { repeat constructor; simpl; intuition discriminate. }
  split; [exact H|].
  apply (C4_summary_lists_disjoint sample_env None empty_world
           (snd (run_tracker sample_env None empty_world))
           (mkResults ["CEMBI"; "EMBI"; "GBI"; "EMHY"] [] []) H).
  vm_compute. reflexivity.
Defined.

(** A run stopped by the engine gives no summary: the database is locked
    when [init_database] runs, or the existence check of GBI fails after
    CEMBI and EMBI were saved.  The exception leaves [run_tracker], the
    rows saved before it stay, and the connection stays open. *)
Lemma run_stopped_by_the_engine :
  fst (run_tracker locked_env None empty_world) = inl OtherError
  /\ fst (run_tracker faulty_check_env None empty_world) = inl OtherError
  /\ map etf_code (holdings (snd (run_tracker faulty_check_env None empty_world)))
     = ["CEMBI"; "CEMBI"; "CEMBI"; "EMBI"; "EMBI"; "EMBI"]
  /\ open_connections (snd (run_tracker faulty_check_env None empty_world)) = 1.
Proof. vm_compute. repeat split; reflexivity. Qed.

(** ** The query helper *)

Section OrderBy.
Variable A : Type.
Variable geb : A -> A -> bool.

Lemma insert_by_perm (x : A) (l : list A) :
  Permutation (insert_by geb x l) (x :: l).
Proof.
  induction l as [|y l IH]; simpl.
  - apply Permutation_refl.
  - destruct (geb x y).
    + apply Permutation_refl.
    + apply perm_trans with (y :: x :: l).
      * now apply perm_skip.
      * apply perm_swap.
Qed.

Lemma order_by_perm (l : list A) : Permutation (order_by geb l) l.
Proof.
  induction l as [|x l IH]; simpl.
  - apply perm_nil.
  - apply perm_trans with (x :: order_by geb l).
    + apply insert_by_perm.
    + now apply perm_skip.
Qed.

Lemma order_by_In (x : A) (l : list A) : In x (order_by geb l) <-> In x l.
Proof.
  split; apply Permutation_in;
    [apply order_by_perm | apply Permutation_sym, order_by_perm].
Qed.

Hypothesis geb_total : forall x y, geb x y = false -> geb y x = true.
Hypothesis geb_trans :
  forall x y z, geb x y = true -> geb y z = true -> geb x z = true.

Lemma insert_by_sorted (x : A) (l : list A) :
  StronglySorted (fun a b => geb a b = true) l ->
  StronglySorted (fun a b => geb a b = true) (insert_by geb x l).
Proof.
  induction 1 as [|y l Hsorted IH Hall]; simpl.
  - constructor; constructor.
  - destruct (geb x y) eqn:Hxy.
    + constructor; [now constructor|].
      constructor; [exact Hxy|].
      rewrite Forall_forall in *. intros z Hz.
      apply geb_trans with y; [exact Hxy | now apply Hall].
    + constructor; [exact IH|].
      rewrite Forall_forall in *. intros z Hz.
      apply (Permutation_in _ (insert_by_perm x l)) in Hz.
      destruct Hz as [<-|Hz]; [now apply geb_total | now apply Hall].
Qed.

Lemma order_by_sorted (l : list A) :
  StronglySorted (fun a b => geb a b = true) (order_by geb l).
Proof.
  induction l as [|x l IH]; simpl.
  - constructor.
  - now apply insert_by_sorted.
Qed.
End OrderBy.

Lemma weight_geb_total (x y : Holding) :
  weight_geb x y = false -> weight_geb y x = true.
Proof.
  unfold weight_geb.
  destruct (weight_pct x) as [a|], (weight_pct y) as [b|]; try easy.
  intros H. apply Qle_bool_iff.
  destruct (Qlt_le_dec a b) as [Hlt|Hle].
  - now apply Qlt_le_weak.
  - apply Qle_bool_iff in Hle. congruence.
Qed.

Lemma weight_geb_trans (x y z : Holding) :
  weight_geb x y = true -> weight_geb y z = true -> weight_geb x z = true.
Proof.
  unfold weight_geb.
  destruct (weight_pct x) as [a|], (weight_pct y) as [b|],
    (weight_pct z) as [c|]; try easy.
  rewrite !Qle_bool_iff. intros H1 H2. now apply Qle_trans with b.
Qed.

Lemma string_compare_refl (a : string) : String.compare a a = Eq.
Proof. now apply (String_as_OT.cmp_eq a a). Qed.

Lemma string_leb_refl (a : string) : String.leb a a = true.
Proof. destruct (String.leb_total a a); assumption. Qed.

Lemma string_leb_trans (a b c : string) :
  String.leb a b = true -> String.leb b c = true -> String.leb a c = true.
Proof.
  unfold String.leb.
  destruct (String.compare a b) eqn:Hab; try discriminate;
    destruct (String.compare b c) eqn:Hbc; try discriminate; intros _ _.
  - apply String.compare_eq_iff in Hab, Hbc. subst.
    now rewrite string_compare_refl.
  - apply String.compare_eq_iff in Hab. subst. now rewrite Hbc.
  - apply String.compare_eq_iff in Hbc. subst. now rewrite Hab.
  - apply String_as_OT.cmp_lt in Hab, Hbc.
    pose proof (String_as_OT.lt_trans _ _ _ Hab Hbc) as Hac.
    apply String_as_OT.cmp_lt in Hac. unfold String_as_OT.cmp in Hac.
    now rewrite Hac.
Qed.

Lemma later_cases (a b : string) :
  (later a b = a \/ later a b = b)
  /\ String.leb a (later a b) = true
  /\ String.leb b (later a b) = true.
Proof.
  unfold later. destruct (String.leb a b) eqn:E.
  - repeat split; [now right | assumption | apply string_leb_refl].
  - repeat split; [now left | apply string_leb_refl |].
    destruct (String.leb_total a b); [congruence | assumption].
Qed.

Lemma fold_later (d : string) (l : list string) :
  In (fold_right later d l) (d :: l)
  /\ forall x, In x (d :: l) -> String.leb x (fold_right later d l) = true.
Proof.
  induction l as [|y l [IHin IHmax]]; simpl.
  - split; [now left|]. intros x [<-|[]]. apply string_leb_refl.
  - destruct (later_cases y (fold_right later d l)) as [Hc [Hy Hm]]. split.
    + destruct Hc as [->| ->]; [now right; left|].
      destruct IHin as [H|H]; [now left | now right; right].
    + intros x [<-|[<-|Hx]].
      * apply string_leb_trans with (fold_right later d l);
          [apply IHmax; now left | exact Hm].
      * exact Hy.
      * apply string_leb_trans with (fold_right later d l);
          [apply IHmax; now right | exact Hm].
Qed.

(** MAX returns a value of the column that no value exceeds. *)
Lemma sql_max_spec (l : list string) :
  l <> [] ->
  exists m, sql_max l = Some m
            /\ In m l
            /\ forall x, In x l -> String.leb x m = true.
Proof.
  destruct l as [|d l]; [congruence|]. intros _.
  exists (fold_right later d l). split; [reflexivity|]. apply fold_later.
Qed.

Lemma of_etf_true (etf : string) (h : Holding) :
  of_etf etf h = true <-> etf_code h = etf.
Proof. unfold of_etf. apply String.eqb_eq. Qed.

Lemma weight_geb_no_lighter (a b : Holding) :
  weight_geb a b = true -> no_lighter (weight_pct a) (weight_pct b).
Proof.
  unfold weight_geb, no_lighter.
  destruct (weight_pct a) as [x|], (weight_pct b) as [y|]; try easy.
  apply Qle_bool_iff.
Qed.

Lemma StronglySorted_impl {A : Type} (R S : A -> A -> Prop) (l : list A) :
  (forall a b, R a b -> S a b) -> StronglySorted R l -> StronglySorted S l.
Proof.
  intros H. induction 1 as [|x l Hs IH Hall]; constructor; [exact IH|].
  rewrite Forall_forall in *. intros y Hy. apply H. now apply Hall.
Qed.

(** ORDER BY weight_pct DESC puts the heaviest first. *)
Lemma order_by_weight_heaviest_first (l : list Holding) :
  heaviest_first (order_by weight_geb l).
Proof.
  unfold heaviest_first.
  apply (StronglySorted_impl (fun a b => weight_geb a b = true));
    [exact weight_geb_no_lighter|].
  apply order_by_sorted; [exact weight_geb_total | exact weight_geb_trans].
Qed.

(** C9 (confirmed): for an ETF code with at least one stored record,
    [get_latest_holdings] returns exactly the stored records of that ETF
    whose [date_of_pull] is the greatest [date_of_pull] stored for it (each
    once, as a permutation of that selection), ordered by [weight_pct]
    descending: every row returned has a weight at least as great as the
    weight of every row behind it, the rows without weight coming last; the
    table is not changed. *)
Theorem C9_latest_snapshot :
  forall (env : Env) (etf : string) (w : World),
    query_fault env = false ->
    (exists h, In h (holdings w) /\ etf_code h = etf) ->
    exists latest df w',
      get_latest_holdings env etf w = (inr df, w')
      /\ holdings w' = holdings w
      /\ (exists h, In h (holdings w) /\ etf_code h = etf
                    /\ date_of_pull h = latest)
      /\ (forall h, In h (holdings w) -> etf_code h = etf ->
                    String.leb (date_of_pull h) latest = true)
      /\ Permutation df
           (filter (fun h => String.eqb (etf_code h) etf
                             && String.eqb (date_of_pull h) latest)
                   (holdings w))
      /\ StronglySorted
           (fun a b => no_lighter (weight_pct a) (weight_pct b)) df.
Proof.
  intros env etf w Hfault [h0 [Hin0 Hetf0]].
  destruct (sql_max_spec (map date_of_pull (filter (of_etf etf) (holdings w))))
    as [latest [Hmax [Hmem Hub]]].
  { intros Hnil. apply map_eq_nil in Hnil.
    assert (Hin : In h0 (filter (of_etf etf) (holdings w)))
      by (apply filter_In; split; [assumption | now apply of_etf_true]).
    rewrite Hnil in Hin. contradiction. }
  exists latest, (select_latest etf (holdings w)).
  unfold get_latest_holdings. rewrite read_query_eq, Hfault.
  eexists. split; [reflexivity|]. split; [reflexivity|].
  split; [|split; [|split]].
  - apply in_map_iff in Hmem. destruct Hmem as [h [Hd Hh]].
    apply filter_In in Hh. destruct Hh as [Hh He].
    exists h. split; [assumption|]. split; [now apply of_etf_true | assumption].
  - intros h Hh He. apply Hub. apply in_map.
    apply filter_In. split; [assumption | now apply of_etf_true].
  - unfold select_latest. rewrite Hmax. apply order_by_perm.
  - unfold select_latest. apply order_by_weight_heaviest_first.
Qed.

Lemma C9_witness :
  exists latest df w',
    get_latest_holdings sample_env "EMBI"
      (world_of [holding_mex; holding_mex_later; holding_new]) = (inr df, w')
    /\ holdings w' = [holding_mex; holding_mex_later; holding_new]
    /\ (exists h, In h [holding_mex; holding_mex_later; holding_new]
                  /\ etf_code h = "EMBI" /\ date_of_pull h = latest)
    /\ (forall h, In h [holding_mex; holding_mex_later; holding_new] ->
                  etf_code h = "EMBI" ->
                  String.leb (date_of_pull h) latest = true)
    /\ Permutation df
         (filter (fun h => String.eqb (etf_code h) "EMBI"
                           && String.eqb (date_of_pull h) latest)
                 [holding_mex; holding_mex_later; holding_new])
    /\ StronglySorted
         (fun a b => no_lighter (weight_pct a) (weight_pct b)) df.
Proof.
  apply (C9_latest_snapshot sample_env "EMBI"
           (world_of [holding_mex; holding_mex_later; holding_new])).
  - reflexivity.
  - exists holding_mex. split; [now left | reflexivity].
Defined.

(** The run behind the witness: the two rows of 2025-01-15, stored with
    the lighter one (3.0) first, come back with the heavier one (5) first. *)
Lemma latest_snapshot_example :
  fst (get_latest_holdings sample_env "EMBI"
         (world_of [holding_mex; holding_mex_later; holding_new]))
  = inr [holding_new; holding_mex_later].
Proof. vm_compute. reflexivity. Qed.

(** *** compare_dates *)

Lemma In_select_by_date (etf d : string) (table : list Holding) (h : Holding) :
  In h (select_by_date etf d table)
  <-> In h table /\ etf_code h = etf /\ date_of_pull h = d.
Proof.
  unfold select_by_date. rewrite order_by_In, filter_In, andb_true_iff.
  unfold of_etf, on_date. rewrite !String.eqb_eq. tauto.
Qed.

Lemma option_eqb_refl (a : option string) : option_eqb a a = true.
Proof. destruct a; simpl; [apply String.eqb_refl | reflexivity]. Qed.

Lemma option_eqb_sym (a b : option string) : option_eqb a b = option_eqb b a.
Proof. destruct a, b; simpl; try reflexivity. apply String.eqb_sym. Qed.

Lemma same_key_refl (h : Holding) : same_key h h = true.
Proof. unfold same_key. now rewrite !option_eqb_refl. Qed.

Lemma same_key_sym (a b : Holding) : same_key a b = same_key b a.
Proof.
  unfold same_key.
  now rewrite (option_eqb_sym (ticker a)), (option_eqb_sym (name a)).
Qed.

Lemma count_if_perm {A : Type} (p : A -> bool) (l l' : list A) :
  Permutation l l' -> count_if p l = count_if p l'.
Proof.
  unfold count_if. induction 1; simpl.
  - reflexivity.
  - destruct (p x); simpl; congruence.
  - destruct (p x), (p y); reflexivity.
  - congruence.
Qed.

Lemma count_if_map {A B : Type} (p : B -> bool) (f : A -> B) (l : list A) :
  count_if p (map f l) = count_if (fun x => p (f x)) l.
Proof.
  unfold count_if. induction l as [|x l IH]; simpl; [reflexivity|].
  destruct (p (f x)); simpl; congruence.
Qed.

Lemma count_if_none {A : Type} (p : A -> bool) (l : list A) :
  (forall x, In x l -> p x = false) -> count_if p l = 0.
Proof.
  unfold count_if. induction l as [|x l IH]; intros H; simpl; [reflexivity|].
  rewrite (H x (or_introl eq_refl)). apply IH. intros y Hy. apply H. now right.
Qed.

Lemma count_if_pos {A : Type} (p : A -> bool) (l : list A) (x : A) :
  In x l -> p x = true -> 0 < count_if p l.
Proof.
  unfold count_if. intros Hin Hp.
  assert (H : In x (filter p l)) by (apply filter_In; auto).
  destruct (filter p l); [contradiction | simpl; lia].
Qed.

(** [compare_dates] when the two queries answer. *)
Lemma compare_dates_eq (env : Env) (etf d1 d2 : string) (w : World) :
  query_fault env = false ->
  compare_dates env etf d1 d2 w =
  let merged := compare_frames (select_by_date etf d1 (holdings w))
                               (select_by_date etf d2 (holdings w)) in
  (inr (map output_row merged),
   mkWorld (holdings w) (open_connections w)
           (console w ++ [ComparisonCounts (new_count merged)
                                           (removed_count merged)
                                           (changed_count merged)])).
Proof.
  intros Hfault. unfold compare_dates, get_holdings_by_date.
  rewrite Hfault.
  unfold bind at 1. rewrite read_query_eq.
  unfold bind at 1. rewrite read_query_eq.
  reflexivity.
Qed.

(** A row that has no partner on the other side stands alone in the merge. *)
Lemma merge_outer_only_new (df1 df2 : list Holding) (n : Holding) :
  In n df2 ->
  (forall o, In o df1 -> same_key o n = false) ->
  In (OnlyNew n) (merge_outer df1 df2).
Proof.
  intros Hn Hnone. unfold merge_outer, unmatched_new.
  apply in_or_app. right. apply in_map. apply filter_In.
  split; [assumption|]. apply negb_true_iff.
  destruct (existsb (fun o => same_key o n) df1) eqn:E; [|reflexivity].
  apply existsb_exists in E. destruct E as [o [Ho Hk]].
  rewrite (Hnone o Ho) in Hk. discriminate.
Qed.

Lemma ytm_change_null (m : Merged) :
  col_old ytm_pct m = None \/ col_new ytm_pct m = None ->
  merged_ytm_change m = None.
Proof.
  unfold merged_ytm_change. intros [H|H]; rewrite H;
    [now destruct (col_new ytm_pct m) | reflexivity].
Qed.

(** C7 (confirmed): in [compare_dates etf d1 d2], a stored row of d2 with
    weight [wt] whose (ticker, name) key no row of d1 has gives an output
    row with a null old weight, for which 0 is taken: its [weight_change] is
    [wt], and it is one of the rows the "new" count counts (those with a
    null [weight_pct_old]).  In every output row [ytm_change] is null as
    soon as the yield of either side is null or absent. *)
Theorem C7_new_holding_change_is_its_weight :
  forall (env : Env) (etf d1 d2 : string) (w : World) (n : Holding) (wt : Q),
    query_fault env = false ->
    In n (holdings w) -> etf_code n = etf -> date_of_pull n = d2 ->
    (forall o, In o (holdings w) -> etf_code o = etf -> date_of_pull o = d1 ->
               same_key o n = false) ->
    weight_pct n = Some wt ->
    exists rows w' new_holdings removed_holdings changed_holdings,
      compare_dates env etf d1 d2 w = (inr rows, w')
      /\ console w' = console w ++ [ComparisonCounts new_holdings removed_holdings
                                                      changed_holdings]
      /\ new_holdings = count_if (fun r => isna (weight_pct_old r)) rows
      /\ (exists r,
            In r rows
            /\ out_ticker r = ticker n /\ out_name r = name n
            /\ weight_pct_old r = None
            /\ weight_pct_new r = Some wt
            /\ (weight_change r == wt)%Q)
      /\ 0 < new_holdings
      /\ (forall r, In r rows ->
                    ytm_pct_old r = None \/ ytm_pct_new r = None ->
                    ytm_change r = None).
Proof.
  intros env etf d1 d2 w n wt Hfault Hin Hetf Hdate Hnone Hwt.
  rewrite (compare_dates_eq env etf d1 d2 w Hfault). cbv zeta.
  set (merged := compare_frames (select_by_date etf d1 (holdings w))
                                (select_by_date etf d2 (holdings w))).
  assert (Hm : In (OnlyNew n) merged).
  { unfold merged, compare_frames. apply order_by_In.
    apply merge_outer_only_new.
    - apply In_select_by_date. auto.
    - intros o Ho. apply In_select_by_date in Ho.
      destruct Ho as [Ho [He Hd]]. now apply Hnone. }
  assert (Hcount : new_count merged
                   = count_if (fun r => isna (weight_pct_old r))
                              (map output_row merged)).
  { unfold new_count. now rewrite count_if_map. }
  do 5 eexists. split; [reflexivity|]. cbn [console].
  split; [reflexivity|]. split; [exact Hcount|].
  split; [|split].
  - exists (output_row (OnlyNew n)). split; [now apply in_map|].
    cbn. rewrite Hwt. repeat split; try reflexivity.
    unfold merged_weight_change. cbn. rewrite Hwt. cbn. ring.
  - unfold new_count. now apply (count_if_pos _ _ (OnlyNew n)).
  - intros r Hr Hnull. apply in_map_iff in Hr. destruct Hr as [m [<- _]].
    cbn in *. apply ytm_change_null. tauto.
Qed.

Lemma C7_witness :
  exists rows w' new_holdings removed_holdings changed_holdings,
    compare_dates sample_env "EMBI" "2025-01-01" "2025-01-15"
      (world_of [holding_mex; holding_new; holding_mex_later]) = (inr rows, w')
    /\ console w' = [] ++ [ComparisonCounts new_holdings removed_holdings
                                            changed_holdings]
    /\ new_holdings = count_if (fun r => isna (weight_pct_old r)) rows
    /\ (exists r,
          In r rows
          /\ out_ticker r = Some "CHL10Y" /\ out_name r = Some "CHILE 2034"
          /\ weight_pct_old r = None
          /\ weight_pct_new r = Some 5%Q
          /\ (weight_change r == 5)%Q)
    /\ 0 < new_holdings
    /\ (forall r, In r rows ->
                  ytm_pct_old r = None \/ ytm_pct_new r = None ->
                  ytm_change r = None).
Proof.
  refine (C7_new_holding_change_is_its_weight sample_env "EMBI" "2025-01-01"
            "2025-01-15" (world_of [holding_mex; holding_new; holding_mex_later])
            holding_new 5%Q _ _ _ _ _ _).
  - reflexivity.
  - simpl. tauto.
  - reflexivity.
  - reflexivity.
  - intros o [<-|[<-|[<-|[]]]] He Hd; try reflexivity; discriminate Hd.
  - reflexivity.
Defined.

(** The run behind the witness: CHILE is new (+5), MEXICO went from 3.2
    to 3.0; one new, none removed, two changed. *)
Lemma compare_dates_example :
  exists rows w',
    compare_dates sample_env "EMBI" "2025-01-01" "2025-01-15"
      (world_of [holding_mex; holding_new; holding_mex_later]) = (inr rows, w')
    /\ map out_ticker rows = [Some "CHL10Y"; Some "MEX10Y"]
    /\ console w' = [ComparisonCounts 1 0 2].
Proof.
  do 2 eexists. split; [vm_compute; reflexivity|]. split; reflexivity.
Qed.

Lemma filter_none {A : Type} (p : A -> bool) (l : list A) :
  (forall x, In x l -> p x = false) -> filter p l = [].
Proof.
  induction l as [|x l IH]; intros H; simpl; [reflexivity|].
  rewrite (H x (or_introl eq_refl)). apply IH. intros y Hy. apply H. now right.
Qed.

Lemma existsb_false_In {A : Type} (p : A -> bool) (l : list A) (x : A) :
  existsb p l = false -> In x l -> p x = false.
Proof.
  intros He Hin. destruct (p x) eqn:E; [|reflexivity].
  assert (existsb p l = true) by (apply existsb_exists; eauto). congruence.
Qed.

(** With distinct keys a row of a snapshot has one partner in the same
    snapshot: itself. *)
Lemma filter_same_key_self (l : list Holding) (o : Holding) :
  keys_distinct l = true -> In o l -> filter (same_key o) l = [o].
Proof.
  induction l as [|h l IH]; intros Hd Hin; [contradiction|].
  simpl in Hd. apply andb_true_iff in Hd. destruct Hd as [Hh Hd].
  apply negb_true_iff in Hh. destruct Hin as [->|Hin].
  - simpl. rewrite same_key_refl. f_equal. apply filter_none.
    intros x Hx. now apply (existsb_false_In _ l).
  - simpl. rewrite same_key_sym.
    rewrite (existsb_false_In _ l o Hh Hin). now apply IH.
Qed.

Lemma flat_map_singletons {A B : Type} (f : A -> list B) (g : A -> B) (l : list A) :
  (forall x, In x l -> f x = [g x]) -> flat_map f l = map g l.
Proof.
  induction l as [|x l IH]; intros H; simpl; [reflexivity|].
  rewrite (H x (or_introl eq_refl)). simpl. f_equal.
  apply IH. intros y Hy. apply H. now right.
Qed.

Lemma merge_outer_self (l : list Holding) :
  keys_distinct l = true -> merge_outer l l = map (fun h => Both h h) l.
Proof.
  intros Hd. unfold merge_outer, unmatched_new.
  rewrite (filter_none _ l).
  - simpl. rewrite app_nil_r. apply flat_map_singletons.
    intros o Ho. unfold pair_old. now rewrite (filter_same_key_self l o Hd Ho).
  - intros n Hn. apply negb_false_iff. apply existsb_exists.
    exists n. split; [assumption | apply same_key_refl].
Qed.

Lemma weight_change_self (h : Holding) :
  (merged_weight_change (Both h h) == 0)%Q.
Proof. unfold merged_weight_change. cbn. ring. Qed.

(** C6, the claim as stated fails: a stored row whose yield and weight are
    null, compared with itself, has a null [ytm_change], not 0, and it is
    counted both as new and as removed (the counts look at null weights on
    either side).  Here the date holds such a row next to a complete one. *)
Lemma C6_counterexample :
  exists rows w',
    compare_dates sample_env "EMBI" "2025-01-01" "2025-01-01"
      (world_of [holding_mex; holding_no_numbers]) = (inr rows, w')
    /\ In None (map ytm_change rows)
    /\ console w' = [ComparisonCounts 1 1 0].
Proof.
  do 2 eexists. split; [vm_compute; reflexivity|].
  split; [simpl; tauto | reflexivity].
Qed.

(** Two stored rows that share their (ticker, name) key -- two bonds of one
    issuer in a feed without tickers -- are paired with each other: the
    date compared with itself then shows weight changes of 0.7. *)
Lemma compare_same_date_shared_key :
  exists rows w',
    compare_dates sample_env "EMBI" "2025-01-01" "2025-01-01"
      (world_of [holding_no_ticker; holding_no_ticker_2]) = (inr rows, w')
    /\ List.length rows = 4
    /\ console w' = [ComparisonCounts 0 0 2].
Proof.
  do 2 eexists. split; [vm_compute; reflexivity|]. split; reflexivity.
Qed.

(** C6 (amended): when the rows stored for the ETF on date [d] have
    pairwise distinct (ticker, name) keys, [compare_dates etf d d] gives
    [weight_change == 0] in every output row and counts no changed row;
    the two yields of an output row are the same, and [ytm_change] is 0
    when that yield is set and null when it is null; the "new" and the
    "removed" count are both the number of rows of the snapshot with a null
    weight, hence zero when every weight is set. *)
Theorem C6_compare_date_with_itself :
  forall (env : Env) (etf d : string) (w : World),
    query_fault env = false ->
    keys_distinct (select_by_date etf d (holdings w)) = true ->
    exists rows w' null_weights,
      compare_dates env etf d d w = (inr rows, w')
      /\ console w' = console w ++ [ComparisonCounts null_weights null_weights 0]
      /\ null_weights
         = count_if (fun h => isna (weight_pct h))
                    (select_by_date etf d (holdings w))
      /\ ((forall h, In h (holdings w) -> etf_code h = etf ->
                     date_of_pull h = d -> weight_pct h <> None) ->
          null_weights = 0)
      /\ forall r, In r rows ->
           (weight_change r == 0)%Q
           /\ ytm_pct_new r = ytm_pct_old r
           /\ (ytm_pct_old r = None -> ytm_change r = None)
           /\ (forall y, ytm_pct_old r = Some y ->
                         exists c, ytm_change r = Some c /\ (c == 0)%Q).
Proof.
  intros env etf d w Hfault Hd.
  rewrite (compare_dates_eq env etf d d w Hfault). cbv zeta.
  set (snap := select_by_date etf d (holdings w)) in *.
  assert (Hperm : Permutation (compare_frames snap snap)
                              (map (fun h => Both h h) snap)).
  { unfold compare_frames. rewrite <- (merge_outer_self snap Hd).
    apply order_by_perm. }
  assert (Hnew : new_count (compare_frames snap snap)
                 = count_if (fun h => isna (weight_pct h)) snap).
  { unfold new_count. rewrite (count_if_perm _ _ _ Hperm).
    now rewrite count_if_map. }
  assert (Hrem : removed_count (compare_frames snap snap)
                 = count_if (fun h => isna (weight_pct h)) snap).
  { unfold removed_count. rewrite (count_if_perm _ _ _ Hperm).
    now rewrite count_if_map. }
  assert (Hch : changed_count (compare_frames snap snap) = 0).
  { unfold changed_count. rewrite (count_if_perm _ _ _ Hperm).
    rewrite count_if_map. apply count_if_none. intros h _.
    apply negb_false_iff, Qeq_bool_iff, weight_change_self. }
  do 3 eexists. split; [reflexivity|]. cbn [console].
  rewrite Hnew, Hrem, Hch.
  split; [reflexivity|]. split; [reflexivity|]. split.
  - intros Hset. apply count_if_none. intros h Hh.
    apply In_select_by_date in Hh. destruct Hh as [Hh [He Hdate]].
    specialize (Hset h Hh He Hdate). now destruct (weight_pct h).
  - intros r Hr. apply in_map_iff in Hr. destruct Hr as [m [<- Hm]].
    apply (Permutation_in _ Hperm) in Hm.
    apply in_map_iff in Hm. destruct Hm as [h [<- _]].
    split; [apply weight_change_self|].
    cbn. unfold merged_ytm_change. cbn.
    split; [reflexivity|]. split.
    + intros ->. reflexivity.
    + intros y ->. eexists. split; [reflexivity | ring].
Qed.

Lemma C6_witness :
  exists rows w' null_weights,
    compare_dates sample_env "EMBI" "2025-01-01" "2025-01-01"
      (world_of [holding_mex; holding_no_numbers; holding_new]) = (inr rows, w')
    /\ console w' = [] ++ [ComparisonCounts null_weights null_weights 0]
    /\ null_weights
       = count_if (fun h => isna (weight_pct h))
                  (select_by_date "EMBI" "2025-01-01"
                     [holding_mex; holding_no_numbers; holding_new])
    /\ ((forall h, In h [holding_mex; holding_no_numbers; holding_new] ->
                   etf_code h = "EMBI" -> date_of_pull h = "2025-01-01" ->
                   weight_pct h <> None) ->
        null_weights = 0)
    /\ forall r, In r rows ->
         (weight_change r == 0)%Q
         /\ ytm_pct_new r = ytm_pct_old r
         /\ (ytm_pct_old r = None -> ytm_change r = None)
         /\ (forall y, ytm_pct_old r = Some y ->
                       exists c, ytm_change r = Some c /\ (c == 0)%Q).
Proof.
  apply (C6_compare_date_with_itself sample_env "EMBI" "2025-01-01"
           (world_of [holding_mex; holding_no_numbers; holding_new])).
  - reflexivity.
  - vm_compute. reflexivity.
Defined.

(* ================================================================== *)
(** * Further properties of tracker.py *)

Lemma count_for_pos (etf d : string) (table : list Holding) :
  0 < count_for etf d table
  <-> exists h, In h table /\ etf_code h = etf /\ date_of_pull h = d.
Proof.
  unfold count_for. split.
  - intros H.
    destruct (filter (fun h => String.eqb (etf_code h) etf
                               && String.eqb (date_of_pull h) d) table)
      as [|h l] eqn:E; [simpl in H; lia|].
    assert (Hin : In h (h :: l)) by now left.
    rewrite <- E in Hin. apply filter_In in Hin. destruct Hin as [Hin Hb].
    apply andb_true_iff in Hb. destruct Hb as [He Hd].
    apply String.eqb_eq in He, Hd. eauto.
  - intros [h [Hin [He Hd]]].
    assert (H : In h (filter (fun h => String.eqb (etf_code h) etf
                                       && String.eqb (date_of_pull h) d) table)).
    { apply filter_In. split; [assumption|].
      apply andb_true_iff. split; now apply String.eqb_eq. }
    destruct (filter _ table); [contradiction | simpl; lia].
Qed.

(** X2: [save_to_database] never raises and is all-or-nothing: it returns
    [True] with the whole batch appended behind the table, in order, or
    [False] with the table untouched. *)
Theorem save_to_database_all_or_nothing :
  forall (env : Env) (df : Frame) (etf : string) (w : World),
  exists b w',
    save_to_database env df etf w = (inr b, w')
    /\ holdings w' = (if b then holdings w ++ frame_rows df else holdings w).
Proof.
  intros env df etf w. rewrite save_to_database_eq.
  destruct (store_fault env etf); [do 2 eexists; split; reflexivity|].
  destruct (insert_rows (holdings w) (frame_rows df)) as [[| |]|table] eqn:E;
    do 2 eexists; (split; [reflexivity|]); cbn [holdings]; try reflexivity.
  now apply insert_rows_inr in E.
Qed.

Lemma insert_rows_clash_within (l1 l2 l3 table : list Holding) (r r' : Holding) :
  unique_clash r' r = true ->
  insert_rows table (l1 ++ r :: l2 ++ r' :: l3) = inl IntegrityError.
Proof.
  intros Hc. revert table. induction l1 as [|x l1 IH]; intros table; simpl.
  - destruct (existsb (unique_clash r) table); [reflexivity|].
    apply (insert_rows_clash _ _ r' r).
    + apply in_or_app. right. now left.
    + apply in_or_app. right. now left.
    + exact Hc.
  - destruct (existsb (unique_clash x) table); [reflexivity | apply IH].
Qed.

(** X3: a batch in which a later row repeats the full key (ETF, date,
    ticker, name, all set) of an earlier row is refused whatever the table
    holds, the empty table included: nothing of the batch is stored, and
    the report is "data already exists". *)
Theorem save_to_database_duplicate_in_batch :
  forall (env : Env) (df : Frame) (etf : string) (w : World)
         (l1 l2 l3 : list Holding) (r r' : Holding),
    frame_rows df = l1 ++ r :: l2 ++ r' :: l3 ->
    unique_clash r' r = true ->
    exists w',
      save_to_database env df etf w = (inr false, w')
      /\ holdings w' = holdings w
      /\ (store_fault env etf = false ->
          console w' = console w ++ [DataAlreadyExists]).
Proof.
  intros env df etf w l1 l2 l3 r r' Hrows Hc.
  rewrite save_to_database_eq, Hrows.
  rewrite (insert_rows_clash_within l1 l2 l3 (holdings w) r r' Hc).
  destruct (store_fault env etf);
    (eexists; split; [reflexivity|]; cbn; split; congruence).
Qed.

Lemma save_to_database_duplicate_in_batch_witness :
  exists w',
    save_to_database sample_env (frame_of [holding_mex; holding_new; holding_mex])
      "EMBI" empty_world = (inr false, w')
    /\ holdings w' = holdings empty_world
    /\ (store_fault sample_env "EMBI" = false ->
        console w' = console empty_world ++ [DataAlreadyExists]).
Proof.
  apply (save_to_database_duplicate_in_batch sample_env
           (frame_of [holding_mex; holding_new; holding_mex]) "EMBI" empty_world
           [] [holding_new] [] holding_mex holding_mex).
  - reflexivity.
  - reflexivity.
Defined.

Lemma unique_clash_unkeyed (r x : Holding) :
  keyed r = false -> unique_clash r x = false.
Proof.
  unfold keyed, unique_clash.
  destruct (ticker r), (name r), (ticker x), (name x); simpl;
    try discriminate; intros _; rewrite ?andb_false_r; reflexivity.
Qed.

Lemma existsb_none {A : Type} (p : A -> bool) (l : list A) :
  (forall x, In x l -> p x = false) -> existsb p l = false.
Proof.
  intros H. destruct (existsb p l) eqn:E; [|reflexivity].
  apply existsb_exists in E. destruct E as [x [Hx Hp]].
  rewrite (H x Hx) in Hp. discriminate.
Qed.

Lemma insert_rows_unkeyed (batch table : list Holding) :
  forallb (fun h => negb (keyed h)) batch = true ->
  insert_rows table batch = inr (table ++ batch).
Proof.
  revert table. induction batch as [|r batch IH]; intros table H; simpl.
  - now rewrite app_nil_r.
  - simpl in H. apply andb_true_iff in H. destruct H as [Hr Hb].
    apply negb_true_iff in Hr.
    rewrite (existsb_none (unique_clash r) table).
    + rewrite IH by assumption. now rewrite <- app_assoc.
    + intros x _. now apply unique_clash_unkeyed.
Qed.

(** X4: the uniqueness constraint never fires on rows that lack a ticker
    or a name.  A batch made of such rows only is appended whatever the
    table holds -- also when the very same rows are stored already --
    unless the engine fails for another reason. *)
Theorem save_to_database_unkeyed_batch_accepted :
  forall (env : Env) (df : Frame) (etf : string) (w : World),
    store_fault env etf = false ->
    forallb (fun h => negb (keyed h)) (frame_rows df) = true ->
    exists w',
      save_to_database env df etf w = (inr true, w')
      /\ holdings w' = holdings w ++ frame_rows df.
Proof.
  intros env df etf w Hfault Hun.
  rewrite save_to_database_eq, Hfault, (insert_rows_unkeyed _ _ Hun).
  eexists. split; reflexivity.
Qed.

Lemma save_to_database_unkeyed_batch_accepted_witness :
  exists w',
    save_to_database sample_env (frame_of [holding_no_ticker; holding_no_ticker_2])
      "EMBI" (world_of [holding_no_ticker; holding_no_ticker_2]) = (inr true, w')
    /\ holdings w'
       = holdings (world_of [holding_no_ticker; holding_no_ticker_2])
         ++ frame_rows (frame_of [holding_no_ticker; holding_no_ticker_2]).
Proof.
  apply (save_to_database_unkeyed_batch_accepted sample_env
           (frame_of [holding_no_ticker; holding_no_ticker_2]) "EMBI"
           (world_of [holding_no_ticker; holding_no_ticker_2])).
  - reflexivity.
  - reflexivity.
Defined.

(** X5: [fetch_etf_data] returns [None] in exactly two cases: reading the
    feed raised, or the table read has no "Weight (%)" column.  Any other
    table gives a frame, be it without rows. *)
Theorem fetch_etf_data_None_iff :
  forall (env : Env) (etf : string) (config : Config),
    fetch_etf_data env etf config = None
    <-> (exists e, read_csv env (url config) (header_row config) = inl e)
        \/ (exists t, read_csv env (url config) (header_row config) = inr t
                      /\ ~ In "Weight (%)" (columns t)).
Proof.
  intros env etf config. unfold fetch_etf_data, fetch_body.
  destruct (read_csv env (url config) (header_row config)) as [e|t].
  - split; [intros _; left; eauto | reflexivity].
  - destruct (has_column "Weight (%)" t) eqn:Hw.
    + rewrite (getitem_weight t Hw). split; [discriminate|].
      intros [[e He]|[t' [Ht Hn]]]; [discriminate|].
      injection Ht as <-. apply has_column_In in Hw. contradiction.
    + rewrite (getitem_no_weight t Hw). split; [|reflexivity].
      intros _. right. exists t. split; [reflexivity|].
      intros Hin. apply has_column_In in Hin. congruence.
Qed.

Lemma filter_length_bound {A : Type} (p : A -> bool) (l : list A) :
  List.length (filter p l) <= List.length l.
Proof.
  induction l as [|x l IH]; simpl; [lia|]. destruct (p x); simpl; lia.
Qed.

(** X6: a frame returned by [fetch_etf_data] has at most 1000 rows, and
    each row carries the ETF code asked for and today's date. *)
Theorem fetch_etf_data_capped_and_stamped :
  forall (env : Env) (etf : string) (config : Config) (df : Frame),
    fetch_etf_data env etf config = Some df ->
    List.length (frame_rows df) <= 1000
    /\ forall h, In h (frame_rows df) ->
                 etf_code h = etf /\ date_of_pull h = today env.
Proof.
  intros env etf config df Hf.
  destruct (fetch_etf_data_Some env etf config df Hf)
    as [t [Hcsv [Hw [Hcols Hrows]]]].
  rewrite Hrows. split.
  - eapply Nat.le_trans; [apply filter_length_bound|].
    rewrite length_map. apply firstn_le_length.
  - intros h Hin. apply filter_In in Hin. destruct Hin as [Hin _].
    apply in_map_iff in Hin. destruct Hin as [r [<- _]]. split; reflexivity.
Qed.

Lemma fetch_etf_data_capped_and_stamped_witness :
  List.length (frame_rows sample_frame) <= 1000
  /\ forall h, In h (frame_rows sample_frame) ->
               etf_code h = "EMBI" /\ date_of_pull h = today sample_env.
Proof.
  apply (fetch_etf_data_capped_and_stamped sample_env "EMBI" sample_config
           sample_frame).
  vm_compute. reflexivity.
Defined.

Lemma in_frame_made (t : RawTable) (orig col : string) :
  In (orig, col) (numeric_columns ++ column_mapping) ->
  in_frame t col = has_column orig t.
Proof.
  intros H. simpl in H.
  repeat (destruct H as [H|H]; [injection H as <- <-|]); try contradiction;
    unfold in_frame, made_from; cbn;
    repeat match goal with
           | |- context [has_column ?c t] => destruct (has_column c t)
           end; reflexivity.
Qed.

Lemma absent_column_isna (t : RawTable) (etf d col : string) (r : RawRow) :
  In col columns_to_keep ->
  in_frame t col = false ->
  column_isna col (clean_row etf d t r) = true.
Proof.
  intros Hin Hf. simpl in Hin.
  repeat (destruct Hin as [Hin|Hin]; [subst col|]); try contradiction;
    unfold in_frame, made_from in Hf; cbn in Hf; try discriminate Hf;
    unfold column_isna, clean_row, renamed_field, numeric_field; cbn;
    repeat match goal with
           | H : context [has_column ?c t] |- _ => destruct (has_column c t)
           end; try discriminate; reflexivity.
Qed.

Lemma NoDup_columns_to_keep : NoDup columns_to_keep.
Proof. repeat constructor; simpl; intuition discriminate. Qed.

(** X7: the columns of a returned frame are canonical columns, each at
    most once; etf_code, date_of_pull and weight_pct are always among them;
    another canonical column is there exactly when the header of the feed
    has its source column; and a canonical column the frame lacks is null in
    every row (it is left out, not filled with a default). *)
Theorem fetch_etf_data_columns :
  forall (env : Env) (etf : string) (config : Config) (df : Frame),
    fetch_etf_data env etf config = Some df ->
    exists t,
      read_csv env (url config) (header_row config) = inr t
      /\ NoDup (frame_columns df)
      /\ incl (frame_columns df) columns_to_keep
      /\ In "etf_code" (frame_columns df)
      /\ In "date_of_pull" (frame_columns df)
      /\ In "weight_pct" (frame_columns df)
      /\ (forall orig col,
            In (orig, col) (numeric_columns ++ column_mapping) ->
            (In col (frame_columns df) <-> In orig (columns t)))
      /\ (forall col h,
            In col columns_to_keep -> ~ In col (frame_columns df) ->
            In h (frame_rows df) -> column_isna col h = true).
Proof.
  intros env etf config df Hf.
  destruct (fetch_etf_data_Some env etf config df Hf)
    as [t [Hcsv [Hw [Hcols Hrows]]]].
  assert (Hmem : forall col, In col (frame_columns df)
                             <-> In col columns_to_keep /\ in_frame t col = true).
  { intros col. rewrite Hcols. apply filter_In. }
  exists t. split; [exact Hcsv|].
  split; [rewrite Hcols; apply NoDup_filter, NoDup_columns_to_keep|].
  split; [intros col Hc; now apply Hmem in Hc|].
  split; [apply Hmem; split; [simpl; tauto | reflexivity]|].
  split; [apply Hmem; split; [simpl; tauto | reflexivity]|].
  split.
  { apply Hmem. split; [simpl; tauto|].
    rewrite (in_frame_made t "Weight (%)" "weight_pct") by (simpl; tauto).
    now apply has_column_In. }
  split.
  - intros orig col Hp. rewrite Hmem, (in_frame_made t orig col Hp).
    rewrite has_column_In. split; [tauto|]. intros Ho. split; [|exact Ho].
    simpl in Hp.
    repeat (destruct Hp as [Hp|Hp]; [injection Hp as <- <-; simpl; tauto|]).
    contradiction.
  - intros col h Hc Hno Hh. rewrite Hrows in Hh.
    apply filter_In in Hh. destruct Hh as [Hh _].
    apply in_map_iff in Hh. destruct Hh as [r [<- _]].
    apply absent_column_isna; [exact Hc|].
    destruct (in_frame t col) eqn:E; [|reflexivity].
    exfalso. apply Hno. apply Hmem. auto.
Qed.

Lemma fetch_etf_data_columns_witness :
  exists t,
    read_csv sample_env (url sample_config) (header_row sample_config) = inr t
    /\ NoDup (frame_columns sample_frame)
    /\ incl (frame_columns sample_frame) columns_to_keep
    /\ In "etf_code" (frame_columns sample_frame)
    /\ In "date_of_pull" (frame_columns sample_frame)
    /\ In "weight_pct" (frame_columns sample_frame)
    /\ (forall orig col,
          In (orig, col) (numeric_columns ++ column_mapping) ->
          (In col (frame_columns sample_frame) <-> In orig (columns t)))
    /\ (forall col h,
          In col columns_to_keep -> ~ In col (frame_columns sample_frame) ->
          In h (frame_rows sample_frame) -> column_isna col h = true).
Proof.
  apply (fetch_etf_data_columns sample_env "EMBI" sample_config sample_frame).
  vm_compute. reflexivity.
Defined.

(** ** The loop of run_tracker *)

(** One turn of the loop that returns, outcome by outcome. *)
Lemma process_etf_outcome (env : Env) (r r' : Results) (c : string) (w w' : World) :
  process_etf env r c w = (inr r', w') ->
  (r' = add_failed r c /\ holdings w' = holdings w
   /\ (dict_get ETF_CONFIG c = None
       \/ exists config,
            dict_get ETF_CONFIG c = Some config
            /\ count_for c (today env) (holdings w) = 0
            /\ (fetch_etf_data env c config = None
                \/ exists df, fetch_etf_data env c config = Some df
                              /\ frame_rows df = [])))
  \/ (r' = add_skipped r c /\ holdings w' = holdings w
      /\ exists config,
           dict_get ETF_CONFIG c = Some config
           /\ (0 < count_for c (today env) (holdings w)
               \/ exists df,
                    fetch_etf_data env c config = Some df
                    /\ (store_fault env c = true
                        \/ insert_rows (holdings w) (frame_rows df)
                           = inl IntegrityError)))
  \/ (r' = add_success r c
      /\ exists config df,
           dict_get ETF_CONFIG c = Some config
           /\ count_for c (today env) (holdings w) = 0
           /\ fetch_etf_data env c config = Some df
           /\ frame_rows df <> []
           /\ holdings w' = holdings w ++ frame_rows df
           /\ store_fault env c = false
           /\ insert_rows (holdings w) (frame_rows df)
              = inr (holdings w')).
Proof.
  unfold process_etf.
  destruct (dict_get ETF_CONFIG c) as [config|];
    [|unfold ret; intros H; injection H as <- <-; left; auto].
  unfold bind at 1. rewrite check_data_exists_eq.
  destruct (check_fault env c); [discriminate|].
  destruct (count_for c (today env) (holdings w)) as [|n] eqn:Hcount.
  2:{ unfold ret. intros H. injection H as <- <-. right; left.
      repeat split. exists config. split; [reflexivity|]. left. lia. }
  change (0 <? 0) with false. cbv iota.
  destruct (fetch_etf_data env c config) as [df|] eqn:Hfetch.
  2:{ unfold ret. intros H. injection H as <- <-. left. repeat split.
      right. exists config. auto. }
  destruct (frame_rows df) as [|h rows] eqn:Hrows.
  { unfold ret. cbn. intros H. injection H as <- <-. left. repeat split.
    right. exists config. repeat split; try reflexivity.
    right. exists df. auto. }
  change (0 <? List.length (h :: rows)) with true. cbv iota.
  unfold bind. rewrite save_to_database_eq.
  cbn [holdings open_connections console].
  destruct (store_fault env c) eqn:Hfault.
  { unfold ret. intros H. injection H as <- <-. right; left. repeat split.
    exists config. split; [reflexivity|]. right. exists df. auto. }
  rewrite Hrows.
  destruct (insert_rows (holdings w) (h :: rows)) as [e|table] eqn:Hins.
  - apply insert_rows_inl in Hins as He. subst e.
    unfold ret. intros H. injection H as <- <-. right; left. repeat split.
    exists config. split; [reflexivity|]. right. exists df.
    split; [exact Hfetch|]. right. rewrite Hrows. exact Hins.
  - apply insert_rows_inr in Hins as Htable.
    unfold ret. intros H. injection H as <- <-. right; right.
    split; [reflexivity|].
    exists config, df. rewrite Hrows. cbn [holdings].
    repeat split; try assumption; try reflexivity; discriminate.
Qed.

(** A turn returns unless the existence check of a configured code
    raises. *)
Lemma process_etf_returns (env : Env) (r : Results) (c : string) (w : World) :
  (exists r' w', process_etf env r c w = (inr r', w'))
  <-> (dict_get ETF_CONFIG c <> None -> check_fault env c = false).
Proof.
  unfold process_etf.
  destruct (dict_get ETF_CONFIG c) as [config|].
  2:{ split; [congruence|]. intros _. unfold ret. eauto. }
  unfold bind at 1. rewrite check_data_exists_eq.
  destruct (check_fault env c).
  { split; [intros [r' [w' H]]; discriminate|].
    intros H. specialize (H ltac:(discriminate)). discriminate. }
  split; [reflexivity|]. intros _.
  destruct (0 <? count_for c (today env) (holdings w)); [unfold ret; eauto|].
  destruct (fetch_etf_data env c config) as [df|]; [|unfold ret; eauto].
  destruct (0 <? List.length (frame_rows df)); [|unfold ret; eauto].
  unfold bind. rewrite save_to_database_eq.
  cbn [holdings open_connections console].
  destruct (store_fault env c); [unfold ret; eauto|].
  destruct (insert_rows (holdings w) (frame_rows df)) as [[| |]|table];
    unfold ret; eauto.
Qed.

(** An invariant of the loop, stated on the codes still to process, holds
    at the end of a loop that returns. *)
Lemma for_each_invariant (env : Env)
      (P : list string -> Results -> World -> Prop) :
  (forall c rest r w r' w',
      P (c :: rest) r w ->
      process_etf env r c w = (inr r', w') ->
      P rest r' w') ->
  forall (codes : list string) (r r' : Results) (w w' : World),
    P codes r w ->
    for_each codes (process_etf env) r w = (inr r', w') ->
    P [] r' w'.
Proof.
  intros Hstep. induction codes as [|c codes IH]; intros r r' w w' HP Hrun.
  - injection Hrun as <- <-. assumption.
  - simpl in Hrun. unfold bind in Hrun.
    destruct (process_etf env r c w) as [[e|r1] w1] eqn:Hturn; [discriminate|].
    exact (IH r1 r' w1 w' (Hstep _ _ _ _ _ _ HP Hturn) Hrun).
Qed.

(** The loop returns when no existence check of a configured code raises. *)
Lemma for_each_returns (env : Env) (codes : list string) :
  forall (r : Results) (w : World),
    (forall c, In c codes -> dict_get ETF_CONFIG c <> None ->
               check_fault env c = false) ->
    exists r' w', for_each codes (process_etf env) r w = (inr r', w').
Proof.
  induction codes as [|c codes IH]; intros r w Hok.
  - exists r, w. reflexivity.
  - destruct (proj2 (process_etf_returns env r c w) (Hok c (or_introl eq_refl)))
      as [r1 [w1 Hturn]].
    destruct (IH r1 w1) as [r' [w' Hrest]];
      [intros x Hx; apply Hok; now right|].
    exists r', w'. simpl. unfold bind. rewrite Hturn. exact Hrest.
Qed.

(** A run that ends with a summary got through [init_database], and is the
    loop on the world [init_database] leaves. *)
Lemma run_tracker_eq (env : Env) (etf_codes : option (list string)) (w w' : World)
      (res : Results) :
  run_tracker env etf_codes w = (inr res, w') ->
  init_fault env = false
  /\ for_each (codes_to_fetch etf_codes) (process_etf env) (mkResults [] [] [])
              (mkWorld (holdings w) (open_connections w) (console w))
     = (inr res, w').
Proof.
  unfold run_tracker, bind. rewrite init_database_eq.
  destruct (init_fault env); [discriminate|]. auto.
Qed.

Lemma run_tracker_no_fault (env : Env) (etf_codes : option (list string)) (w : World) :
  init_fault env = false ->
  run_tracker env etf_codes w
  = for_each (codes_to_fetch etf_codes) (process_etf env) (mkResults [] [] [])
             (mkWorld (holdings w) (open_connections w) (console w)).
Proof.
  intros H. unfold run_tracker, bind. rewrite init_database_eq, H. reflexivity.
Qed.

Lemma process_etf_lists (env : Env) (r r' : Results) (c : string) (w w' : World) :
  process_etf env r c w = (inr r', w') ->
  r' = add_success r c \/ r' = add_failed r c \/ r' = add_skipped r c.
Proof. apply process_etf_cases. Qed.

Lemma listed_append (s f k : list string) (c : string) (rest : list string) :
  Permutation (s ++ f ++ k ++ c :: rest) (((s ++ f ++ k) ++ [c]) ++ rest).
Proof.
  rewrite <- !app_assoc. simpl. reflexivity.
Qed.

(** X8: whatever the feed and [to_sql] do (their failures are caught), a
    run that ends with a summary accounts for each code given exactly once
    per occurrence: the succeeded, failed and skipped lists together are a
    rearrangement of the input list. *)
Theorem run_tracker_accounts_for_every_code :
  forall (env : Env) (etf_codes : option (list string)) (w w' : World)
         (res : Results),
    run_tracker env etf_codes w = (inr res, w') ->
    Permutation (codes_to_fetch etf_codes)
                (success res ++ failed res ++ skipped res).
Proof.
  intros env etf_codes w w' res Hrun.
  apply run_tracker_eq in Hrun. destruct Hrun as [_ Hrun].
  pose proof (for_each_invariant env
                (fun rest r _ =>
                   Permutation (codes_to_fetch etf_codes)
                               (success r ++ failed r ++ skipped r ++ rest)))
    as Hinv.
  cbv beta in Hinv.
  specialize (fun Hstep H0 => Hinv Hstep _ _ _ _ _ H0 Hrun).
  rewrite !app_nil_r in Hinv. apply Hinv.
  - intros c rest r w0 r' w0' HP Hturn.
    eapply perm_trans; [exact HP|].
    destruct (process_etf_lists env r r' c w0 w0' Hturn) as [-> | [-> | ->]];
      cbn [success failed skipped add_success add_failed add_skipped].
    + rewrite <- !app_assoc. simpl.
      apply Permutation_app_head.
      apply perm_trans with (c :: failed r ++ skipped r ++ rest).
      * apply Permutation_sym.
        rewrite !app_assoc. apply Permutation_middle.
      * reflexivity.
    + rewrite <- !app_assoc. simpl.
      apply Permutation_app_head, Permutation_app_head.
      apply perm_trans with (c :: skipped r ++ rest).
      * apply Permutation_sym, Permutation_middle.
      * reflexivity.
    + rewrite <- !app_assoc. simpl. reflexivity.
  - simpl. reflexivity.
Qed.

Lemma run_tracker_accounts_for_every_code_witness :
  Permutation (codes_to_fetch (Some ["EMBI"; "XX"; "EMBI"]))
              (success (mkResults ["EMBI"] ["XX"] ["EMBI"])
               ++ failed (mkResults ["EMBI"] ["XX"] ["EMBI"])
               ++ skipped (mkResults ["EMBI"] ["XX"] ["EMBI"])).
Proof.
  apply (run_tracker_accounts_for_every_code sample_env
           (Some ["EMBI"; "XX"; "EMBI"]) empty_world
           (snd (run_tracker sample_env (Some ["EMBI"; "XX"; "EMBI"]) empty_world))
           (mkResults ["EMBI"] ["XX"] ["EMBI"])).
  vm_compute. reflexivity.
Defined.

Lemma add_lists_keep (r r' : Results) (c x : string) :
  r' = add_success r c \/ r' = add_failed r c \/ r' = add_skipped r c ->
  (In x (success r) -> In x (success r'))
  /\ (In x (failed r) -> In x (failed r'))
  /\ (In x (skipped r) -> In x (skipped r')).
Proof.
  intros [-> | [-> | ->]];
    cbn [success failed skipped add_success add_failed add_skipped];
    rewrite ?in_app_iff; tauto.
Qed.

Lemma dict_get_Some_neq {A : Type} (d : list (string * A)) (c : string) (v : A) :
  dict_get d c = Some v -> dict_get d c <> None.
Proof. congruence. Qed.

(** X9: in the summary of a run, a code that is not a key of
    [ETF_CONFIG] is in the failed list, and the succeeded and skipped
    lists hold configured codes only. *)
Theorem run_tracker_unknown_code_fails :
  forall (env : Env) (etf_codes : option (list string)) (w w' : World)
         (res : Results),
    run_tracker env etf_codes w = (inr res, w') ->
    (forall c, In c (success res) \/ In c (skipped res) ->
               dict_get ETF_CONFIG c <> None)
    /\ (forall c, In c (codes_to_fetch etf_codes) ->
                  dict_get ETF_CONFIG c = None -> In c (failed res)).
Proof.
  intros env etf_codes w w' res Hrun.
  apply run_tracker_eq in Hrun. destruct Hrun as [_ Hrun].
  assert (HP : (forall c, In c (success res) \/ In c (skipped res) ->
                          dict_get ETF_CONFIG c <> None)
               /\ (forall c, In c (codes_to_fetch etf_codes) ->
                             dict_get ETF_CONFIG c = None ->
                             In c [] \/ In c (failed res))).
  { refine (for_each_invariant env
              (fun rest r _ =>
                 (forall c, In c (success r) \/ In c (skipped r) ->
                            dict_get ETF_CONFIG c <> None)
                 /\ (forall c, In c (codes_to_fetch etf_codes) ->
                               dict_get ETF_CONFIG c = None ->
                               In c rest \/ In c (failed r)))
              _ _ _ _ _ _ _ Hrun).
    - intros c rest r w0 r' w0' [Hk Hu] Hturn.
      destruct (process_etf_outcome env r r' c w0 w0' Hturn)
        as [[-> [_ Hwhy]] | [[-> [_ [config [Hcfg _]]]]
                            | [-> [config [df [Hcfg _]]]]]];
        cbn [success failed skipped add_success add_failed add_skipped]; split.
      + exact Hk.
      + intros x Hx Hnone. rewrite in_app_iff. cbn [In].
        destruct (Hu x Hx Hnone) as [[->|Hr]|Hf]; auto.
      + intros x. rewrite in_app_iff. cbn [In].
        intros [Hs|[Hs|[<-|[]]]]; [apply Hk; auto | apply Hk; auto | congruence].
      + intros x Hx Hnone.
        destruct (Hu x Hx Hnone) as [[->|Hr]|Hf]; auto. congruence.
      + intros x. rewrite in_app_iff. cbn [In].
        intros [[Hs|[<-|[]]]|Hs]; [apply Hk; auto | congruence | apply Hk; auto].
      + intros x Hx Hnone.
        destruct (Hu x Hx Hnone) as [[->|Hr]|Hf]; auto. congruence.
    - split; [simpl; tauto | auto]. }
  destruct HP as [Hknown Hunknown]. split; [exact Hknown|].
  intros c Hc Hnone. destruct (Hunknown c Hc Hnone) as [[]|Hf]. exact Hf.
Qed.

Lemma run_tracker_unknown_code_fails_witness :
  (forall c, In c (success (mkResults ["EMBI"] ["XX"] []))
             \/ In c (skipped (mkResults ["EMBI"] ["XX"] [])) ->
             dict_get ETF_CONFIG c <> None)
  /\ (forall c, In c (codes_to_fetch (Some ["EMBI"; "XX"])) ->
                dict_get ETF_CONFIG c = None ->
                In c (failed (mkResults ["EMBI"] ["XX"] []))).
Proof.
  apply (run_tracker_unknown_code_fails sample_env (Some ["EMBI"; "XX"])
           empty_world
           (snd (run_tracker sample_env (Some ["EMBI"; "XX"]) empty_world))
           (mkResults ["EMBI"] ["XX"] [])).
  vm_compute. reflexivity.
Defined.

Lemma fetch_rows_stamped (env : Env) (etf : string) (config : Config)
      (df : Frame) (h : Holding) :
  fetch_etf_data env etf config = Some df -> In h (frame_rows df) ->
  etf_code h = etf /\ date_of_pull h = today env.
Proof.
  intros Hf Hin.
  destruct (fetch_etf_data_Some env etf config df Hf)
    as [t [_ [_ [_ Hrows]]]].
  rewrite Hrows in Hin. apply filter_In in Hin. destruct Hin as [Hin _].
  apply in_map_iff in Hin. destruct Hin as [r [<- _]]. split; reflexivity.
Qed.

(** X10: a run only appends.  At the end of a run that gives a summary
    the table is the table before it followed by new rows; every new row
    is dated today and belongs to a code of the succeeded list; every
    succeeded code has at least one new row.  Skipped and failed codes
    leave no row. *)
Theorem run_tracker_stores_the_successes :
  forall (env : Env) (etf_codes : option (list string)) (w w' : World)
         (res : Results),
    run_tracker env etf_codes w = (inr res, w') ->
    exists added,
      holdings w' = holdings w ++ added
      /\ (forall h, In h added ->
                    date_of_pull h = today env /\ In (etf_code h) (success res))
      /\ (forall c, In c (success res) -> exists h, In h added /\ etf_code h = c).
Proof.
  intros env etf_codes w w' res Hrun.
  apply run_tracker_eq in Hrun. destruct Hrun as [_ Hrun].
  refine (for_each_invariant env
            (fun _ r w0 =>
               exists added,
                 holdings w0 = holdings w ++ added
                 /\ (forall h, In h added ->
                               date_of_pull h = today env
                               /\ In (etf_code h) (success r))
                 /\ (forall c, In c (success r) ->
                               exists h, In h added /\ etf_code h = c))
            _ _ _ _ _ _ _ Hrun).
  - intros c rest r w0 r' w0' [added [Hh [Hnew Hsucc]]] Hturn.
    destruct (process_etf_outcome env r r' c w0 w0' Hturn)
      as [[-> [Hsame _]] | [[-> [Hsame _]]
          | [-> [config [df [Hcfg [Hcnt [Hf [Hne [Hgrow [Hnf Hok]]]]]]]]]]].
    + exists added. rewrite Hsame. auto.
    + exists added. rewrite Hsame. auto.
    + exists (added ++ frame_rows df). split; [|split].
      * rewrite Hgrow, Hh, app_assoc. reflexivity.
      * intros h Hin. cbn [success add_success]. rewrite in_app_iff.
        apply in_app_or in Hin. destruct Hin as [Hin|Hin].
        -- destruct (Hnew h Hin). auto.
        -- destruct (fetch_rows_stamped env c config df h Hf Hin) as [-> ->].
           split; [reflexivity | right; now left].
      * intros x. cbn [success add_success]. rewrite in_app_iff.
        intros [Hx|[<-|[]]].
        -- destruct (Hsucc x Hx) as [h [Hin He]]. exists h.
           split; [apply in_or_app; now left | exact He].
        -- destruct (frame_rows df) as [|h rows] eqn:Hrows; [congruence|].
           exists h. split; [apply in_or_app; right; now left|].
           apply (fetch_rows_stamped env c config df h Hf).
           rewrite Hrows. now left.
  - exists []. simpl. rewrite app_nil_r.
    split; [reflexivity|]. split; [intros h []|intros c []].
Qed.

Lemma run_tracker_stores_the_successes_witness :
  exists added,
    holdings (snd (run_tracker sample_env (Some ["EMBI"; "XX"])
                     (world_of [holding_new])))
    = holdings (world_of [holding_new]) ++ added
    /\ (forall h, In h added ->
                  date_of_pull h = today sample_env
                  /\ In (etf_code h) (success (mkResults ["EMBI"] ["XX"] [])))
    /\ (forall c, In c (success (mkResults ["EMBI"] ["XX"] [])) ->
                  exists h, In h added /\ etf_code h = c).
Proof.
  apply (run_tracker_stores_the_successes sample_env (Some ["EMBI"; "XX"])
           (world_of [holding_new])
           (snd (run_tracker sample_env (Some ["EMBI"; "XX"])
                   (world_of [holding_new])))
           (mkResults ["EMBI"] ["XX"] [])).
  vm_compute. reflexivity.
Defined.

(** ** Running twice on the same day *)

Lemma count_for_mono (c d : string) (t t' : list Holding) :
  incl t t' -> 0 < count_for c d t -> 0 < count_for c d t'.
Proof.
  intros Hi. rewrite !count_for_pos. intros [h [Hin Hp]].
  exists h. split; [now apply Hi | exact Hp].
Qed.

Lemma existsb_incl {A : Type} (p : A -> bool) (l l' : list A) :
  incl l l' -> existsb p l = true -> existsb p l' = true.
Proof.
  intros Hi H. apply existsb_exists in H. destruct H as [x [Hx Hp]].
  apply existsb_exists. exists x. split; [now apply Hi | exact Hp].
Qed.

(** A batch refused on a table is refused on every table that holds at
    least the same rows. *)
Lemma insert_rows_refused_mono (batch t t' : list Holding) :
  incl t t' ->
  insert_rows t batch = inl IntegrityError ->
  insert_rows t' batch = inl IntegrityError.
Proof.
  revert t t'. induction batch as [|r batch IH]; intros t t' Hi H; simpl in *.
  - discriminate.
  - destruct (existsb (unique_clash r) t) eqn:E.
    + now rewrite (existsb_incl _ t t' Hi E).
    + destruct (existsb (unique_clash r) t'); [reflexivity|].
      apply (IH (t ++ [r])); [|exact H].
      intros x Hx. apply in_app_or in Hx. apply in_or_app.
      destruct Hx as [Hx|Hx]; [left; now apply Hi | now right].
Qed.

Lemma settled_mono (env : Env) (c : string) (t t' : list Holding) :
  incl t t' -> settled env c t -> settled env c t'.
Proof.
  intros Hi. unfold settled.
  destruct (dict_get ETF_CONFIG c) as [config|]; [|trivial].
  intros [Hc|Hrest]; [left; now apply (count_for_mono c _ t)|].
  right. destruct (fetch_etf_data env c config) as [df|]; [|trivial].
  destruct Hrest as [He|[Hf|Hr]]; auto.
  right; right. now apply (insert_rows_refused_mono _ t).
Qed.

(** After its turn a code is settled, and the table has only grown. *)
Lemma process_etf_settles (env : Env) (r r' : Results) (c : string) (w w' : World) :
  process_etf env r c w = (inr r', w') ->
  incl (holdings w) (holdings w') /\ settled env c (holdings w').
Proof.
  intros Hrun.
  pose proof (process_etf_outcome env r r' c w w' Hrun) as Hout.
  unfold settled.
  destruct Hout as [[_ [Hsame Hwhy]] | [[_ [Hsame [config [Hcfg Hwhy]]]]
                    | [_ [config [df [Hcfg [Hcnt [Hf [Hne [Hgrow [Hnf Hok]]]]]]]]]]].
  - rewrite Hsame. split; [apply incl_refl|].
    destruct Hwhy as [-> | [config [-> [_ [-> | [df [-> ->]]]]]]]; auto.
  - rewrite Hsame, Hcfg. split; [apply incl_refl|].
    destruct Hwhy as [Hpos | [df [-> [Hfault | Hins]]]]; auto.
  - rewrite Hgrow, Hcfg. split; [apply incl_appl, incl_refl|].
    left. apply count_for_pos.
    destruct (frame_rows df) as [|h rows] eqn:Hrows; [congruence|].
    exists h. split; [apply in_or_app; right; now left|].
    apply (fetch_rows_stamped env c config df h Hf). rewrite Hrows. now left.
Qed.

(** The turn of a settled code changes no row and lists the code as
    skipped when its rows of today are there, as failed or skipped
    otherwise. *)
Lemma process_etf_settled (env : Env) (r r' : Results) (c : string) (w w' : World) :
  settled env c (holdings w) ->
  process_etf env r c w = (inr r', w') ->
  holdings w' = holdings w
  /\ (r' = add_failed r c \/ r' = add_skipped r c)
  /\ (dict_get ETF_CONFIG c <> None ->
      0 < count_for c (today env) (holdings w) -> r' = add_skipped r c).
Proof.
  intros Hs Hrun.
  pose proof (process_etf_outcome env r r' c w w' Hrun) as Hout.
  destruct Hout as [[-> [Hsame Hwhy]] | [[-> [Hsame _]]
                    | [-> [config [df [Hcfg [Hcnt [Hf [Hne [Hgrow [Hnf Hok]]]]]]]]]]].
  - split; [exact Hsame|]. split; [now left|]. intros Hcfg Hpos.
    destruct Hwhy as [Hnone | [config [_ [Hz _]]]]; [congruence | lia].
  - split; [exact Hsame|]. split; [now right | reflexivity].
  - exfalso. unfold settled in Hs. rewrite Hcfg, Hf in Hs.
    destruct Hs as [Hpos | [He | [Hfault | Hins]]];
      [lia | congruence | congruence | congruence].
Qed.

Lemma process_etf_success_stored (env : Env) (r r' : Results) (c x : string)
      (w w' : World) :
  process_etf env r c w = (inr r', w') ->
  In x (success r') ->
  In x (success r)
  \/ (x = c /\ dict_get ETF_CONFIG c <> None
      /\ 0 < count_for c (today env) (holdings w')).
Proof.
  intros Hrun Hx.
  pose proof (process_etf_outcome env r r' c w w' Hrun) as Hout.
  destruct Hout as [[-> _] | [[-> _]
                    | [-> [config [df [Hcfg [Hcnt [Hf [Hne [Hgrow _]]]]]]]]]];
    cbn [success add_success add_failed add_skipped] in Hx; auto.
  apply in_app_or in Hx. destruct Hx as [Hx|[<-|[]]]; [now left|].
  right. split; [reflexivity|]. split; [congruence|].
  rewrite Hgrow. apply count_for_pos.
  destruct (frame_rows df) as [|h rows] eqn:Hrows; [congruence|].
  exists h. split; [apply in_or_app; right; now left|].
  apply (fetch_rows_stamped env c config df h Hf). rewrite Hrows. now left.
Qed.

(** What a finished run leaves behind: every code given is settled on the
    final table, every succeeded code is configured and has rows of today
    there, and the engine did not fail on an existence check. *)
Lemma run_tracker_settles (env : Env) (etf_codes : option (list string))
      (w w1 : World) (res1 : Results) :
  run_tracker env etf_codes w = (inr res1, w1) ->
  (forall c, In c (codes_to_fetch etf_codes) -> settled env c (holdings w1))
  /\ (forall c, In c (success res1) ->
                In c (codes_to_fetch etf_codes)
                /\ dict_get ETF_CONFIG c <> None
                /\ 0 < count_for c (today env) (holdings w1))
  /\ (forall c, In c (codes_to_fetch etf_codes) ->
                dict_get ETF_CONFIG c <> None -> check_fault env c = false).
Proof.
  intros Hrun. apply run_tracker_eq in Hrun. destruct Hrun as [_ Hrun].
  assert (HP : incl [] (codes_to_fetch etf_codes)
               /\ (forall c, In c (codes_to_fetch etf_codes) ->
                             In c []
                             \/ (settled env c (holdings w1)
                                 /\ (dict_get ETF_CONFIG c <> None ->
                                     check_fault env c = false)))
               /\ (forall c, In c (success res1) ->
                             In c (codes_to_fetch etf_codes)
                             /\ dict_get ETF_CONFIG c <> None
                             /\ 0 < count_for c (today env) (holdings w1))).
  { refine (for_each_invariant env
              (fun rest r w0 =>
                 incl rest (codes_to_fetch etf_codes)
                 /\ (forall c, In c (codes_to_fetch etf_codes) ->
                               In c rest
                               \/ (settled env c (holdings w0)
                                   /\ (dict_get ETF_CONFIG c <> None ->
                                       check_fault env c = false)))
                 /\ (forall c, In c (success r) ->
                               In c (codes_to_fetch etf_codes)
                               /\ dict_get ETF_CONFIG c <> None
                               /\ 0 < count_for c (today env) (holdings w0)))
              _ _ _ _ _ _ _ Hrun).
    - intros c rest r w0 r' w0' [Hincl [Hs Hok]] Hstep.
      destruct (process_etf_settles env r r' c w0 w0' Hstep) as [Hgrow Hc].
      pose proof (proj1 (process_etf_returns env r c w0)
                    (ex_intro _ r' (ex_intro _ w0' Hstep))) as Hcheck.
      split; [intros x Hx; apply Hincl; now right|]. split.
      + intros x Hx. destruct (Hs x Hx) as [[<-|Hr]|[Hset Hchk]]; auto.
        right. split; [|exact Hchk].
        now apply (settled_mono env x (holdings w0)).
      + intros x Hx.
        destruct (process_etf_success_stored env r r' c x w0 w0' Hstep Hx)
          as [Hold | [-> [Hcfg Hpos]]].
        * destruct (Hok x Hold) as [H1 [H2 H3]].
          split; [exact H1|]. split; [exact H2|].
          now apply (count_for_mono x _ (holdings w0)).
        * split; [apply Hincl; now left | auto].
    - split; [apply incl_refl|]. split; [auto | intros c []]. }
  destruct HP as [_ [Hset Hsucc]]. split; [|split].
  - intros c Hc. destruct (Hset c Hc) as [[]|[H _]]. exact H.
  - exact Hsucc.
  - intros c Hc. destruct (Hset c Hc) as [[]|[_ H]]. exact H.
Qed.

(** X11: a second run on the same day, with the feed and the engine
    answering as before, stores nothing: it ends with the table of the
    first run, an empty succeeded list, and every code the first run
    succeeded on in its skipped list. *)
Theorem run_tracker_twice_same_day :
  forall (env : Env) (etf_codes : option (list string)) (w w1 : World)
         (res1 : Results),
    run_tracker env etf_codes w = (inr res1, w1) ->
    exists res2 w2,
      run_tracker env etf_codes w1 = (inr res2, w2)
      /\ holdings w2 = holdings w1
      /\ success res2 = []
      /\ (forall c, In c (success res1) -> In c (skipped res2)).
Proof.
  intros env etf_codes w w1 res1 Hrun1.
  destruct (run_tracker_settles env etf_codes w w1 res1 Hrun1)
    as [Hset [Hsucc Hcheck]].
  destruct (run_tracker_eq env etf_codes w w1 res1 Hrun1) as [Hinit _].
  rewrite (run_tracker_no_fault env etf_codes w1 Hinit).
  destruct (for_each_returns env (codes_to_fetch etf_codes) (mkResults [] [] [])
              (mkWorld (holdings w1) (open_connections w1) (console w1)) Hcheck)
    as [res2 [w2 Hrun2]].
  assert (HP : holdings w2 = holdings w1
               /\ success res2 = []
               /\ incl [] (codes_to_fetch etf_codes)
               /\ (forall c, In c (codes_to_fetch etf_codes) ->
                             dict_get ETF_CONFIG c <> None ->
                             0 < count_for c (today env) (holdings w1) ->
                             In c [] \/ In c (skipped res2))).
  { refine (for_each_invariant env
              (fun rest r w0 =>
                 holdings w0 = holdings w1
                 /\ success r = []
                 /\ incl rest (codes_to_fetch etf_codes)
                 /\ (forall c, In c (codes_to_fetch etf_codes) ->
                               dict_get ETF_CONFIG c <> None ->
                               0 < count_for c (today env) (holdings w1) ->
                               In c rest \/ In c (skipped r)))
              _ _ _ _ _ _ _ Hrun2).
    - intros c rest r w0 r' w0' [Hh [Hs [Hincl Hk]]] Hstep.
      assert (Hc : settled env c (holdings w0)).
      { rewrite Hh. apply Hset, Hincl. now left. }
      destruct (process_etf_settled env r r' c w0 w0' Hc Hstep)
        as [Hsame [Hlist Hskipped]].
      split; [congruence|]. split.
      { destruct Hlist as [-> | ->]; exact Hs. }
      split; [intros x Hx; apply Hincl; now right|].
      intros x Hx Hcfg Hpos. destruct (Hk x Hx Hcfg Hpos) as [[<-|Hr]|Hsk].
      + right. rewrite Hskipped; [|exact Hcfg|now rewrite Hh].
        cbn [skipped add_skipped]. apply in_or_app. right. now left.
      + now left.
      + right. destruct Hlist as [-> | ->]; cbn [skipped add_failed add_skipped];
          [exact Hsk | apply in_or_app; now left].
    - split; [reflexivity|]. split; [reflexivity|].
      split; [apply incl_refl | auto]. }
  destruct HP as [Hsame [Hnone [_ Hskip]]].
  exists res2, w2. split; [exact Hrun2|]. split; [exact Hsame|].
  split; [exact Hnone|]. intros c Hc.
  destruct (Hsucc c Hc) as [Hin [Hcfg Hpos]].
  destruct (Hskip c Hin Hcfg Hpos) as [[]|H]. exact H.
Qed.

Lemma run_tracker_twice_same_day_witness :
  exists res2 w2,
    run_tracker sample_env (Some ["EMBI"; "XX"])
      (snd (run_tracker sample_env (Some ["EMBI"; "XX"]) empty_world))
    = (inr res2, w2)
    /\ holdings w2
       = holdings (snd (run_tracker sample_env (Some ["EMBI"; "XX"]) empty_world))
    /\ success res2 = []
    /\ (forall c, In c (success (mkResults ["EMBI"] ["XX"] [])) ->
                  In c (skipped res2)).
Proof.
  apply (run_tracker_twice_same_day sample_env (Some ["EMBI"; "XX"]) empty_world
           (snd (run_tracker sample_env (Some ["EMBI"; "XX"]) empty_world))
           (mkResults ["EMBI"] ["XX"] [])).
  vm_compute. reflexivity.
Defined.

(** X27: [run_tracker] ends with a summary exactly when [init_database]
    does not raise and the existence check raises for no configured code of
    the list; in every other environment the exception leaves the function
    and no summary is made. *)
Theorem run_tracker_returns_iff :
  forall (env : Env) (etf_codes : option (list string)) (w : World),
    (exists res w', run_tracker env etf_codes w = (inr res, w'))
    <-> (init_fault env = false
         /\ forall c, In c (codes_to_fetch etf_codes) ->
                      dict_get ETF_CONFIG c <> None ->
                      check_fault env c = false).
Proof.
  intros env etf_codes w. split.
  - intros [res [w' Hrun]]. split.
    + now destruct (run_tracker_eq env etf_codes w w' res Hrun).
    + now destruct (run_tracker_settles env etf_codes w w' res Hrun)
        as [_ [_ H]].
  - intros [Hinit Hcheck].
    rewrite (run_tracker_no_fault env etf_codes w Hinit).
    now apply for_each_returns.
Qed.

(* ================================================================== *)
(** * Further properties of query_helper.py *)

Lemma get_holdings_by_date_eq (env : Env) (etf d : string) (w : World) :
  query_fault env = false ->
  get_holdings_by_date env etf d w
  = (inr (select_by_date etf d (holdings w)),
     mkWorld (holdings w) (open_connections w) (console w)).
Proof.
  intros Hf. unfold get_holdings_by_date. now rewrite read_query_eq, Hf.
Qed.

Lemma get_latest_holdings_eq (env : Env) (etf : string) (w : World) :
  query_fault env = false ->
  get_latest_holdings env etf w
  = (inr (select_latest etf (holdings w)),
     mkWorld (holdings w) (open_connections w) (console w)).
Proof.
  intros Hf. unfold get_latest_holdings. now rewrite read_query_eq, Hf.
Qed.

(** X12: [get_holdings_by_date] returns exactly the stored rows of that ETF
    and date (each once), heaviest first -- every row has a weight at least
    as great as the weight of every row behind it, the rows without weight
    coming last -- and changes nothing; for a pair without data it returns
    the empty frame, not an error. *)
Theorem get_holdings_by_date_snapshot :
  forall (env : Env) (etf date_str : string) (w : World),
    query_fault env = false ->
    exists df w',
      get_holdings_by_date env etf date_str w = (inr df, w')
      /\ holdings w' = holdings w
      /\ Permutation df
           (filter (fun h => String.eqb (etf_code h) etf
                             && String.eqb (date_of_pull h) date_str)
                   (holdings w))
      /\ StronglySorted
           (fun a b => no_lighter (weight_pct a) (weight_pct b)) df
      /\ ((forall h, In h (holdings w) ->
                     ~ (etf_code h = etf /\ date_of_pull h = date_str)) ->
          df = []).
Proof.
  intros env etf d w Hf. rewrite (get_holdings_by_date_eq env etf d w Hf).
  do 2 eexists. split; [reflexivity|]. cbn [holdings].
  split; [reflexivity|]. split; [apply order_by_perm|]. split.
  - apply order_by_weight_heaviest_first.
  - intros Hnone.
    destruct (select_by_date etf d (holdings w)) as [|h l] eqn:E; [reflexivity|].
    assert (Hin : In h (select_by_date etf d (holdings w)))
      by (rewrite E; now left).
    apply In_select_by_date in Hin. destruct Hin as [Hin Hp].
    exfalso. exact (Hnone h Hin Hp).
Qed.

Lemma get_holdings_by_date_snapshot_witness :
  exists df w',
    get_holdings_by_date sample_env "EMBI" "2025-01-01" (world_of shuffled_store)
    = (inr df, w')
    /\ holdings w' = holdings (world_of shuffled_store)
    /\ Permutation df
         (filter (fun h => String.eqb (etf_code h) "EMBI"
                           && String.eqb (date_of_pull h) "2025-01-01")
                 (holdings (world_of shuffled_store)))
    /\ StronglySorted
         (fun a b => no_lighter (weight_pct a) (weight_pct b)) df
    /\ ((forall h, In h (holdings (world_of shuffled_store)) ->
                   ~ (etf_code h = "EMBI" /\ date_of_pull h = "2025-01-01")) ->
        df = []).
Proof.
  apply (get_holdings_by_date_snapshot sample_env "EMBI" "2025-01-01"
           (world_of shuffled_store)).
  reflexivity.
Defined.

(** The run behind the witness: stored with the weights null, 0.4, 5 (of
    another date), 3.2, 1.1 in this order, the rows of 2025-01-01 come back
    as 3.2, 1.1, 0.4, null. *)
Lemma get_holdings_by_date_example :
  fst (get_holdings_by_date sample_env "EMBI" "2025-01-01"
         (world_of shuffled_store))
  = inr [holding_mex; holding_no_ticker; holding_no_ticker_2; holding_no_numbers].
Proof. vm_compute. reflexivity. Qed.

(** X13: for an ETF without any stored row, [get_latest_holdings] returns
    the empty frame: MAX over no row is NULL and no date equals NULL. *)
Theorem get_latest_holdings_no_data :
  forall (env : Env) (etf : string) (w : World),
    query_fault env = false ->
    (forall h, In h (holdings w) -> etf_code h <> etf) ->
    exists w',
      get_latest_holdings env etf w = (inr [], w')
      /\ holdings w' = holdings w.
Proof.
  intros env etf w Hf Hnone. rewrite (get_latest_holdings_eq env etf w Hf).
  assert (Hempty : filter (of_etf etf) (holdings w) = []).
  { apply filter_none. intros h Hh. unfold of_etf.
    apply String.eqb_neq. now apply Hnone. }
  unfold select_latest. rewrite Hempty. cbn [map sql_max].
  rewrite (filter_none _ (holdings w)).
  - eexists. split; reflexivity.
  - intros h _. unfold on_date. apply andb_false_r.
Qed.

Lemma get_latest_holdings_no_data_witness :
  exists w',
    get_latest_holdings sample_env "GBI" (world_of sample_store) = (inr [], w')
    /\ holdings w' = holdings (world_of sample_store).
Proof.
  apply (get_latest_holdings_no_data sample_env "GBI" (world_of sample_store)).
  - reflexivity.
  - intros h Hin.
    repeat (destruct Hin as [<-|Hin]; [discriminate|]). contradiction.
Defined.

(** X14: for an ETF with data, [get_latest_holdings] is
    [get_holdings_by_date] at the latest date stored for that ETF: the two
    calls return the same frame and leave the same world. *)
Theorem get_latest_holdings_is_snapshot_of_last_date :
  forall (env : Env) (etf : string) (w : World),
    (exists h, In h (holdings w) /\ etf_code h = etf) ->
    exists latest,
      (exists h, In h (holdings w) /\ etf_code h = etf
                 /\ date_of_pull h = latest)
      /\ (forall h, In h (holdings w) -> etf_code h = etf ->
                    String.leb (date_of_pull h) latest = true)
      /\ get_latest_holdings env etf w = get_holdings_by_date env etf latest w.
Proof.
  intros env etf w [h0 [Hin0 Hetf0]].
  destruct (sql_max_spec (map date_of_pull (filter (of_etf etf) (holdings w))))
    as [latest [Hmax [Hmem Hub]]].
  { intros Hnil. apply map_eq_nil in Hnil.
    assert (Hin : In h0 (filter (of_etf etf) (holdings w)))
      by (apply filter_In; split; [assumption | now apply of_etf_true]).
    rewrite Hnil in Hin. contradiction. }
  exists latest. split; [|split].
  - apply in_map_iff in Hmem. destruct Hmem as [h [Hd Hh]].
    apply filter_In in Hh. destruct Hh as [Hh He].
    exists h. split; [assumption|]. split; [now apply of_etf_true | assumption].
  - intros h Hh He. apply Hub, in_map, filter_In.
    split; [assumption | now apply of_etf_true].
  - unfold get_latest_holdings, get_holdings_by_date.
    rewrite !read_query_eq. unfold select_latest, select_by_date.
    now rewrite Hmax.
Qed.

Lemma get_latest_holdings_is_snapshot_of_last_date_witness :
  exists latest,
    (exists h, In h (holdings (world_of sample_store)) /\ etf_code h = "EMBI"
               /\ date_of_pull h = latest)
    /\ (forall h, In h (holdings (world_of sample_store)) -> etf_code h = "EMBI" ->
                  String.leb (date_of_pull h) latest = true)
    /\ get_latest_holdings sample_env "EMBI" (world_of sample_store)
       = get_holdings_by_date sample_env "EMBI" latest (world_of sample_store).
Proof.
  apply (get_latest_holdings_is_snapshot_of_last_date sample_env "EMBI"
           (world_of sample_store)).
  exists holding_mex. split; [now left | reflexivity].
Defined.

Section SortedSplit.
Variable A : Type.
Variable R : A -> A -> Prop.

Lemma StronglySorted_split (l1 l2 : list A) :
  StronglySorted R (l1 ++ l2) ->
  StronglySorted R l1
  /\ StronglySorted R l2
  /\ forall a b, In a l1 -> In b l2 -> R a b.
Proof.
  induction l1 as [|x l1 IH]; simpl; intros H.
  - split; [constructor|]. split; [exact H | intros a b []].
  - inversion H as [|? ? Hs Hall]; subst.
    destruct (IH Hs) as [H1 [H2 H12]].
    rewrite Forall_forall in Hall. split; [|split; [exact H2|]].
    + constructor; [exact H1|]. apply Forall_forall.
      intros y Hy. apply Hall, in_or_app. now left.
    + intros a b [<-|Ha] Hb; [apply Hall, in_or_app; now right | now apply H12].
Qed.
End SortedSplit.

Lemma StronglySorted_map {A B : Type} (R : B -> B -> Prop) (f : A -> B) (l : list A) :
  StronglySorted (fun a b => R (f a) (f b)) l -> StronglySorted R (map f l).
Proof.
  induction 1 as [|x l Hs IH Hall]; simpl; constructor; [exact IH|].
  rewrite Forall_forall in *. intros y Hy.
  apply in_map_iff in Hy. destruct Hy as [a [<- Ha]]. now apply Hall.
Qed.

Lemma df_head_split {A : Type} (n : Z) (l : list A) :
  exists rest, l = df_head n l ++ rest.
Proof.
  unfold df_head. destruct (0 <=? n)%Z.
  - exists (skipn (Z.to_nat n) l). symmetry. apply firstn_skipn.
  - exists (skipn (List.length l - Z.to_nat (- n)) l). symmetry.
    apply firstn_skipn.
Qed.

Lemma df_head_length {A : Type} (n : Z) (l : list A) :
  List.length (df_head n l)
  = if (0 <=? n)%Z then Nat.min (Z.to_nat n) (List.length l)
    else List.length l - Z.to_nat (- n).
Proof.
  unfold df_head. destruct (0 <=? n)%Z; rewrite length_firstn; lia.
Qed.

(** X15: [get_top_holdings] returns the head of the snapshot it reads (the
    latest one when no date is given): [min(n, size)] rows for [n >= 0],
    all but the last [|n|] for a negative [n]; they come heaviest first, and
    no row left out is heavier than a row returned. *)
Theorem get_top_holdings_are_the_heaviest :
  forall (env : Env) (etf : string) (top_n : Z) (date_str : option string)
         (w : World),
    query_fault env = false ->
    exists taken rest rows w',
      get_top_holdings env etf top_n date_str w = (inr rows, w')
      /\ holdings w' = holdings w
      /\ fst (match date_str with
              | None => get_latest_holdings env etf w
              | Some d => get_holdings_by_date env etf d w
              end) = inr (taken ++ rest)
      /\ rows = map top_columns taken
      /\ List.length rows
         = (if (0 <=? top_n)%Z
            then Nat.min (Z.to_nat top_n) (List.length (taken ++ rest))
            else List.length (taken ++ rest) - Z.to_nat (- top_n))
      /\ StronglySorted (fun a b => weight_top a b = true) rows
      /\ (forall a b, In a taken -> In b rest -> weight_geb a b = true).
Proof.
  intros env etf n date_str w Hf.
  assert (Hsrc : exists df,
             match date_str with
             | None => get_latest_holdings env etf w
             | Some d => get_holdings_by_date env etf d w
             end
             = (inr df, mkWorld (holdings w) (open_connections w) (console w))
             /\ weight_descending df).
  { destruct date_str as [d|]; eexists; (split;
      [first [apply get_holdings_by_date_eq | apply get_latest_holdings_eq];
       exact Hf|]);
      apply order_by_sorted;
      solve [exact weight_geb_total | exact weight_geb_trans]. }
  destruct Hsrc as [df [Hsrc Hsorted]].
  destruct (df_head_split n df) as [rest Hsplit].
  exists (df_head n df), rest, (map top_columns (df_head n df)).
  assert (Hrun : get_top_holdings env etf n date_str w
                 = (inr (map top_columns (df_head n df)),
                    mkWorld (holdings w) (open_connections w) (console w))).
  { unfold get_top_holdings, bind.
    destruct date_str as [d|]; rewrite Hsrc; reflexivity. }
  rewrite Hrun, Hsrc. cbn [fst].
  eexists. split; [reflexivity|]. cbn [holdings].
  split; [reflexivity|]. split; [now rewrite <- Hsplit|].
  split; [reflexivity|].
  unfold weight_descending in Hsorted. rewrite Hsplit in Hsorted.
  destruct (StronglySorted_split _ _ _ _ Hsorted) as [H1 [_ H12]].
  split; [|split].
  - rewrite length_map, <- Hsplit. apply df_head_length.
  - apply StronglySorted_map. exact H1.
  - exact H12.
Qed.

Lemma get_top_holdings_are_the_heaviest_witness :
  exists taken rest rows w',
    get_top_holdings sample_env "EMBI" 2 (Some "2025-01-01") (world_of sample_store)
    = (inr rows, w')
    /\ holdings w' = holdings (world_of sample_store)
    /\ fst (get_holdings_by_date sample_env "EMBI" "2025-01-01"
              (world_of sample_store)) = inr (taken ++ rest)
    /\ rows = map top_columns taken
    /\ List.length rows
       = (if (0 <=? 2)%Z
          then Nat.min (Z.to_nat 2) (List.length (taken ++ rest))
          else List.length (taken ++ rest) - Z.to_nat (- 2))
    /\ StronglySorted (fun a b => weight_top a b = true) rows
    /\ (forall a b, In a taken -> In b rest -> weight_geb a b = true).
Proof.
  apply (get_top_holdings_are_the_heaviest sample_env "EMBI" 2
           (Some "2025-01-01") (world_of sample_store)).
  reflexivity.
Defined.

(** ** More on compare_dates *)

Lemma merge_outer_only_old (df1 df2 : list Holding) (o : Holding) :
  In o df1 ->
  (forall n, In n df2 -> same_key o n = false) ->
  In (OnlyOld o) (merge_outer df1 df2).
Proof.
  intros Ho Hnone. unfold merge_outer. apply in_or_app. left.
  apply in_flat_map. exists o. split; [exact Ho|].
  unfold pair_old. rewrite (filter_none (same_key o) df2 Hnone). now left.
Qed.


(** X16: in [compare_dates etf d1 d2], a stored row of d1 with weight [wt]
    whose (ticker, name) key no row of d2 has gives an output row with a
    null new weight and [weight_change == -wt], and it is one of the rows
    the "removed" count counts. *)
Theorem compare_dates_removed_holding :
  forall (env : Env) (etf d1 d2 : string) (w : World) (o : Holding) (wt : Q),
    query_fault env = false ->
    In o (holdings w) -> etf_code o = etf -> date_of_pull o = d1 ->
    (forall n, In n (holdings w) -> etf_code n = etf -> date_of_pull n = d2 ->
               same_key o n = false) ->
    weight_pct o = Some wt ->
    exists rows w' new_holdings removed_holdings changed_holdings,
      compare_dates env etf d1 d2 w = (inr rows, w')
      /\ console w' = console w ++ [ComparisonCounts new_holdings removed_holdings
                                                      changed_holdings]
      /\ removed_holdings = count_if (fun r => isna (weight_pct_new r)) rows
      /\ 0 < removed_holdings
      /\ exists r,
           In r rows
           /\ out_ticker r = ticker o /\ out_name r = name o
           /\ weight_pct_old r = Some wt
           /\ weight_pct_new r = None
           /\ (weight_change r == - wt)%Q.
Proof.
  intros env etf d1 d2 w o wt Hfault Hin Hetf Hdate Hnone Hwt.
  rewrite (compare_dates_eq env etf d1 d2 w Hfault). cbv zeta.
  set (merged := compare_frames (select_by_date etf d1 (holdings w))
                                (select_by_date etf d2 (holdings w))).
  assert (Hm : In (OnlyOld o) merged).
  { unfold merged, compare_frames. apply order_by_In.
    apply merge_outer_only_old.
    - apply In_select_by_date. auto.
    - intros n Hn. apply In_select_by_date in Hn.
      destruct Hn as [Hn [He Hd]]. now apply Hnone. }
  do 5 eexists. split; [reflexivity|]. cbn [console].
  split; [reflexivity|]. split; [|split].
  - unfold removed_count. now rewrite count_if_map.
  - unfold removed_count. now apply (count_if_pos _ _ (OnlyOld o)).
  - exists (output_row (OnlyOld o)). split; [now apply in_map|].
    cbn. rewrite Hwt. repeat split; try reflexivity.
    unfold merged_weight_change. cbn. rewrite Hwt. cbn. ring.
Qed.

Lemma compare_dates_removed_holding_witness :
  exists rows w' new_holdings removed_holdings changed_holdings,
    compare_dates sample_env "EMBI" "2025-01-15" "2025-01-01"
      (world_of [holding_mex; holding_new; holding_mex_later]) = (inr rows, w')
    /\ console w'
       = console (world_of [holding_mex; holding_new; holding_mex_later])
         ++ [ComparisonCounts new_holdings removed_holdings changed_holdings]
    /\ removed_holdings = count_if (fun r => isna (weight_pct_new r)) rows
    /\ 0 < removed_holdings
    /\ exists r,
         In r rows
         /\ out_ticker r = ticker holding_new /\ out_name r = name holding_new
         /\ weight_pct_old r = Some 5%Q
         /\ weight_pct_new r = None
         /\ (weight_change r == - 5)%Q.
Proof.
  refine (compare_dates_removed_holding sample_env "EMBI" "2025-01-15"
            "2025-01-01" (world_of [holding_mex; holding_new; holding_mex_later])
            holding_new 5%Q _ _ _ _ _ _).
  - reflexivity.
  - simpl. tauto.
  - reflexivity.
  - reflexivity.
  - intros n [<-|[<-|[<-|[]]]] He Hd; try reflexivity; discriminate Hd.
  - reflexivity.
Defined.



Lemma abs_change_geb_total (x y : Merged) :
  abs_change_geb x y = false -> abs_change_geb y x = true.
Proof.
  unfold abs_change_geb. intros H. apply Qle_bool_iff.
  destruct (Qlt_le_dec (Qabs (merged_weight_change x))
                       (Qabs (merged_weight_change y))) as [Hlt|Hle].
  - now apply Qlt_le_weak.
  - apply Qle_bool_iff in Hle. congruence.
Qed.

Lemma abs_change_geb_trans (x y z : Merged) :
  abs_change_geb x y = true -> abs_change_geb y z = true ->
  abs_change_geb x z = true.
Proof.
  unfold abs_change_geb. rewrite !Qle_bool_iff. intros H1 H2.
  now apply Qle_trans with (Qabs (merged_weight_change y)).
Qed.

(** X18: the frame [compare_dates] returns is ordered by the size of the
    weight change, largest first, whatever its sign. *)
Theorem compare_dates_sorted_by_abs_change :
  forall (env : Env) (etf d1 d2 : string) (w : World),
    query_fault env = false ->
    exists rows w',
      compare_dates env etf d1 d2 w = (inr rows, w')
      /\ holdings w' = holdings w
      /\ StronglySorted
           (fun a b => (Qabs (weight_change b) <= Qabs (weight_change a))%Q)
           rows.
Proof.
  intros env etf d1 d2 w Hfault.
  rewrite (compare_dates_eq env etf d1 d2 w Hfault). cbv zeta.
  do 2 eexists. split; [reflexivity|]. split; [reflexivity|].
  apply StronglySorted_map. unfold compare_frames.
  pose proof (order_by_sorted Merged abs_change_geb abs_change_geb_total
                abs_change_geb_trans
                (merge_outer (select_by_date etf d1 (holdings w))
                             (select_by_date etf d2 (holdings w)))) as Hs.
  induction Hs as [|m l Hs IH Hall]; constructor; [exact IH|].
  rewrite Forall_forall in *. intros x Hx.
  apply Qle_bool_iff. exact (Hall x Hx).
Qed.

Lemma compare_dates_sorted_by_abs_change_witness :
  exists rows w',
    compare_dates sample_env "EMBI" "2025-01-01" "2025-01-15"
      (world_of sample_store) = (inr rows, w')
    /\ holdings w' = holdings (world_of sample_store)
    /\ StronglySorted
         (fun a b => (Qabs (weight_change b) <= Qabs (weight_change a))%Q)
         rows.
Proof.
  apply (compare_dates_sorted_by_abs_change sample_env "EMBI" "2025-01-01"
           "2025-01-15" (world_of sample_store)).
  reflexivity.
Defined.

(** *** Swapping the two dates *)

Lemma flat_map_app_perm {A B : Type} (f g : A -> list B) (l : list A) :
  Permutation (flat_map (fun x => f x ++ g x) l) (flat_map f l ++ flat_map g l).
Proof.
  induction l as [|x l IH]; simpl; [apply perm_nil|].
  rewrite <- !app_assoc. apply Permutation_app_head.
  apply perm_trans with (g x ++ flat_map f l ++ flat_map g l).
  - now apply Permutation_app_head.
  - apply Permutation_app_swap_app.
Qed.

Lemma filter_nil_existsb {A : Type} (p : A -> bool) (l : list A) :
  filter p l = [] -> existsb p l = false.
Proof.
  intros H. apply existsb_none. intros x Hx.
  destruct (p x) eqn:E; [|reflexivity].
  assert (Hin : In x (filter p l)) by (apply filter_In; auto).
  rewrite H in Hin. contradiction.
Qed.

Lemma filter_cons_existsb {A : Type} (p : A -> bool) (l l' : list A) (x : A) :
  filter p l = x :: l' -> existsb p l = true.
Proof.
  intros H. apply existsb_exists. exists x.
  apply filter_In. rewrite H. now left.
Qed.

(** The merge, up to the order of its rows: the pairings, the old rows
    alone, the new rows alone. *)
Lemma merge_outer_parts (df1 df2 : list Holding) :
  Permutation (merge_outer df1 df2)
              (paired df1 df2 ++ map OnlyOld (lonely df1 df2)
               ++ map OnlyNew (lonely df2 df1)).
Proof.
  unfold merge_outer. rewrite app_assoc. apply Permutation_app.
  - unfold paired, lonely. induction df1 as [|o df1 IH]; simpl; [apply perm_nil|].
    unfold pair_old at 1.
    destruct (filter (same_key o) df2) as [|p ps] eqn:E.
    + rewrite (filter_nil_existsb _ _ E). simpl.
      now apply Permutation_cons_app.
    + rewrite (filter_cons_existsb _ _ _ _ E). simpl.
      apply perm_skip. rewrite <- app_assoc. now apply Permutation_app_head.
  - unfold unmatched_new, lonely.
    rewrite (filter_ext (fun n => negb (existsb (fun o => same_key o n) df1))
                        (fun o => negb (existsb (same_key o) df1))).
    + apply Permutation_refl.
    + intros n. f_equal. clear. induction df1 as [|o df1 IH]; simpl;
        [reflexivity|]. now rewrite IH, same_key_sym.
Qed.

Lemma paired_swapped (df1 df2 : list Holding) :
  Permutation (map swap_sides (paired df1 df2)) (paired df2 df1).
Proof.
  unfold paired. induction df1 as [|o df1 IH]; simpl.
  - induction df2 as [|n df2 IH]; simpl; [apply perm_nil | exact IH].
  - rewrite map_app, map_map. cbn [swap_sides].
    apply perm_trans
      with (flat_map (fun n => (if same_key n o then [Both n o] else [])) df2
            ++ flat_map (fun n => map (Both n) (filter (same_key n) df1)) df2).
    + apply Permutation_app; [|exact IH].
      clear. induction df2 as [|n df2 IH]; simpl; [apply perm_nil|].
      rewrite (same_key_sym n o).
      destruct (same_key o n); simpl; [now apply perm_skip | exact IH].
    + apply Permutation_sym.
      apply perm_trans
        with (flat_map (fun n => (if same_key n o then [Both n o] else [])
                                 ++ map (Both n) (filter (same_key n) df1)) df2).
      * apply Permutation_refl'. apply flat_map_ext. intros n.
        destruct (same_key n o); reflexivity.
      * apply flat_map_app_perm.
Qed.

Lemma merge_outer_swapped (df1 df2 : list Holding) :
  Permutation (map swap_sides (merge_outer df1 df2)) (merge_outer df2 df1).
Proof.
  apply perm_trans
    with (map swap_sides (paired df1 df2 ++ map OnlyOld (lonely df1 df2)
                          ++ map OnlyNew (lonely df2 df1))).
  - apply Permutation_map, merge_outer_parts.
  - apply perm_trans
      with (paired df2 df1 ++ map OnlyOld (lonely df2 df1)
            ++ map OnlyNew (lonely df1 df2)).
    + rewrite !map_app, !map_map. cbn [swap_sides].
      apply Permutation_app; [apply paired_swapped | apply Permutation_app_comm].
    + apply Permutation_sym, merge_outer_parts.
Qed.

Lemma weight_change_swapped (m : Merged) :
  (merged_weight_change (swap_sides m) == - merged_weight_change m)%Q.
Proof. destruct m; unfold merged_weight_change; cbn; ring. Qed.

Lemma changed_swapped (m : Merged) :
  negb (Qeq_bool (merged_weight_change (swap_sides m)) 0)
  = negb (Qeq_bool (merged_weight_change m) 0).
Proof.
  f_equal. pose proof (weight_change_swapped m) as H.
  destruct (Qeq_bool (merged_weight_change m) 0) eqn:E.
  - apply Qeq_bool_iff in E. apply Qeq_bool_iff. rewrite H, E. reflexivity.
  - destruct (Qeq_bool (merged_weight_change (swap_sides m)) 0) eqn:E';
      [|reflexivity].
    apply Qeq_bool_iff in E'. rewrite H in E'.
    assert (Hz : (merged_weight_change m == 0)%Q).
    { rewrite <- (Qopp_involutive (merged_weight_change m)), E'. reflexivity. }
    apply Qeq_bool_iff in Hz. congruence.
Qed.

Lemma counts_swapped (df1 df2 : list Holding) :
  new_count (compare_frames df1 df2) = removed_count (compare_frames df2 df1)
  /\ removed_count (compare_frames df1 df2) = new_count (compare_frames df2 df1)
  /\ changed_count (compare_frames df1 df2) = changed_count (compare_frames df2 df1)
  /\ List.length (compare_frames df1 df2) = List.length (compare_frames df2 df1).
Proof.
  assert (Hp : Permutation (map swap_sides (compare_frames df1 df2))
                           (compare_frames df2 df1)).
  { unfold compare_frames.
    apply perm_trans with (map swap_sides (merge_outer df1 df2)).
    - apply Permutation_map, order_by_perm.
    - apply perm_trans with (merge_outer df2 df1);
        [apply merge_outer_swapped | apply Permutation_sym, order_by_perm]. }
  unfold new_count, removed_count, changed_count.
  rewrite <- !(count_if_perm _ _ _ Hp), !count_if_map.
  rewrite <- (Permutation_length Hp), length_map.
  repeat split; unfold count_if; f_equal; apply filter_ext; intros m.
  - now destruct m.
  - now destruct m.
  - symmetry. apply changed_swapped.
Qed.

(** X19: comparing the two dates the other way round gives as many rows,
    with the "new" and the "removed" count exchanged and the same "changed"
    count. *)
Theorem compare_dates_swapped :
  forall (env : Env) (etf d1 d2 : string) (w : World),
    query_fault env = false ->
    exists rows rows' w1 w2 new_holdings removed_holdings changed_holdings,
      compare_dates env etf d1 d2 w = (inr rows, w1)
      /\ compare_dates env etf d2 d1 w = (inr rows', w2)
      /\ console w1 = console w ++ [ComparisonCounts new_holdings removed_holdings
                                                      changed_holdings]
      /\ console w2 = console w ++ [ComparisonCounts removed_holdings new_holdings
                                                      changed_holdings]
      /\ List.length rows = List.length rows'.
Proof.
  intros env etf d1 d2 w Hfault.
  rewrite (compare_dates_eq env etf d1 d2 w Hfault),
          (compare_dates_eq env etf d2 d1 w Hfault). cbv zeta.
  destruct (counts_swapped (select_by_date etf d1 (holdings w))
                           (select_by_date etf d2 (holdings w)))
    as [Hn [Hr [Hc Hl]]].
  do 7 eexists. split; [reflexivity|]. split; [reflexivity|]. cbn [console].
  split; [reflexivity|]. split.
  - rewrite Hn, Hr, Hc. reflexivity.
  - rewrite !length_map. exact Hl.
Qed.

Lemma compare_dates_swapped_witness :
  exists rows rows' w1 w2 new_holdings removed_holdings changed_holdings,
    compare_dates sample_env "EMBI" "2025-01-01" "2025-01-15"
      (world_of sample_store) = (inr rows, w1)
    /\ compare_dates sample_env "EMBI" "2025-01-15" "2025-01-01"
         (world_of sample_store) = (inr rows', w2)
    /\ console w1
       = console (world_of sample_store)
         ++ [ComparisonCounts new_holdings removed_holdings changed_holdings]
    /\ console w2
       = console (world_of sample_store)
         ++ [ComparisonCounts removed_holdings new_holdings changed_holdings]
    /\ List.length rows = List.length rows'.
Proof.
  apply (compare_dates_swapped sample_env "EMBI" "2025-01-01" "2025-01-15"
           (world_of sample_store)).
  reflexivity.
Defined.

(** ** track_bond_over_time *)

Lemma track_bond_over_time_eq (env : Env) (ticker_arg name_arg etf_arg : option string)
      (t n : option string) (w : World) :
  query_fault env = false ->
  pasted ticker_arg = inr t -> pasted name_arg = inr n ->
  track_bond_over_time env ticker_arg name_arg etf_arg w
  = (inr (map bond_point (track_rows t n (truthy etf_arg) (holdings w))),
     mkWorld (holdings w) (open_connections w) (console w)).
Proof.
  intros Hf Ht Hn.
  unfold track_bond_over_time, track_statement, read_statement.
  rewrite Ht, Hn.
  unfold bind, connect, read_sql, close, ret.
  cbn [holdings open_connections console]. now rewrite Hf.
Qed.

Lemma pasted_not_given (arg : option string) :
  truthy arg = None -> pasted arg = inr None.
Proof. unfold pasted. now intros ->. Qed.

Lemma string_compare_Gt_Lt (a b : string) :
  String.compare a b = Gt -> String.compare b a = Lt.
Proof.
  intros H. rewrite String.compare_antisym, H. reflexivity.
Qed.

Lemma string_compare_Lt_trans (a b c : string) :
  String.compare a b = Lt -> String.compare b c = Lt -> String.compare a c = Lt.
Proof.
  intros H1 H2. apply String_as_OT.cmp_lt in H1, H2.
  apply (String_as_OT.cmp_lt a c). now apply String_as_OT.lt_trans with b.
Qed.

Lemma date_etf_leb_total (x y : Holding) :
  date_etf_leb x y = false -> date_etf_leb y x = true.
Proof.
  unfold date_etf_leb.
  destruct (String.compare (date_of_pull x) (date_of_pull y)) eqn:E;
    try discriminate.
  - apply String.compare_eq_iff in E. rewrite E, string_compare_refl.
    intros H. destruct (String.leb_total (etf_code x) (etf_code y)); congruence.
  - intros _. now rewrite (string_compare_Gt_Lt _ _ E).
Qed.

Lemma date_etf_leb_trans (x y z : Holding) :
  date_etf_leb x y = true -> date_etf_leb y z = true -> date_etf_leb x z = true.
Proof.
  unfold date_etf_leb.
  destruct (String.compare (date_of_pull x) (date_of_pull y)) eqn:E1;
    try discriminate;
    destruct (String.compare (date_of_pull y) (date_of_pull z)) eqn:E2;
    try discriminate; intros H1 H2.
  - apply String.compare_eq_iff in E1, E2. rewrite E1, E2, string_compare_refl.
    now apply string_leb_trans with (etf_code y).
  - apply String.compare_eq_iff in E1. now rewrite E1, E2.
  - apply String.compare_eq_iff in E2. now rewrite <- E2, E1.
  - now rewrite (string_compare_Lt_trans _ _ _ E1 E2).
Qed.

Lemma filter_true {A : Type} (l : list A) : filter (fun _ => true) l = l.
Proof. induction l as [|x l IH]; simpl; congruence. Qed.

(** X20: called without arguments, or with empty strings for arguments,
    [track_bond_over_time] returns every stored row, each once, ordered by
    date and then by ETF code. *)
Theorem track_bond_over_time_no_filter :
  forall (env : Env) (ticker_arg name_arg etf_arg : option string) (w : World),
    query_fault env = false ->
    truthy ticker_arg = None -> truthy name_arg = None -> truthy etf_arg = None ->
    exists rows w',
      track_bond_over_time env ticker_arg name_arg etf_arg w = (inr rows, w')
      /\ holdings w' = holdings w
      /\ Permutation rows (map bond_point (holdings w)).
Proof.
  intros env t n e w Hf Ht Hn He.
  rewrite (track_bond_over_time_eq env t n e None None w Hf
             (pasted_not_given t Ht) (pasted_not_given n Hn)).
  rewrite He.
  do 2 eexists. split; [reflexivity|]. split; [reflexivity|].
  apply Permutation_map. unfold track_rows.
  apply perm_trans with (filter (track_where None None None) (holdings w));
    [apply order_by_perm|].
  apply Permutation_refl'. apply filter_true.
Qed.

Lemma track_bond_over_time_no_filter_witness :
  exists rows w',
    track_bond_over_time sample_env (Some "") None (Some "") (world_of sample_store)
    = (inr rows, w')
    /\ holdings w' = holdings (world_of sample_store)
    /\ Permutation rows (map bond_point (holdings (world_of sample_store))).
Proof.
  apply (track_bond_over_time_no_filter sample_env (Some "") None (Some "")
           (world_of sample_store)); reflexivity.
Defined.

(** *** LIKE *)

Lemma sql_like_percent (pattern s : string) :
  sql_like (String "%" pattern) s
  = sql_like pattern s
    || match s with
       | EmptyString => false
       | String _ s' => sql_like (String "%" pattern) s'
       end.
Proof. destruct s; reflexivity. Qed.

Lemma sql_like_percent_skip (pattern s : string) (c : ascii) :
  sql_like (String "%" pattern) s = true ->
  sql_like (String "%" pattern) (String c s) = true.
Proof.
  intros H. rewrite sql_like_percent, H. apply orb_true_r.
Qed.

Lemma sql_like_percent_here (pattern s : string) :
  sql_like pattern s = true -> sql_like (String "%" pattern) s = true.
Proof.
  intros H. rewrite sql_like_percent, H. reflexivity.
Qed.

Lemma sql_like_any (s : string) : sql_like "%" s = true.
Proof.
  induction s as [|c s IH].
  - reflexivity.
  - now apply sql_like_percent_skip.
Qed.

(** Only the underscore folds to the underscore. *)
Lemma ascii_lower_underscore (c : ascii) :
  ascii_lower c = "_"%char -> c = "_"%char.
Proof.
  destruct c as [[] [] [] [] [] [] [] []]; vm_compute; intros H;
    try discriminate H; reflexivity.
Qed.

(** A pattern matches a text that spells it in any letter case, with
    anything behind. *)
Lemma sql_like_prefix (n m b : string) :
  string_lower m = string_lower n ->
  sql_like (n ++ "%") (m ++ b) = true.
Proof.
  revert m. induction n as [|p n IH]; intros [|c m] H; simpl in H;
    try discriminate.
  - apply sql_like_any.
  - injection H as Hc Hm. specialize (IH m Hm).
    change ((String p n ++ "%")%string) with (String p (n ++ "%")).
    change ((String c m ++ b)%string) with (String c (m ++ b)).
    destruct (Ascii.eqb p "%") eqn:Ep.
    + apply Ascii.eqb_eq in Ep. subst p.
      now apply sql_like_percent_skip, sql_like_percent_here.
    + cbn [sql_like]. rewrite Ep.
      destruct (Ascii.eqb p "_") eqn:Eu.
      * apply Ascii.eqb_eq in Eu. subst p.
        apply ascii_lower_underscore in Hc. subst c. exact IH.
      * now rewrite IH, Hc, Ascii.eqb_refl.
Qed.

Lemma sql_like_contains (n a m b : string) :
  string_lower m = string_lower n ->
  sql_like ("%" ++ n ++ "%") (a ++ m ++ b) = true.
Proof.
  intros H. change (("%" ++ n ++ "%")%string) with (String "%" (n ++ "%")).
  induction a as [|c a IH].
  - apply sql_like_percent_here.
    change (("" ++ m ++ b)%string) with ((m ++ b)%string).
    now apply sql_like_prefix.
  - change ((String c a ++ m ++ b)%string) with (String c (a ++ m ++ b)).
    now apply sql_like_percent_skip.
Qed.

(** A pattern without wildcards matches only a text that spells it. *)
Lemma sql_like_prefix_inv (n s : string) :
  no_wildcard n = true ->
  sql_like (n ++ "%") s = true ->
  exists m b, s = (m ++ b)%string /\ string_lower m = string_lower n.
Proof.
  revert s. induction n as [|p n IH]; intros s Hn H.
  - exists EmptyString, s. split; reflexivity.
  - cbn [no_wildcard] in Hn.
    apply andb_true_iff in Hn. destruct Hn as [Hn Hn'].
    apply andb_true_iff in Hn. destruct Hn as [Ep Eu].
    apply negb_true_iff in Ep, Eu.
    change ((String p n ++ "%")%string) with (String p (n ++ "%")) in H.
    cbn [sql_like] in H. rewrite Ep, Eu in H.
    destruct s as [|c s]; [discriminate|].
    apply andb_true_iff in H. destruct H as [Hc H].
    apply Ascii.eqb_eq in Hc.
    destruct (IH s Hn' H) as [m [b [-> Hm]]].
    exists (String c m), b. split; [reflexivity|].
    cbn [string_lower]. now rewrite Hc, Hm.
Qed.

Lemma sql_like_contains_inv (n s : string) :
  no_wildcard n = true ->
  sql_like ("%" ++ n ++ "%") s = true ->
  exists a m b, s = (a ++ m ++ b)%string /\ string_lower m = string_lower n.
Proof.
  intros Hn. change (("%" ++ n ++ "%")%string) with (String "%" (n ++ "%")).
  induction s as [|c s IH]; intros H; rewrite sql_like_percent in H;
    apply orb_true_iff in H; destruct H as [H|H]; try discriminate.
  - destruct (sql_like_prefix_inv n _ Hn H) as [m [b [Hs Hm]]].
    exists EmptyString, m, b. auto.
  - destruct (sql_like_prefix_inv n _ Hn H) as [m [b [Hs Hm]]].
    exists EmptyString, m, b. auto.
  - destruct (IH H) as [a [m [b [-> Hm]]]].
    exists (String c a), m, b. auto.
Qed.

(** The wildcard [_] takes a whole character: the two bytes of an accented
    letter are matched by one underscore and not by two. *)
Lemma sql_like_underscore_is_one_character :
  sql_like "M_XICO" "MÉXICO" = true
  /\ sql_like "M__XICO" "MÉXICO" = false
  /\ sql_like "m_xico" "MEXICO" = true.
Proof. vm_compute. repeat split; reflexivity. Qed.

(** X21: when the ticker and the name given are texts that can stand
    between quotes (no quote standing alone), the rows
    [track_bond_over_time] returns come ordered by date, then ETF code, and
    each satisfies every filter given: it has exactly the ticker asked for
    (a row without ticker is never returned then), exactly the ETF code
    asked for, and a name (not null) which, for an argument without the
    wildcards [%] and [_], contains the argument up to the case of ASCII
    letters. *)
Theorem track_bond_over_time_filters :
  forall (env : Env) (ticker_arg name_arg etf_arg t n : option string) (w : World),
    query_fault env = false ->
    pasted ticker_arg = inr t ->
    pasted name_arg = inr n ->
    exists rows w',
      track_bond_over_time env ticker_arg name_arg etf_arg w = (inr rows, w')
      /\ StronglySorted
           (fun a b =>
              String.compare (bp_date_of_pull a) (bp_date_of_pull b) = Lt
              \/ (bp_date_of_pull a = bp_date_of_pull b
                  /\ String.leb (bp_etf_code a) (bp_etf_code b) = true))
           rows
      /\ forall p, In p rows ->
           (forall literal, t = Some literal -> bp_ticker p = Some literal)
           /\ (forall e, truthy etf_arg = Some e -> bp_etf_code p = e)
           /\ (forall literal, n = Some literal ->
                 exists s,
                   bp_name p = Some s
                   /\ (no_wildcard literal = true ->
                       exists a m b,
                         s = (a ++ m ++ b)%string
                         /\ string_lower m = string_lower literal)).
Proof.
  intros env targ narg e t n w Hf Ht Hn.
  rewrite (track_bond_over_time_eq env targ narg e t n w Hf Ht Hn).
  do 2 eexists. split; [reflexivity|]. split.
  - apply StronglySorted_map. unfold track_rows.
    pose proof (order_by_sorted Holding date_etf_leb date_etf_leb_total
                  date_etf_leb_trans
                  (filter (track_where t n (truthy e)) (holdings w))) as Hs.
    induction Hs as [|h l Hs IH Hall]; constructor; [exact IH|].
    rewrite Forall_forall in *. intros x Hx. specialize (Hall x Hx).
    cbn [bp_date_of_pull bp_etf_code bond_point]. unfold date_etf_leb in Hall.
    destruct (String.compare (date_of_pull h) (date_of_pull x)) eqn:E;
      [right | left | discriminate]; [|reflexivity].
    apply String.compare_eq_iff in E. auto.
  - intros p Hp. apply in_map_iff in Hp. destruct Hp as [h [<- Hh]].
    unfold track_rows in Hh. apply order_by_In in Hh.
    apply filter_In in Hh. destruct Hh as [_ Hw]. unfold track_where in Hw.
    apply andb_true_iff in Hw. destruct Hw as [Hw He].
    apply andb_true_iff in Hw. destruct Hw as [Hti Hna].
    cbn [bp_ticker bp_etf_code bp_name bond_point]. split; [|split].
    + intros lit ->. unfold eqb_notnull in Hti.
      destruct (ticker h) as [x|]; [|discriminate].
      apply String.eqb_eq in Hti. now subst.
    + intros e' Heq. rewrite Heq in He. now apply String.eqb_eq in He.
    + intros lit ->. unfold name_like in Hna.
      destruct (name h) as [s|]; [|discriminate].
      exists s. split; [reflexivity|]. intros Hnw.
      now apply sql_like_contains_inv.
Qed.

Lemma track_bond_over_time_filters_witness :
  exists rows w',
    track_bond_over_time sample_env (Some "MEX10Y") (Some "mexico") (Some "EMBI")
      (world_of sample_store) = (inr rows, w')
    /\ StronglySorted
         (fun a b =>
            String.compare (bp_date_of_pull a) (bp_date_of_pull b) = Lt
            \/ (bp_date_of_pull a = bp_date_of_pull b
                /\ String.leb (bp_etf_code a) (bp_etf_code b) = true))
         rows
    /\ forall p, In p rows ->
         (forall literal, Some "MEX10Y" = Some literal -> bp_ticker p = Some literal)
         /\ (forall e, truthy (Some "EMBI") = Some e -> bp_etf_code p = e)
         /\ (forall literal, Some "mexico" = Some literal ->
               exists s,
                 bp_name p = Some s
                 /\ (no_wildcard literal = true ->
                     exists a m b,
                       s = (a ++ m ++ b)%string
                       /\ string_lower m = string_lower literal)).
Proof.
  apply (track_bond_over_time_filters sample_env (Some "MEX10Y") (Some "mexico")
           (Some "EMBI") (Some "MEX10Y") (Some "mexico") (world_of sample_store));
    reflexivity.
Defined.

(** The run behind the witness: the two MEXICO rows, the earlier first. *)
Lemma track_bond_over_time_example :
  fst (track_bond_over_time sample_env (Some "MEX10Y") (Some "mexico")
         (Some "EMBI") (world_of sample_store))
  = inr [bond_point holding_mex; bond_point holding_mex_later].
Proof. vm_compute. reflexivity. Qed.

(** X22: the name filter is a substring match that ignores the case of
    ASCII letters: when the argument is a text that can stand between
    quotes, two quotes in a row standing for one, a stored row whose name
    contains the text in any mix of upper and lower case is among the rows
    returned. *)
Theorem track_bond_over_time_name_contains :
  forall (env : Env) (name_arg literal a m b : string) (w : World) (h : Holding),
    query_fault env = false ->
    name_arg <> EmptyString ->
    sql_quoted name_arg = Some literal ->
    In h (holdings w) ->
    name h = Some (a ++ m ++ b)%string ->
    string_lower m = string_lower literal ->
    exists rows w',
      track_bond_over_time env None (Some name_arg) None w = (inr rows, w')
      /\ In (bond_point h) rows.
Proof.
  intros env n lit a m b w h Hf Hne Hq Hin Hname Hlow.
  assert (Hp : pasted (Some n) = inr (Some lit)).
  { unfold pasted.
    assert (Ht : truthy (Some n) = Some n)
      by (destruct n; [congruence | reflexivity]).
    now rewrite Ht, Hq. }
  rewrite (track_bond_over_time_eq env None (Some n) None None (Some lit) w Hf
             eq_refl Hp).
  do 2 eexists. split; [reflexivity|].
  apply in_map. unfold track_rows. apply order_by_In, filter_In.
  split; [exact Hin|]. unfold track_where.
  cbn [truthy]. unfold name_like. rewrite Hname.
  now rewrite (sql_like_contains lit a m b Hlow).
Qed.

Lemma track_bond_over_time_name_contains_witness :
  exists rows w',
    track_bond_over_time sample_env None (Some "Mexico") None
      (world_of sample_store) = (inr rows, w')
    /\ In (bond_point holding_mex) rows.
Proof.
  refine (track_bond_over_time_name_contains sample_env "Mexico" "Mexico" ""
            "MEXICO" " 2030" (world_of sample_store) holding_mex _ _ _ _ _ _).
  - reflexivity.
  - discriminate.
  - reflexivity.
  - simpl. tauto.
  - reflexivity.
  - reflexivity.
Defined.

(** A name with an apostrophe: pasted as it is, its quote ends the literal,
    the statement does not parse, and the call raises with its connection
    left open.  With the quote doubled the row is found. *)
Lemma track_bond_over_time_apostrophe :
  fst (track_bond_over_time sample_env None (Some "COTE D'IVOIRE") None
         (world_of [holding_ivory]))
  = inl OtherError
  /\ open_connections
       (snd (track_bond_over_time sample_env None (Some "COTE D'IVOIRE") None
               (world_of [holding_ivory]))) = 1
  /\ fst (track_bond_over_time sample_env None (Some "COTE D''IVOIRE") None
            (world_of [holding_ivory]))
     = inr [bond_point holding_ivory].
Proof. vm_compute. repeat split; reflexivity. Qed.

(** ** GROUP BY *)

Section GroupKeys.
Variable K : Type.
Variable cmp : K -> K -> comparison.
Hypothesis cmp_eq : forall a b, cmp a b = Eq <-> a = b.
Hypothesis cmp_antisym : forall a b, cmp a b = CompOpp (cmp b a).
Hypothesis cmp_trans : forall a b c, cmp a b = Lt -> cmp b c = Lt -> cmp a c = Lt.

Lemma insert_key_In (k x : K) (l : list K) :
  In x (insert_key cmp k l) <-> x = k \/ In x l.
Proof.
  induction l as [|y l IH]; simpl.
  - intuition.
  - destruct (cmp k y) eqn:E; simpl.
    + apply cmp_eq in E. subst. intuition.
    + intuition.
    + rewrite IH. intuition.
Qed.

Lemma group_keys_In (x : K) (l : list K) : In x (group_keys cmp l) <-> In x l.
Proof.
  induction l as [|y l IH]; simpl; [reflexivity|].
  rewrite insert_key_In, IH. intuition.
Qed.

Lemma insert_key_sorted (k : K) (l : list K) :
  StronglySorted (fun a b => cmp a b = Lt) l ->
  StronglySorted (fun a b => cmp a b = Lt) (insert_key cmp k l).
Proof.
  induction 1 as [|y l Hs IH Hall]; simpl.
  - constructor; constructor.
  - destruct (cmp k y) eqn:E.
    + now constructor.
    + constructor; [now constructor|]. constructor; [exact E|].
      rewrite Forall_forall in *. intros z Hz.
      apply cmp_trans with y; [exact E | now apply Hall].
    + constructor; [exact IH|].
      rewrite Forall_forall in *. intros z Hz.
      apply insert_key_In in Hz. destruct Hz as [->|Hz]; [|now apply Hall].
      rewrite cmp_antisym, E. reflexivity.
Qed.

Lemma group_keys_sorted (l : list K) :
  StronglySorted (fun a b => cmp a b = Lt) (group_keys cmp l).
Proof.
  induction l as [|k l IH]; simpl; [constructor | now apply insert_key_sorted].
Qed.

Lemma sorted_NoDup (l : list K) :
  StronglySorted (fun a b => cmp a b = Lt) l -> NoDup l.
Proof.
  induction 1 as [|y l Hs IH Hall]; constructor; [|exact IH].
  intros Hin. rewrite Forall_forall in Hall. specialize (Hall y Hin).
  rewrite (proj2 (cmp_eq y y) eq_refl) in Hall. discriminate.
Qed.

Lemma group_keys_NoDup (l : list K) : NoDup (group_keys cmp l).
Proof. apply sorted_NoDup, group_keys_sorted. Qed.
End GroupKeys.

Section GroupCounts.
Variables R K : Type.
Variable keyof : R -> K.
Variable same : K -> R -> bool.
Hypothesis same_spec : forall k r, same k r = true <-> keyof r = k.

Lemma one_group (r : R) (ks : list K) :
  NoDup ks -> In (keyof r) ks ->
  list_sum (map (fun k => if same k r then 1 else 0) ks) = 1.
Proof.
  induction 1 as [|k ks Hk Hnd IH]; intros Hin; [contradiction|]. simpl.
  destruct (same k r) eqn:E.
  - apply same_spec in E. subst k. f_equal.
    clear IH Hin. induction ks as [|k' ks IH]; [reflexivity|]. simpl.
    destruct (same k' r) eqn:E'.
    + apply same_spec in E'. exfalso. apply Hk. now left.
    + apply IH; [intros H; apply Hk; now right | now inversion Hnd].
  - destruct Hin as [->|Hin]; [|now apply IH].
    assert (same (keyof r) r = true) by now apply same_spec. congruence.
Qed.

Lemma count_if_cons_sum (r : R) (l : list R) (ks : list K) :
  list_sum (map (fun k => count_if (same k) (r :: l)) ks)
  = list_sum (map (fun k => if same k r then 1 else 0) ks)
    + list_sum (map (fun k => count_if (same k) l) ks).
Proof.
  induction ks as [|k ks IH]; [reflexivity|]. simpl. rewrite IH.
  unfold count_if. simpl filter. destruct (same k r); simpl; lia.
Qed.

(** The sizes of the groups add up to the number of rows. *)
Lemma group_sizes_add_up (l : list R) (ks : list K) :
  NoDup ks -> (forall r, In r l -> In (keyof r) ks) ->
  list_sum (map (fun k => count_if (same k) l) ks) = List.length l.
Proof.
  intros Hnd. induction l as [|r l IH]; intros Hin.
  - unfold count_if. simpl. clear.
    induction ks as [|k ks IHk]; simpl; [reflexivity | exact IHk].
  - rewrite count_if_cons_sum.
    rewrite (one_group r ks Hnd) by (apply Hin; now left).
    rewrite IH by (intros x Hx; apply Hin; now right). reflexivity.
Qed.

Lemma group_not_empty (l : list R) (r : R) :
  In r l -> 0 < count_if (same (keyof r)) l.
Proof.
  intros Hin. apply (count_if_pos _ _ r Hin). now apply same_spec.
Qed.
End GroupCounts.

Lemma string_compare_eq (a b : string) : String.compare a b = Eq <-> a = b.
Proof. apply String_as_OT.cmp_eq. Qed.

Lemma date_desc_eq (a b : string) : date_desc a b = Eq <-> a = b.
Proof. unfold date_desc. rewrite string_compare_eq. split; congruence. Qed.

Lemma date_desc_antisym (a b : string) : date_desc a b = CompOpp (date_desc b a).
Proof. unfold date_desc. apply String.compare_antisym. Qed.

Lemma date_desc_trans (a b c : string) :
  date_desc a b = Lt -> date_desc b c = Lt -> date_desc a c = Lt.
Proof.
  unfold date_desc. intros H1 H2. now apply string_compare_Lt_trans with b.
Qed.

Lemma date_desc_etf_asc_eq (a b : string * string) :
  date_desc_etf_asc a b = Eq <-> a = b.
Proof.
  destruct a as [d e], b as [d' e']. unfold date_desc_etf_asc. cbn [fst snd].
  destruct (String.compare d' d) eqn:E.
  - apply string_compare_eq in E. subst d'. rewrite string_compare_eq.
    split; congruence.
  - split; [discriminate|]. intros H. injection H as <- <-.
    rewrite string_compare_refl in E. discriminate.
  - split; [discriminate|]. intros H. injection H as <- <-.
    rewrite string_compare_refl in E. discriminate.
Qed.

Lemma date_desc_etf_asc_antisym (a b : string * string) :
  date_desc_etf_asc a b = CompOpp (date_desc_etf_asc b a).
Proof.
  destruct a as [d e], b as [d' e']. unfold date_desc_etf_asc. cbn [fst snd].
  rewrite (String.compare_antisym d d').
  destruct (String.compare d' d); cbn [CompOpp]; try reflexivity.
  apply String.compare_antisym.
Qed.

Lemma date_desc_etf_asc_trans (a b c : string * string) :
  date_desc_etf_asc a b = Lt -> date_desc_etf_asc b c = Lt ->
  date_desc_etf_asc a c = Lt.
Proof.
  destruct a as [d1 e1], b as [d2 e2], c as [d3 e3].
  unfold date_desc_etf_asc. cbn [fst snd].
  destruct (String.compare d2 d1) eqn:E1; try discriminate;
    destruct (String.compare d3 d2) eqn:E2; try discriminate; intros H1 H2.
  - apply string_compare_eq in E1, E2. subst.
    rewrite string_compare_refl. now apply string_compare_Lt_trans with e2.
  - apply string_compare_eq in E1. subst. now rewrite E2.
  - apply string_compare_eq in E2. subst. now rewrite E1.
  - now rewrite (string_compare_Lt_trans _ _ _ E2 E1).
Qed.

Lemma pulled_on_spec (d : string) (h : Holding) :
  pulled_on d h = true <-> date_of_pull h = d.
Proof. unfold pulled_on. apply String.eqb_eq. Qed.

Lemma pulled_on_for_spec (k : string * string) (h : Holding) :
  pulled_on_for k h = true <-> date_and_etf h = k.
Proof.
  destruct k as [d e]. unfold pulled_on_for, date_and_etf. cbn [fst snd].
  rewrite andb_true_iff, !String.eqb_eq. split; [intros [-> ->] | intros H];
    [reflexivity | now injection H as -> ->].
Qed.

(** ** get_country_exposure_over_time *)

Lemma read_sql_eq {A : Type} (fault : bool) (q : list Holding -> A) (w : World) :
  (connect ;;; df <- read_sql fault q ;; close ;;; ret df) w =
  if fault then
    (inl OtherError, mkWorld (holdings w) (S (open_connections w)) (console w))
  else
    (inr (q (holdings w)), mkWorld (holdings w) (open_connections w) (console w)).
Proof.
  unfold bind, connect, read_sql, close, ret.
  cbn [holdings open_connections console].
  destruct fault; reflexivity.
Qed.


Lemma exposure_row_counts (matching : list Holding) (ks : list string) :
  map num_holdings (map (exposure_row matching) ks)
  = map (fun d => count_if (pulled_on d) matching) ks.
Proof. rewrite map_map. reflexivity. Qed.

Lemma filter_filter_andb {A : Type} (p q : A -> bool) (l : list A) :
  filter p (filter q l) = filter (fun x => q x && p x) l.
Proof.
  induction l as [|x l IH]; simpl; [reflexivity|].
  destruct (q x); simpl; [destruct (p x)|]; congruence.
Qed.

(** *** SUM and AVG *)







(** The run behind the witness: the two Turkish bonds of 2025-01-01, with
    weights 1.1 and 0.4 and yields 8.5 and 9.0, make one row with the total
    1.5 and the mean 8.75. *)
Lemma get_country_exposure_example :
  exists total mean,
    fst (get_country_exposure_over_time sample_env "EMBI" "Turkey"
           (world_of sample_store))
    = inr [mkExposure "2025-01-01" (Some total) 2 (Some mean)]
    /\ (total == 15 # 10)%Q
    /\ (mean == 875 # 100)%Q.
Proof.
  do 2 eexists. split; [vm_compute; reflexivity|]. split; reflexivity.
Qed.

(** A location with an apostrophe, pasted as it is, makes the call raise;
    with the quote doubled its rows are found. *)
Lemma get_country_exposure_apostrophe :
  fst (get_country_exposure_over_time sample_env "EMBI" "Cote D'Ivoire"
         (world_of [holding_ivory]))
  = inl OtherError
  /\ map num_holdings
       (match fst (get_country_exposure_over_time sample_env "EMBI"
                     "Cote D''Ivoire" (world_of [holding_ivory])) with
        | inr rows => rows
        | inl _ => []
        end)
     = [1].
Proof. vm_compute. split; reflexivity. Qed.

(** ** get_available_dates *)

Lemma NoDup_map_injective {A B : Type} (f : A -> B) (l : list A) :
  (forall x y, f x = f y -> x = y) -> NoDup l -> NoDup (map f l).
Proof.
  intros Hinj. induction 1 as [|x l Hx Hnd IH]; simpl; constructor; [|exact IH].
  intros Hin. apply in_map_iff in Hin. destruct Hin as [y [Hy Hyl]].
  apply Hinj in Hy. subst. contradiction.
Qed.

Lemma string_compare_Lt_leb (a b : string) :
  String.compare a b = Lt -> String.leb a b = true.
Proof. unfold String.leb. now intros ->. Qed.

(** X24: [get_available_dates] returns one row per date on which the ETF
    has stored rows (per date and ETF when no ETF is asked for, an empty
    string counting as none), no group twice, with the later dates first.
    Every stored row of the ETF (every stored row, when none is asked for)
    finds the row of its date (and ETF) in the result; the count of a row
    is the number of stored rows of its date and ETF, which is at least
    one, and the counts add up to the number of stored rows of the ETF, or
    of the whole table. *)
Theorem get_available_dates_counts :
  forall (env : Env) (etf_arg : option string) (w : World),
    query_fault env = false ->
    exists rows w',
      get_available_dates env etf_arg w = (inr rows, w')
      /\ holdings w' = holdings w
      /\ list_sum (map dc_num_holdings rows)
         = List.length (match truthy etf_arg with
                        | Some e => filter (of_etf e) (holdings w)
                        | None => holdings w
                        end)
      /\ (forall r, In r rows -> 0 < dc_num_holdings r)
      /\ NoDup (map (fun r => (dc_date_of_pull r, dc_etf_code r)) rows)
      /\ StronglySorted
           (fun a b => String.leb (dc_date_of_pull b) (dc_date_of_pull a) = true)
           rows
      /\ (forall r, In r rows ->
                    match truthy etf_arg with
                    | Some _ => dc_etf_code r = None
                    | None => exists e, dc_etf_code r = Some e
                    end)
      /\ (forall r, In r rows ->
                    dc_num_holdings r
                    = List.length
                        (filter (fun h =>
                                   String.eqb (date_of_pull h) (dc_date_of_pull r)
                                   && match truthy etf_arg with
                                      | Some e => String.eqb (etf_code h) e
                                      | None => option_eqb (Some (etf_code h))
                                                           (dc_etf_code r)
                                      end)
                                (holdings w)))
      /\ (forall h, In h (holdings w) ->
                    (forall e, truthy etf_arg = Some e -> etf_code h = e) ->
                    exists r, In r rows
                              /\ dc_date_of_pull r = date_of_pull h
                              /\ (truthy etf_arg = None ->
                                  dc_etf_code r = Some (etf_code h))).
Proof.
  intros env etf_arg w Hf.
  unfold get_available_dates. rewrite read_sql_eq, Hf.
  do 2 eexists. split; [reflexivity|]. cbn [holdings].
  split; [reflexivity|]. unfold available_dates_query.
  destruct (truthy etf_arg) as [e|].
  - set (matching := filter (of_etf e) (holdings w)).
    pose proof (group_keys_sorted string date_desc date_desc_eq
                  date_desc_antisym date_desc_trans
                  (map date_of_pull matching)) as Hsorted.
    pose proof (sorted_NoDup string date_desc date_desc_eq _ Hsorted) as Hnd.
    split; [|split; [|split; [|split; [|split; [|split]]]]].
    + rewrite map_map. cbn [dc_num_holdings].
      apply (group_sizes_add_up Holding string date_of_pull pulled_on
               pulled_on_spec matching); [exact Hnd|].
      intros h Hh. apply (group_keys_In string date_desc date_desc_eq).
      now apply in_map.
    + intros r Hr. apply in_map_iff in Hr. destruct Hr as [d [<- Hd]].
      cbn [dc_num_holdings].
      apply (proj1 (group_keys_In string date_desc date_desc_eq _ _)) in Hd.
      apply in_map_iff in Hd. destruct Hd as [h [<- Hh]].
      exact (group_not_empty Holding string date_of_pull pulled_on pulled_on_spec
               matching h Hh).
    + rewrite map_map. cbn [dc_date_of_pull dc_etf_code].
      apply NoDup_map_injective; [congruence | exact Hnd].
    + apply StronglySorted_map. cbn [dc_date_of_pull].
      induction Hsorted as [|d l Hs IH Hall]; constructor.
      * apply IH. now inversion Hnd.
      * rewrite Forall_forall in *. intros x Hx.
        apply string_compare_Lt_leb. exact (Hall x Hx).
    + intros r Hr. apply in_map_iff in Hr. now destruct Hr as [d [<- _]].
    + intros r Hr. apply in_map_iff in Hr. destruct Hr as [d [<- _]].
      cbn [dc_num_holdings dc_date_of_pull]. unfold count_if, matching.
      rewrite filter_filter_andb. f_equal. apply filter_ext.
      intros h. unfold of_etf, pulled_on. apply andb_comm.
    + intros h Hh He.
      exists (mkDateCount (date_of_pull h) None
                          (count_if (pulled_on (date_of_pull h)) matching)).
      split; [|split; [reflexivity | discriminate]].
      apply (in_map (fun d => mkDateCount d None (count_if (pulled_on d) matching))).
      apply (group_keys_In string date_desc date_desc_eq).
      apply in_map. unfold matching. apply filter_In. split; [exact Hh|].
      apply of_etf_true. now apply He.
  - pose proof (group_keys_sorted (string * string) date_desc_etf_asc
                  date_desc_etf_asc_eq date_desc_etf_asc_antisym
                  date_desc_etf_asc_trans
                  (map date_and_etf (holdings w))) as Hsorted.
    pose proof (sorted_NoDup (string * string) date_desc_etf_asc
                  date_desc_etf_asc_eq _ Hsorted) as Hnd.
    split; [|split; [|split; [|split; [|split; [|split]]]]].
    + rewrite map_map. cbn [dc_num_holdings].
      apply (group_sizes_add_up Holding (string * string) date_and_etf
               pulled_on_for pulled_on_for_spec (holdings w)); [exact Hnd|].
      intros h Hh.
      apply (group_keys_In (string * string) date_desc_etf_asc
               date_desc_etf_asc_eq).
      now apply in_map.
    + intros r Hr. apply in_map_iff in Hr. destruct Hr as [k [<- Hk]].
      cbn [dc_num_holdings].
      apply (proj1 (group_keys_In (string * string) date_desc_etf_asc
                      date_desc_etf_asc_eq _ _)) in Hk.
      apply in_map_iff in Hk. destruct Hk as [h [<- Hh]].
      exact (group_not_empty Holding (string * string) date_and_etf
               pulled_on_for pulled_on_for_spec (holdings w) h Hh).
    + rewrite map_map. cbn [dc_date_of_pull dc_etf_code].
      apply NoDup_map_injective; [|exact Hnd].
      intros [d1 e1] [d2 e2]. cbn [fst snd]. congruence.
    + apply StronglySorted_map. cbn [dc_date_of_pull].
      induction Hsorted as [|k l Hs IH Hall]; constructor.
      * apply IH. now inversion Hnd.
      * rewrite Forall_forall in *. intros x Hx. specialize (Hall x Hx).
        unfold date_desc_etf_asc in Hall. unfold String.leb.
        destruct (String.compare (fst x) (fst k)); [reflexivity | reflexivity |
          discriminate].
    + intros r Hr. apply in_map_iff in Hr. destruct Hr as [k [<- _]].
      exists (snd k). reflexivity.
    + intros r Hr. apply in_map_iff in Hr. destruct Hr as [k [<- _]].
      cbn [dc_num_holdings dc_date_of_pull dc_etf_code option_eqb].
      reflexivity.
    + intros h Hh _.
      exists (mkDateCount (date_of_pull h) (Some (etf_code h))
                          (count_if (pulled_on_for (date_and_etf h)) (holdings w))).
      split; [|split; reflexivity].
      apply (in_map (fun k => mkDateCount (fst k) (Some (snd k))
                                (count_if (pulled_on_for k) (holdings w)))
                    _ (date_and_etf h)).
      apply (group_keys_In (string * string) date_desc_etf_asc
               date_desc_etf_asc_eq).
      now apply in_map.
Qed.

Lemma get_available_dates_counts_witness :
  exists rows w',
    get_available_dates sample_env (Some "") (world_of sample_store) = (inr rows, w')
    /\ holdings w' = holdings (world_of sample_store)
    /\ list_sum (map dc_num_holdings rows)
       = List.length (match truthy (Some "") with
                      | Some e => filter (of_etf e) (holdings (world_of sample_store))
                      | None => holdings (world_of sample_store)
                      end)
    /\ (forall r, In r rows -> 0 < dc_num_holdings r)
    /\ NoDup (map (fun r => (dc_date_of_pull r, dc_etf_code r)) rows)
    /\ StronglySorted
         (fun a b => String.leb (dc_date_of_pull b) (dc_date_of_pull a) = true)
         rows
    /\ (forall r, In r rows ->
                  match truthy (Some "") with
                  | Some _ => dc_etf_code r = None
                  | None => exists e, dc_etf_code r = Some e
                  end)
    /\ (forall r, In r rows ->
                  dc_num_holdings r
                  = List.length
                      (filter (fun h =>
                                 String.eqb (date_of_pull h) (dc_date_of_pull r)
                                 && match truthy (Some "") with
                                    | Some e => String.eqb (etf_code h) e
                                    | None => option_eqb (Some (etf_code h))
                                                         (dc_etf_code r)
                                    end)
                              (holdings (world_of sample_store))))
    /\ (forall h, In h (holdings (world_of sample_store)) ->
                  (forall e, truthy (Some "") = Some e -> etf_code h = e) ->
                  exists r, In r rows
                            /\ dc_date_of_pull r = date_of_pull h
                            /\ (truthy (Some "") = None ->
                                dc_etf_code r = Some (etf_code h))).
Proof.
  apply (get_available_dates_counts sample_env (Some "") (world_of sample_store)).
  reflexivity.
Defined.

(** The run behind the witness, and the same for one ETF: the later date
    first, four rows on 2025-01-01 and two on 2025-01-15. *)
Lemma get_available_dates_example :
  fst (get_available_dates sample_env None (world_of sample_store))
  = inr [mkDateCount "2025-01-15" (Some "EMBI") 2;
         mkDateCount "2025-01-01" (Some "EMBI") 4]
  /\ fst (get_available_dates sample_env (Some "EMBI") (world_of sample_store))
     = inr [mkDateCount "2025-01-15" None 2; mkDateCount "2025-01-01" None 4].
Proof. vm_compute. split; reflexivity. Qed.

(** ** get_database_stats *)

Lemma earlier_cases (a b : string) :
  (earlier a b = a \/ earlier a b = b)
  /\ String.leb (earlier a b) a = true
  /\ String.leb (earlier a b) b = true.
Proof.
  unfold earlier. destruct (String.leb a b) eqn:E.
  - repeat split; [now left | apply string_leb_refl | assumption].
  - repeat split; [now right | | apply string_leb_refl].
    destruct (String.leb_total a b); [congruence | assumption].
Qed.

Lemma fold_earlier (d : string) (l : list string) :
  In (fold_right earlier d l) (d :: l)
  /\ forall x, In x (d :: l) -> String.leb (fold_right earlier d l) x = true.
Proof.
  induction l as [|y l [IHin IHmin]]; simpl.
  - split; [now left|]. intros x [<-|[]]. apply string_leb_refl.
  - destruct (earlier_cases y (fold_right earlier d l)) as [Hc [Hy Hm]]. split.
    + destruct Hc as [->| ->]; [now right; left|].
      destruct IHin as [H|H]; [now left | now right; right].
    + intros x [<-|[<-|Hx]].
      * apply string_leb_trans with (fold_right earlier d l);
          [exact Hm | apply IHmin; now left].
      * exact Hy.
      * apply string_leb_trans with (fold_right earlier d l);
          [exact Hm | apply IHmin; now right].
Qed.

(** X25: [get_database_stats] reports the number of stored rows and the
    range of their dates: (None, None) on an empty table, else the earliest
    and the latest stored date, which bound every stored date. *)
Theorem get_database_stats_range :
  forall (env : Env) (w : World),
    query_fault env = false ->
    exists stats w',
      get_database_stats env w = (inr stats, w')
      /\ holdings w' = holdings w
      /\ total_records stats = List.length (holdings w)
      /\ (holdings w = [] -> date_range stats = (None, None))
      /\ (holdings w <> [] ->
          exists first_date last_date,
            date_range stats = (Some first_date, Some last_date)
            /\ In first_date (map date_of_pull (holdings w))
            /\ In last_date (map date_of_pull (holdings w))
            /\ forall h, In h (holdings w) ->
                 String.leb first_date (date_of_pull h) = true
                 /\ String.leb (date_of_pull h) last_date = true).
Proof.
  intros env w Hf. unfold get_database_stats. rewrite read_sql_eq, Hf.
  do 2 eexists. split; [reflexivity|]. cbn [holdings].
  split; [reflexivity|]. unfold stats_query. cbn [total_records date_range].
  split; [reflexivity|]. split.
  - intros ->. reflexivity.
  - intros Hne. destruct (holdings w) as [|h0 l]; [congruence|].
    cbn [map sql_min sql_max].
    destruct (fold_earlier (date_of_pull h0) (map date_of_pull l)) as [Hin1 Hmin].
    destruct (fold_later (date_of_pull h0) (map date_of_pull l)) as [Hin2 Hmax].
    do 2 eexists. split; [reflexivity|]. split; [exact Hin1|].
    split; [exact Hin2|]. intros h Hh.
    assert (Hd : In (date_of_pull h) (date_of_pull h0 :: map date_of_pull l))
      by (apply (in_map date_of_pull (h0 :: l)); exact Hh).
    split; [now apply Hmin | now apply Hmax].
Qed.

Lemma get_database_stats_range_witness :
  exists stats w',
    get_database_stats sample_env (world_of sample_store) = (inr stats, w')
    /\ holdings w' = holdings (world_of sample_store)
    /\ total_records stats = List.length (holdings (world_of sample_store))
    /\ (holdings (world_of sample_store) = [] -> date_range stats = (None, None))
    /\ (holdings (world_of sample_store) <> [] ->
        exists first_date last_date,
          date_range stats = (Some first_date, Some last_date)
          /\ In first_date (map date_of_pull (holdings (world_of sample_store)))
          /\ In last_date (map date_of_pull (holdings (world_of sample_store)))
          /\ forall h, In h (holdings (world_of sample_store)) ->
               String.leb first_date (date_of_pull h) = true
               /\ String.leb (date_of_pull h) last_date = true).
Proof.
  apply (get_database_stats_range sample_env (world_of sample_store)).
  reflexivity.
Defined.

(** ** Saving, then querying *)

Lemma filter_app_perm {A : Type} (p : A -> bool) (l1 l2 : list A) :
  filter p (l1 ++ l2) = filter p l1 ++ filter p l2.
Proof.
  induction l1 as [|x l1 IH]; simpl; [reflexivity|].
  destruct (p x); simpl; congruence.
Qed.

(** X26: what is saved can be read back.  After a save that returned
    [True], the snapshot of any ETF and date is the snapshot from before
    the save together with the rows of the batch that carry this ETF and
    date. *)
Theorem save_then_get_holdings_by_date :
  forall (env : Env) (df : Frame) (etf : string) (w w1 : World)
         (code date_str : string),
    save_to_database env df etf w = (inr true, w1) ->
    query_fault env = false ->
    exists before after,
      fst (get_holdings_by_date env code date_str w) = inr before
      /\ fst (get_holdings_by_date env code date_str w1) = inr after
      /\ Permutation after
           (before
            ++ filter (fun h => String.eqb (etf_code h) code
                                && String.eqb (date_of_pull h) date_str)
                      (frame_rows df)).
Proof.
  intros env df etf w w1 code d Hsave Hf.
  destruct (save_to_database_true env df etf w w1 Hsave) as [_ [Hrows _]].
  rewrite (get_holdings_by_date_eq env code d w Hf),
          (get_holdings_by_date_eq env code d w1 Hf).
  do 2 eexists. split; [reflexivity|]. split; [reflexivity|].
  unfold select_by_date. rewrite Hrows, filter_app_perm.
  eapply perm_trans; [apply order_by_perm|].
  apply Permutation_app; [apply Permutation_sym, order_by_perm|].
  apply Permutation_refl.
Qed.

Lemma save_then_get_holdings_by_date_witness :
  exists before after,
    fst (get_holdings_by_date sample_env "EMBI" "2025-01-15"
           (world_of [holding_mex])) = inr before
    /\ fst (get_holdings_by_date sample_env "EMBI" "2025-01-15"
              (mkWorld [holding_mex; holding_new; holding_mex_later] 0
                       [SavedRecords 2])) = inr after
    /\ Permutation after
         (before
          ++ filter (fun h => String.eqb (etf_code h) "EMBI"
                              && String.eqb (date_of_pull h) "2025-01-15")
                    (frame_rows (frame_of [holding_new; holding_mex_later]))).
Proof.
  apply (save_then_get_holdings_by_date sample_env
           (frame_of [holding_new; holding_mex_later]) "EMBI"
           (world_of [holding_mex])
           (mkWorld [holding_mex; holding_new; holding_mex_later] 0 [SavedRecords 2])
           "EMBI" "2025-01-15").
  - vm_compute. reflexivity.
  - reflexivity.
Defined.
